(** * Sales-Data-Analyzer: the aggregation and routing core, embedded in Rocq

    Shallow embedding of
      - src/crew/sales_analysis_crew.py   (query routing and the four handlers),
      - src/agents/data_analzyer.py       (summary, trends, growth rate),
      - src/agents/query_finder.py        (the verified LLM call).

    Modelling conventions.
      - A Python [str] is a [string]; the text operations ([lower], [split],
        [isdigit], [in]) are the ASCII ones, which is what Python does on
        ASCII text.
      - A Python exception is a value [Raise msg] of type [Result], where
        [msg] is what [str(e)] gives; [try ... except Exception as e] is a
        [match] on it.
      - A pandas cell that may be missing (NaN, NaT) is an [option].  The
        Quantity column is int64 when no cell is missing, and its sums then
        wrap around at 2^63 ([wrap64]); with a missing cell it is float64.
        A float is an exact rational or one of the three IEEE specials
        ([pyfloat]), so rounding is not modelled, and neither is the text
        of a formatted float ([PyFormat]).
      - The frame has the columns Year, Make, Model, Quantity and Price,
        which the loader and the crew require, and it may have the column
        Region, which nothing requires ([Region_column]); the years are
        calendar years that [pd.to_datetime] reads.  [groupby] drops the
        rows whose key is missing and sorts the groups by key; [sum] and
        [mean] skip missing cells.
      - The data frame is passed around by reference in the source; every
        operation that can write to it returns the frame it leaves behind.
      - [random] is a stream of draws; the clock, the log and the console
        are left out. *)

From Stdlib Require Import ZArith QArith List String Ascii Bool Lia.
From Stdlib Require Import Sorted Permutation OrderedTypeEx.
Import ListNotations.
Open Scope string_scope.

(* ================================================================== *)
(** * Part I. Definitions *)
(* ================================================================== *)

(** ** Python values: exceptions and text *)

Inductive Result (A : Type) : Type :=
| Ok (a : A)
| Raise (msg : string).
Arguments Ok {A} a.
Arguments Raise {A} msg.

Definition bind {A B : Type} (r : Result A) (k : A -> Result B) : Result B :=
  match r with
  | Ok a => k a
  | Raise m => Raise m
  end.

Notation "x <- r ;; k" := (bind r (fun x => k))
  (at level 61, r at next level, right associativity).

Module PyStr.

(** [c.lower()] on one ASCII character. *)
Definition lower_char (c : ascii) : ascii :=
  let n := nat_of_ascii c in
  if (65 <=? n)%nat && (n <=? 90)%nat then ascii_of_nat (n + 32) else c.

(** [s.lower()]. *)
Fixpoint lower (s : string) : string :=
  match s with
  | EmptyString => EmptyString
  | String c s' => String (lower_char c) (lower s')
  end.

(** [s.startswith(p)]. *)
Fixpoint startswith (p s : string) : bool :=
  match p, s with
  | EmptyString, _ => true
  | String _ _, EmptyString => false
  | String a p', String b s' => Ascii.eqb a b && startswith p' s'
  end.

(** [needle in hay]: substring containment. *)
Fixpoint contains (needle hay : string) : bool :=
  match hay with
  | EmptyString => startswith needle EmptyString
  | String _ hay' => startswith needle hay || contains needle hay'
  end.

(** [any(kw in text for kw in kws)]. *)
Definition any_in (kws : list string) (text : string) : bool :=
  existsb (fun kw => contains kw text) kws.

(** [c.isspace()] on ASCII: tab, LF, VT, FF, CR, the four separators
    0x1c..0x1f, and the space. *)
Definition isspace (c : ascii) : bool :=
  let n := nat_of_ascii c in
  ((9 <=? n)%nat && (n <=? 13)%nat) || ((28 <=? n)%nat && (n <=? 32)%nat).

(** [s.split()]: the maximal runs of non-whitespace characters, in order.
    [acc] is the token being read. *)
Fixpoint split_go (s acc : string) : list string :=
  match s with
  | EmptyString => if String.eqb acc "" then [] else [acc]
  | String c s' =>
      if isspace c
      then (if String.eqb acc "" then split_go s' "" else acc :: split_go s' "")
      else split_go s' (acc ++ String c "")
  end.

Definition split (s : string) : list string := split_go s "".

(** [words.index(x)]: position of the first element equal to [x];
    raises ValueError when there is none. *)
Fixpoint index_from (x : string) (words : list string) (i : nat) : option nat :=
  match words with
  | [] => None
  | w :: ws => if String.eqb w x then Some i else index_from x ws (S i)
  end.

Definition index (x : string) (words : list string) : Result nat :=
  match index_from x words 0 with
  | Some i => Ok i
  | None => Raise ("'" ++ x ++ "' is not in list")
  end.

Definition is_digit_char (c : ascii) : bool :=
  let n := nat_of_ascii c in (48 <=? n)%nat && (n <=? 57)%nat.

Fixpoint all_digits (s : string) : bool :=
  match s with
  | EmptyString => true
  | String c s' => is_digit_char c && all_digits s'
  end.

(** [s.isdigit()]: non-empty and made of digits only. *)
Definition isdigit (s : string) : bool :=
  match s with
  | EmptyString => false
  | _ => all_digits s
  end.

(** [int(s)] for a string of digits, read left to right. *)
Fixpoint int_go (s : string) (acc : nat) : nat :=
  match s with
  | EmptyString => acc
  | String c s' => int_go s' (10 * acc + (nat_of_ascii c - 48))
  end.

Definition int (s : string) : nat := int_go s 0.

(** [sep.join(lines)]. *)
Definition join (sep : string) (lines : list string) : string :=
  String.concat sep lines.

(** [str(z)] for an integer: decimal digits, most significant first. *)
Definition digit_char (d : Z) : ascii := ascii_of_nat (48 + Z.to_nat d).

Fixpoint str_go (fuel : nat) (z : Z) (acc : string) : string :=
  match fuel with
  | O => acc
  | S fuel' =>
      let acc' := String (digit_char (z mod 10)) acc in
      if (z <? 10)%Z then acc' else str_go fuel' (z / 10) acc'
  end.

Definition str_abs (z : Z) : string := str_go (S (Z.to_nat (Z.log2 z))) z "".

Definition str (z : Z) : string :=
  if (z <? 0)%Z then "-" ++ str_abs (- z) else str_abs z.

(** [format(z, ",")] for an integer: digits in groups of three. *)
Definition pad3 (z : Z) : string :=
  String (digit_char (z / 100))
    (String (digit_char ((z / 10) mod 10)) (String (digit_char (z mod 10)) "")).

Fixpoint comma_go (fuel : nat) (z : Z) : string :=
  match fuel with
  | O => str_abs z
  | S fuel' =>
      if (z <? 1000)%Z then str_abs z
      else comma_go fuel' (z / 1000) ++ "," ++ pad3 (z mod 1000)
  end.

Definition comma_int (z : Z) : string :=
  if (z <? 0)%Z then "-" ++ comma_go (Z.to_nat (Z.log2 (- z))) (- z)
  else comma_go (Z.to_nat (Z.log2 z)) z.

(** The newline character. *)
Definition nl : string := String (ascii_of_nat 10) "".

End PyStr.

(** ** Query categories: the branches of [_process_query] *)

Inductive Category : Type := Projection | Comparison | Ranking | General.

Definition projection_keywords : list string := ["projection"; "forecast"; "predict"].
Definition comparison_keywords : list string := ["compare"; "vs"; "versus"].
Definition ranking_keywords : list string := ["top"; "best"; "worst"; "ranking"].

(** The if/elif chain of [_process_query] (sales_analysis_crew.py 60-70):
    which handler the query goes to. *)
Definition classify (query : string) : Category :=
  let query_lower := PyStr.lower query in
  if PyStr.any_in projection_keywords query_lower then Projection
  else if PyStr.any_in comparison_keywords query_lower then Comparison
  else if PyStr.any_in ranking_keywords query_lower then Ranking
  else General.

(** ** Floats: exact rationals and the IEEE specials *)

Inductive pyfloat : Type :=
| Fin (q : Q)
| PInf
| NInf
| NaN.

Definition is_nan (x : pyfloat) : bool :=
  match x with NaN => true | _ => false end.

(** [a / b] for two finite numbers, as numpy divides: a zero divisor
    gives an infinity of the sign of [a], or NaN for 0/0. *)
Definition fdiv (a b : Q) : pyfloat :=
  if Qeq_bool b 0 then
    match Qcompare a 0 with
    | Gt => PInf
    | Lt => NInf
    | Eq => NaN
    end
  else Fin (a / b).

Definition fsub (x : pyfloat) (c : Q) : pyfloat :=
  match x with
  | Fin q => Fin (q - c)
  | other => other
  end.

Definition fadd (x y : pyfloat) : pyfloat :=
  match x, y with
  | NaN, _ | _, NaN => NaN
  | Fin a, Fin b => Fin (a + b)
  | PInf, NInf | NInf, PInf => NaN
  | PInf, _ | _, PInf => PInf
  | NInf, _ | _, NInf => NInf
  end.

(** Division of a float by a positive count. *)
Definition fdiv_count (x : pyfloat) (n : nat) : pyfloat :=
  match x with
  | Fin q => Fin (q / inject_Z (Z.of_nat n))
  | other => other
  end.

Definition fsum (xs : list pyfloat) : pyfloat := fold_left fadd xs (Fin 0).

(** [Series.mean()] with the default [skipna=True]: NaN entries are left
    out; the mean of nothing is NaN. *)
Definition mean (xs : list pyfloat) : pyfloat :=
  let present := filter (fun x => negb (is_nan x)) xs in
  match present with
  | [] => NaN
  | _ => fdiv_count (fsum present) (List.length present)
  end.

(** [Series.pct_change()] on a series of finite totals: the first entry is
    NaN, every later one is [t_i / t_(i-1) - 1]. *)
Fixpoint pct_change_from (prev : Z) (ts : list Z) : list pyfloat :=
  match ts with
  | [] => []
  | t :: ts' => fsub (fdiv (inject_Z t) (inject_Z prev)) 1 :: pct_change_from t ts'
  end.

Definition pct_change (ts : list Z) : list pyfloat :=
  match ts with
  | [] => []
  | t :: ts' => NaN :: pct_change_from t ts'
  end.

(** A column of optional floats (None is NaN) as floats. *)
Definition cell_float (c : option Q) : pyfloat :=
  match c with Some q => Fin q | None => NaN end.

(** ** The record store: a pandas DataFrame *)

(** One sales record.  [Year] is the calendar year of the cell (None is
    NaT); the categories and the numbers may be missing (None is NaN). *)
Record Row : Type := mkRow {
  Year : option Z;
  Make : option string;
  Model : option string;
  Quantity : option Z;
  Region : option string;
  Price : option Q
}.

(** How the Year column holds the calendar years: as integers (2023), or
    as timestamps (2023-01-01), which is what the loader's
    [parse_dates=['Year']] produces. *)
Inductive YearDtype : Type := year_int64 | year_datetime64.

(** The frame: its rows, the dtype of its Year column, whether the file
    had a column Region (the cells [Region] of the rows are read only when
    it had), and the column [Revenue], which the frame has only once
    somebody has assigned it. *)
Record DataFrame : Type := mkFrame {
  rows : list Row;
  Year_dtype : YearDtype;
  Region_column : bool;
  Revenue : option (list (option Q))
}.

(** A number in a result series: int64 or float64. *)
Inductive Num : Type :=
| NInt (z : Z)
| NFloat (q : Q).

Definition num_Q (n : Num) : Q :=
  match n with
  | NInt z => inject_Z z
  | NFloat q => q
  end.

(** The summary dictionary; [Raise msg] stands for [{'error': msg}]. *)
Record Summary : Type := mkSummary {
  total_sales : string;
  average_price : string;
  top_make_model : string;
  top_region : string;
  yearly_growth : pyfloat;
  price_distribution : string * string * string   (* min, max, median *)
}.

(** The trends dictionary. *)
Record Trends : Type := mkTrends {
  total_by_year : list (Z * Z);
  by_make : list (option string * list (Z * Z));
  by_region : list (string * list (Z * option Z));
  growth_rate : pyfloat
}.

(** What is not modelled of Python's text rendering: the float formats
    and the [str] of pandas objects. *)
Record PyFormat : Type := mkFormat {
  fmt_2f : pyfloat -> string;           (* format(x, ",.2f") *)
  fmt_comma : Q -> string;              (* format(x, ",") for a float *)
  fmt_pct1 : pyfloat -> string;         (* format(x, ".1%") *)
  repr_head : DataFrame -> string;      (* str(data.head().to_dict()) *)
  repr_context : Result Summary -> Result Trends -> list Row -> string
                                        (* str(context) *)
}.

(** [format(n, ",")]. *)
Definition format_num (fmt : PyFormat) (n : Num) : string :=
  match n with
  | NInt z => PyStr.comma_int z
  | NFloat q => fmt_comma fmt q
  end.

Module Pandas.

Section GroupBy.
Variables K V : Type.
Variable cmp : K -> K -> comparison.
Variable add : V -> V -> V.

(** One row entering the aggregation: the groups are kept sorted by key,
    and a row of a known key is added to its group. *)
Fixpoint insert_add (k : K) (v : V) (s : list (K * V)) : list (K * V) :=
  match s with
  | [] => [(k, v)]
  | (k', v') :: s' =>
      match cmp k k' with
      | Eq => (k', add v' v) :: s'
      | Lt => (k, v) :: s
      | Gt => (k', v') :: insert_add k v s'
      end
  end.

(** [groupby(key)[col].sum()] over the rows whose key is present, as a
    series sorted by key. *)
Definition insert_cell (s : list (K * V)) (kv : K * V) : list (K * V) :=
  insert_add (fst kv) (snd kv) s.

Definition groupby_sum (cells : list (K * V)) : list (K * V) :=
  fold_left insert_cell cells [].

End GroupBy.
Arguments insert_add {K V} cmp add k v s.
Arguments insert_cell {K V} cmp add s kv.
Arguments groupby_sum {K V} cmp add cells.

(** The rows that [groupby] keeps (it drops a row whose key is missing),
    each with its key and its value. *)
Definition keyed {R K V : Type} (key : R -> option K) (val : R -> V)
  (rs : list R) : list (K * V) :=
  flat_map (fun r => match key r with Some k => [(k, val r)] | None => [] end) rs.

(** Keys. *)
Definition key_Year (r : Row) : option Z := Year r.
Definition key_Region (r : Row) : option string := Region r.

Definition key_Make_Model (r : Row) : option (string * string) :=
  match Make r, Model r with
  | Some a, Some b => Some (a, b)
  | _, _ => None
  end.

Definition key_Year_Region (r : Row) : option (Z * string) :=
  match Year r, Region r with
  | Some y, Some g => Some (y, g)
  | _, _ => None
  end.

Definition cmp_pair {A B : Type} (ca : A -> A -> comparison)
  (cb : B -> B -> comparison) (x y : A * B) : comparison :=
  match ca (fst x) (fst y) with
  | Eq => cb (snd x) (snd y)
  | c => c
  end.

Definition cmp_Make_Model : string * string -> string * string -> comparison :=
  cmp_pair String.compare String.compare.

Definition cmp_Year_Region : Z * string -> Z * string -> comparison :=
  cmp_pair Z.compare String.compare.

(** Values: [sum] skips a missing cell. *)
Definition quantity_or_0 (r : Row) : Z :=
  match Quantity r with Some q => q | None => 0%Z end.

Definition price_or_0 (r : Row) : Q :=
  match Price r with Some p => p | None => 0 end.

Definition cell_or_0 (c : option Q) : Q :=
  match c with Some q => q | None => 0 end.

(** The dtype of the Quantity column: read_csv makes it float64 as soon as
    one cell is missing, int64 otherwise. *)
Definition quantity_is_float (rs : list Row) : bool :=
  existsb (fun r => match Quantity r with None => true | Some _ => false end) rs.

Definition quantity_num (rs : list Row) (z : Z) : Num :=
  if quantity_is_float rs then NFloat (inject_Z z) else NInt z.

(** int64: a value that leaves the range [-2^63, 2^63) wraps around. *)
Definition wrap64 (z : Z) : Z := ((z + 2 ^ 63) mod 2 ^ 64 - 2 ^ 63)%Z.

(** A value in a column that is float64 (exact here) or int64, and the
    addition of two values of the column. *)
Definition as_dtype (float64 : bool) (z : Z) : Z :=
  if float64 then z else wrap64 z.

Definition add_dtype (float64 : bool) (a b : Z) : Z := as_dtype float64 (a + b).

(** What a row brings to a sum of the Quantity column: its cell, which in
    an int64 column is an int64, and 0 for a missing cell. *)
Definition quantity_cell (float64 : bool) (r : Row) : Z :=
  as_dtype float64 (quantity_or_0 r).

(** [col.sum()] on (a part of) the Quantity column of dtype [float64]. *)
Definition sum_Quantity (float64 : bool) (rs : list Row) : Z :=
  fold_left (add_dtype float64) (map quantity_or_0 rs) 0%Z.

(** [series.idxmax()]: the key of the first largest value; raises on an
    empty series. *)
Fixpoint idxmax_from {K : Type} (best : K * Z) (s : list (K * Z)) : K :=
  match s with
  | [] => fst best
  | kv :: s' => if (snd best <? snd kv)%Z then idxmax_from kv s' else idxmax_from best s'
  end.

Definition idxmax {K : Type} (s : list (K * Z)) : Result K :=
  match s with
  | [] => Raise "attempt to get argmax of an empty sequence"
  | kv :: s' => Ok (idxmax_from kv s')
  end.

(** [series.unique()]: the distinct values in order of first appearance;
    a missing value is one of them. *)
Definition cell_eqb (x y : option string) : bool :=
  match x, y with
  | Some a, Some b => String.eqb a b
  | None, None => true
  | _, _ => false
  end.

Fixpoint unique (xs : list (option string)) : list (option string) :=
  match xs with
  | [] => []
  | x :: xs' => x :: filter (fun y => negb (cell_eqb x y)) (unique xs')
  end.

(** Sorting a series by value.  numpy's default sort is not stable in
    general; on the short series of this program it is the insertion sort
    below.  Descending order is produced as pandas does it: reverse, sort
    ascending, reverse. *)
Section Sort.
Variable A : Type.
Variable leb : A -> A -> bool.

Fixpoint insert_sorted (x : A) (l : list A) : list A :=
  match l with
  | [] => [x]
  | y :: l' => if leb x y then x :: l else y :: insert_sorted x l'
  end.

Fixpoint isort (l : list A) : list A :=
  match l with
  | [] => []
  | x :: l' => insert_sorted x (isort l')
  end.

End Sort.
Arguments insert_sorted {A} leb x l.
Arguments isort {A} leb l.

Definition value_leb {K : Type} (a b : K * Num) : bool :=
  Qle_bool (num_Q (snd a)) (num_Q (snd b)).

Definition sort_values {K : Type} (ascending : bool) (s : list (K * Num))
  : list (K * Num) :=
  if ascending then isort value_leb s else rev (isort value_leb (rev s)).

(** [series.head(n)]. *)
Definition head {A : Type} (n : nat) (s : list A) : list A := firstn n s.

(** The present cells of the Price column. *)
Definition prices (rs : list Row) : list Q :=
  flat_map (fun r => match Price r with Some p => [p] | None => [] end) rs.

(** [data['Price'].mean()], [.min()], [.max()], [.median()]. *)
Definition mean_Price (rs : list Row) : pyfloat :=
  mean (map (fun r => cell_float (Price r)) rs).

Definition Qmin_list (qs : list Q) : pyfloat :=
  match qs with
  | [] => NaN
  | q :: qs' => Fin (fold_left (fun a b => if Qle_bool b a then b else a) qs' q)
  end.

Definition Qmax_list (qs : list Q) : pyfloat :=
  match qs with
  | [] => NaN
  | q :: qs' => Fin (fold_left (fun a b => if Qle_bool a b then b else a) qs' q)
  end.

Definition median (qs : list Q) : pyfloat :=
  let sorted := isort Qle_bool qs in
  let n := List.length sorted in
  match n with
  | O => NaN
  | _ =>
      if Nat.odd n then Fin (nth (n / 2) sorted 0)
      else Fin ((nth (n / 2 - 1) sorted 0 + nth (n / 2) sorted 0) / 2)
  end.

End Pandas.

(** ** The Aggregator: agents/data_analzyer.py *)

Module Analyzer.
Import Pandas.

(** [data.groupby('Year', observed=True)['Quantity'].sum()] on the rows
    [rs] of a frame whose Quantity column has the dtype [float64]. *)
Definition yearly_sales (float64 : bool) (rs : list Row) : list (Z * Z) :=
  groupby_sum Z.compare (add_dtype float64) (keyed key_Year (quantity_cell float64) rs).

(** data_analzyer.py 58-64.  Nothing in [pct_change().mean()] raises, so
    the [except] branch (which would return 0.0) is never taken. *)
Definition _calculate_growth_rate (yearly_sales : list (Z * Z)) : pyfloat :=
  mean (pct_change (map snd yearly_sales)).

(** data_analzyer.py 49-56. *)
Definition _calculate_yearly_growth (data : DataFrame) : pyfloat :=
  mean (pct_change (map snd (yearly_sales (quantity_is_float (rows data)) (rows data)))).

(** [data.dropna(subset=['Make', 'Model', 'Quantity'])]. *)
Definition is_valid_row (r : Row) : bool :=
  match Make r, Model r, Quantity r with
  | Some _, Some _, Some _ => true
  | _, _, _ => false
  end.

Definition dropna_Make_Model_Quantity (rs : list Row) : list Row :=
  filter is_valid_row rs.

(** The body of the [try] of [_get_top_make_model].  [dropna] keeps the
    dtype of the column. *)
Definition top_make_model_body (data : DataFrame) : Result string :=
  match rows data with
  | [] => Ok "No data available"
  | _ =>
      let float64 := quantity_is_float (rows data) in
      let clean_data := dropna_Make_Model_Quantity (rows data) in
      match clean_data with
      | [] => Ok "No valid data available"
      | _ =>
          let grouped :=
            groupby_sum cmp_Make_Model (add_dtype float64)
              (keyed key_Make_Model (quantity_cell float64) clean_data) in
          match grouped with
          | [] => Ok "No sales data available"
          | _ =>
              top_combo <- idxmax grouped ;;
              Ok (fst top_combo ++ " " ++ snd top_combo)
          end
      end
  end.

(** data_analzyer.py 66-84. *)
Definition _get_top_make_model (data : DataFrame) : string :=
  match top_make_model_body data with
  | Ok s => s
  | Raise _ => "Unknown"
  end.

(** [data.groupby('Region', observed=True)['Quantity'].sum()]: KeyError
    when the frame has no column Region. *)
Definition groupby_Region (data : DataFrame) : Result (list (string * Z)) :=
  let float64 := quantity_is_float (rows data) in
  if Region_column data
  then Ok (groupby_sum String.compare (add_dtype float64)
             (keyed key_Region (quantity_cell float64) (rows data)))
  else Raise "'Region'".

(** data_analzyer.py 9-26.  The entries are computed in the order of the
    dictionary display; the first exception makes the whole summary
    [{'error': ...}]. *)
Definition get_sales_summary (fmt : PyFormat) (data : DataFrame) : Result Summary :=
  let rs := rows data in
  let total_sales :=
    format_num fmt (quantity_num rs (sum_Quantity (quantity_is_float rs) rs)) ++ " units" in
  let average_price := "$" ++ fmt_2f fmt (mean_Price rs) in
  let top_make_model := _get_top_make_model data in
  by_region <- groupby_Region data ;;
  top_region <- idxmax by_region ;;
  let yearly_growth := _calculate_yearly_growth data in
  let price_distribution :=
    ("$" ++ fmt_2f fmt (Qmin_list (prices rs)),
     "$" ++ fmt_2f fmt (Qmax_list (prices rs)),
     "$" ++ fmt_2f fmt (median (prices rs))) in
  Ok (mkSummary total_sales average_price top_make_model top_region
        yearly_growth price_distribution).

(** [pd.to_datetime(col.astype(str))] on one cell: the year is written
    as text ('2023', or '2023-01-01' from a timestamp, or 'NaT') and read
    back as the timestamp of the same calendar year. *)
Definition to_datetime_astype_str (y : option Z) : option Z := y.

(** [data['Year'] = col] for a column of timestamps: the column is
    replaced in the caller's frame. *)
Definition set_Year_row (r : Row) (y : option Z) : Row :=
  mkRow y (Make r) (Model r) (Quantity r) (Region r) (Price r).

Definition set_Year (data : DataFrame) (col : list (option Z)) : DataFrame :=
  mkFrame (map (fun ry => set_Year_row (fst ry) (snd ry)) (combine (rows data) col))
          year_datetime64 (Region_column data) (Revenue data).

(** The sorted distinct keys of a list. *)
Definition distinct_sorted {K : Type} (cmp : K -> K -> comparison) (ks : list K)
  : list K :=
  map fst (groupby_sum cmp (fun _ _ : unit => tt) (map (fun k => (k, tt)) ks)).

Definition lookup_Year_Region (k : Z * string) (s : list ((Z * string) * Z))
  : option Z :=
  match find (fun kv => match cmp_Year_Region k (fst kv) with Eq => true | _ => false end) s with
  | Some kv => Some (snd kv)
  | None => None
  end.

(** [data.groupby(['Year', 'Region'])['Quantity'].sum().unstack().to_dict()]
    on a frame that has the column Region: one entry per region, holding
    for every year of the index the group's sum or NaN. *)
Definition by_region_of (float64 : bool) (rs : list Row)
  : list (string * list (Z * option Z)) :=
  let grouped :=
    groupby_sum cmp_Year_Region (add_dtype float64)
      (keyed key_Year_Region (quantity_cell float64) rs) in
  let years := distinct_sorted Z.compare (map (fun kv => fst (fst kv)) grouped) in
  let regions := distinct_sorted String.compare (map (fun kv => snd (fst kv)) grouped) in
  map (fun g => (g, map (fun y => (y, lookup_Year_Region (y, g) grouped)) years)) regions.

(** [data[data['Make'] == make]]: a missing make selects nothing. *)
Definition rows_of_make (make : option string) (rs : list Row) : list Row :=
  match make with
  | Some m =>
      filter (fun r => match Make r with Some m' => String.eqb m' m | None => false end) rs
  | None => []
  end.

(** data_analzyer.py 28-47.  The first statement assigns the Year column of
    the caller's frame; the function returns the dictionary and the frame
    as it leaves it.  The entries are computed in the order of the
    dictionary display: without a column Region the third one raises
    KeyError, and the result is [{'error': "'Region'"}]. *)
Definition get_yearly_trends (data : DataFrame) : Result Trends * DataFrame :=
  let data := set_Year data (map to_datetime_astype_str (map Year (rows data))) in
  let rs := rows data in
  let float64 := quantity_is_float rs in
  let yearly := yearly_sales float64 rs in
  let by_make :=
    map (fun make => (make, yearly_sales float64 (rows_of_make make rs)))
        (unique (map Make rs)) in
  (by_region <- (if Region_column data then Ok (by_region_of float64 rs)
                 else Raise "'Region'") ;;
   Ok (mkTrends yearly by_make by_region (_calculate_growth_rate yearly)),
   data).

End Analyzer.

(** ** The LLM Gateway: agents/query_finder.py *)

Module Gateway.

(** The [random] module: a stream of raw draws and the position reached. *)
Record Rng : Type := mkRng {
  raw : nat -> Z;
  pos : nat
}.

(** [random.randint(a, b)]: the next draw, brought into [a..b]. *)
Definition randint (a b : Z) (g : Rng) : Z * Rng :=
  ((a + (raw g (pos g)) mod (b - a + 1))%Z, mkRng (raw g) (S (pos g))).

(** [last_call_metadata] (the wall-clock timestamp is left out). *)
Record CallMeta : Type := mkMeta {
  meta_call_id : Z;
  meta_prompt : string;
  meta_is_verification : bool
}.

(** The agent: the backend, which answers a prompt with a text or raises,
    and the metadata of the last call. *)
Record QueryHandlerAgent : Type := mkAgent {
  llm : option (string -> Result string);
  last_call_metadata : option CallMeta
}.

(** query_finder.py 59-95: draws an identifier of its own for the log,
    records the call, invokes the backend and re-raises what it raises. *)
Definition _call_llm (self : QueryHandlerAgent) (g : Rng) (prompt : string)
  (is_verification : bool) : Result string * QueryHandlerAgent * Rng :=
  let (call_id, g) := randint 100000 999999 g in
  let self := mkAgent (llm self) (Some (mkMeta call_id prompt is_verification)) in
  match llm self with
  | Some invoke => (invoke prompt, self, g)
  | None => (Raise "'NoneType' object has no attribute 'invoke'", self, g)
  end.

(** The prompt of [execute_task], query_finder.py 104-112. *)
Definition verified_prompt (call_id : Z) (task : string) : string :=
  PyStr.nl ++
  "        [CALL_ID:" ++ PyStr.str call_id ++ "]" ++ PyStr.nl ++
  "        [INSTRUCTION]" ++ PyStr.nl ++
  "        " ++ task ++ PyStr.nl ++
  "        " ++ PyStr.nl ++
  "        [REQUIREMENTS]" ++ PyStr.nl ++
  "        1. Include CALL_ID in response" ++ PyStr.nl ++
  "        2. Be accurate and concise" ++ PyStr.nl ++
  "        ".

(** The check of the response, query_finder.py 117-121. *)
Definition verify_response (call_id : Z) (response : string) : Result string :=
  if negb (PyStr.contains (PyStr.str call_id) response)
  then Raise ("Call ID missing in response: " ++ response)
  else Ok response.

(** query_finder.py 97-124. *)
Definition execute_task (self : QueryHandlerAgent) (g : Rng) (task : string)
  : string * QueryHandlerAgent * Rng :=
  match llm self with
  | None => ("LLM_NOT_INITIALIZED", self, g)
  | Some _ =>
      let (call_id, g) := randint 100000 999999 g in
      let '(response, self, g) := _call_llm self g (verified_prompt call_id task) false in
      match (r <- response ;; verify_response call_id r) with
      | Ok r => (r, self, g)
      | Raise e => ("LLM_ERROR: " ++ e, self, g)
      end
  end.

End Gateway.

(** ** The Query Router and the handlers: crew/sales_analysis_crew.py *)

Module Crew.
Import Pandas.

(** What one analysis run works on: the loaded frame, the crew's
    [query_handler], and the random generator. *)
Record State : Type := mkState {
  data : DataFrame;
  query_handler : Gateway.QueryHandlerAgent;
  random : Gateway.Rng
}.

(** *** Projection, sales_analysis_crew.py 72-80 *)

Definition projection_task (fmt : PyFormat) (data : DataFrame) : string :=
  "Generate sales projections based on: " ++ repr_head fmt data ++ PyStr.nl ++
  "Format response as:" ++ PyStr.nl ++
  "📈 3-Year Projection" ++ PyStr.nl ++
  "------------------------" ++ PyStr.nl ++
  "[content]".

Definition _handle_projection_query (fmt : PyFormat) (st : State) : string * State :=
  let '(response, qh, g) :=
    Gateway.execute_task (query_handler st) (random st) (projection_task fmt (data st)) in
  (response, mkState (data st) qh g).

(** *** Comparison, sales_analysis_crew.py 106-138 *)

(** The loop over [data['Make'].unique()]: a missing make has no [lower]
    and raises AttributeError. *)
Fixpoint collect_targets (makes : list (option string)) (query : string)
  : Result (list string) :=
  match makes with
  | [] => Ok []
  | None :: _ => Raise "'float' object has no attribute 'lower'"
  | Some make :: makes' =>
      rest <- collect_targets makes' query ;;
      Ok (if PyStr.contains (PyStr.lower make) (PyStr.lower query)
          then make :: rest else rest)
  end.

(** [data[data['Make'].str.lower() == target.lower()]]. *)
Definition target_data (target : string) (rs : list Row) : list Row :=
  filter (fun r => match Make r with
                   | Some m => String.eqb (PyStr.lower m) (PyStr.lower target)
                   | None => false
                   end) rs.

(** One entry of the [comparison] dictionary. *)
Record Stats : Type := mkStats {
  stat_total_sales : Num;
  stat_avg_price : pyfloat
}.

Definition stats_of (rs : list Row) (target : string) : Stats :=
  let td := target_data target rs in
  mkStats (quantity_num rs (sum_Quantity (quantity_is_float rs) td)) (mean_Price td).

Definition comparison_line (fmt : PyFormat) (target : string) (stats : Stats) : string :=
  "- " ++ target ++ ": " ++ format_num fmt (stat_total_sales stats) ++ " units sold, " ++
  "$" ++ fmt_2f fmt (stat_avg_price stats) ++ " avg price".

Definition comparison_body (fmt : PyFormat) (data : DataFrame) (query : string)
  : Result string :=
  targets <- collect_targets (unique (map Make (rows data))) query ;;
  if (List.length targets <? 2)%nat
  then Ok "Could not identify two models/makes to compare"
  else
    let comparison := map (fun t => (t, stats_of (rows data) t)) targets in
    let lines :=
      ("🔍 Comparison: " ++ PyStr.join " vs " targets)
      :: map (fun ts => comparison_line fmt (fst ts) (snd ts)) comparison in
    Ok (PyStr.join PyStr.nl lines).

Definition _handle_comparison_query (fmt : PyFormat) (data : DataFrame)
  (query : string) : string :=
  match comparison_body fmt data query with
  | Ok s => s
  | Raise e => "Could not complete comparison: " ++ e
  end.

(** *** Ranking, sales_analysis_crew.py 140-177 *)

Inductive Metric : Type := ByQuantity | ByPrice | ByRevenue.

Definition metric_name (by_ : Metric) : string :=
  match by_ with
  | ByQuantity => "Quantity"
  | ByPrice => "Price"
  | ByRevenue => "Revenue"
  end.

(** Lines 143-148: the number of results. *)
Definition parse_n (query : string) : Result nat :=
  if PyStr.contains "top" (PyStr.lower query) then
    let words := PyStr.split (PyStr.lower query) in
    i <- PyStr.index "top" words ;;
    if (i + 1 <? List.length words)%nat && PyStr.isdigit (nth (i + 1) words "")
    then Ok (PyStr.int (nth (i + 1) words ""))
    else Ok 3%nat
  else Ok 3%nat.

(** [data['Quantity'] * data['Price']]: missing when either factor is. *)
Definition revenue_column (rs : list Row) : list (option Q) :=
  map (fun r => match Quantity r, Price r with
                | Some q, Some p => Some (inject_Z q * p)
                | _, _ => None
                end) rs.

(** Lines 150-155: the metric; choosing the revenue assigns the column
    [Revenue] of the caller's frame. *)
Definition choose_metric (data : DataFrame) (query : string) : Metric * DataFrame :=
  if PyStr.contains "expensive" (PyStr.lower query) then (ByPrice, data)
  else if PyStr.contains "revenue" (PyStr.lower query)
       then (ByRevenue,
             mkFrame (rows data) (Year_dtype data) (Region_column data)
                     (Some (revenue_column (rows data))))
       else (ByQuantity, data).

(** [data.groupby(['Make', 'Model'], observed=True)[by].sum()]. *)
Definition group_metric (by_ : Metric) (data : DataFrame)
  : Result (list ((string * string) * Num)) :=
  match by_ with
  | ByQuantity =>
      let float64 := quantity_is_float (rows data) in
      Ok (map (fun kv => (fst kv, quantity_num (rows data) (snd kv)))
            (groupby_sum cmp_Make_Model (add_dtype float64)
               (keyed key_Make_Model (quantity_cell float64) (rows data))))
  | ByPrice =>
      Ok (map (fun kv => (fst kv, NFloat (snd kv)))
            (groupby_sum cmp_Make_Model Qplus
               (keyed key_Make_Model price_or_0 (rows data))))
  | ByRevenue =>
      match Revenue data with
      | Some col =>
          Ok (map (fun kv => (fst kv, NFloat (snd kv)))
                (groupby_sum cmp_Make_Model Qplus
                   (keyed (fun rc => key_Make_Model (fst rc))
                          (fun rc => cell_or_0 (snd rc))
                          (combine (rows data) col))))
      | None => Raise "'Column not found: Revenue'"
      end
  end.

Definition ranking_line (fmt : PyFormat) (by_ : Metric)
  (entry : (string * string) * Num) : string :=
  let '((make, model), value) := entry in
  match by_ with
  | ByPrice => "- " ++ make ++ " " ++ model ++ ": $" ++ fmt_2f fmt (Fin (num_Q value))
  | _ => "- " ++ make ++ " " ++ model ++ ": " ++ format_num fmt value ++ " units"
  end.

(** The ranking that is printed: its size, its metric, its direction and
    its entries. *)
Record RankingResult : Type := mkRanking {
  rank_n : nat;
  rank_by : Metric;
  rank_ascending : bool;
  rank_results : list ((string * string) * Num)
}.

(** Lines 143-163, with the frame as the handler leaves it. *)
Definition ranking_body (data : DataFrame) (query : string)
  : Result RankingResult * DataFrame :=
  match parse_n query with
  | Raise e => (Raise e, data)
  | Ok n =>
      let (by_, data) := choose_metric data query in
      let ascending := PyStr.contains "worst" (PyStr.lower query) in
      (sums <- group_metric by_ data ;;
       Ok (mkRanking n by_ ascending (head n (sort_values ascending sums))),
       data)
  end.

(** Lines 165-173. *)
Definition format_ranking (fmt : PyFormat) (r : RankingResult) : string :=
  let title := if negb (rank_ascending r) then "🏆 Top" else "⚠️ Worst" in
  let lines :=
    (title ++ " " ++ PyStr.str (Z.of_nat (rank_n r)) ++ " by " ++
       metric_name (rank_by r) ++ ":")
    :: map (ranking_line fmt (rank_by r)) (rank_results r) in
  PyStr.join PyStr.nl lines.

Definition _handle_ranking_query (fmt : PyFormat) (data : DataFrame)
  (query : string) : string * DataFrame :=
  let (r, data) := ranking_body data query in
  match r with
  | Ok ranking => (format_ranking fmt ranking, data)
  | Raise e => ("Could not generate rankings: " ++ e, data)
  end.

(** *** General, sales_analysis_crew.py 179-199 *)

(** [self.query_handler.agent]: the class QueryHandlerAgent defines the
    attributes [llm] and [last_call_metadata] and no attribute [agent]. *)
Definition getattr_agent (qh : Gateway.QueryHandlerAgent)
  : Result Gateway.QueryHandlerAgent :=
  Raise "'QueryHandlerAgent' object has no attribute 'agent'".

Definition general_task (fmt : PyFormat) (query : string)
  (summary : Result Summary) (trends : Result Trends) (sample : list Row) : string :=
  "Answer this car sales question: " ++ query ++ PyStr.nl ++ PyStr.nl ++
  "Context: " ++ repr_context fmt summary trends sample.

(** Lines 187-195: the context is built, then the call is attempted. *)
Definition general_fallback (fmt : PyFormat) (st : State) (query : string)
  (summary : Result Summary) : Result string * State :=
  let (trends, data) := Analyzer.get_yearly_trends (data st) in
  let sample_data := head 3 (rows data) in
  let st := mkState data (query_handler st) (random st) in
  match getattr_agent (query_handler st) with
  | Raise e => (Raise e, st)
  | Ok agent =>
      let '(response, _, g) :=
        Gateway.execute_task agent (random st)
          (general_task fmt query summary trends sample_data) in
      (Ok response, mkState data (query_handler st) g)
  end.

(** Lines 183-185, then the fallback. *)
Definition general_body (fmt : PyFormat) (st : State) (query : string)
  : Result string * State :=
  let summary := Analyzer.get_sales_summary fmt (data st) in
  match summary with
  | Ok s =>
      if PyStr.contains "growth" (PyStr.lower query)
      then (Ok ("Average yearly growth: " ++ fmt_pct1 fmt (yearly_growth s)), st)
      else general_fallback fmt st query summary
  | Raise _ => general_fallback fmt st query summary
  end.

Definition _handle_general_query (fmt : PyFormat) (st : State) (query : string)
  : string * State :=
  let (r, st) := general_body fmt st query in
  match r with
  | Ok s => (s, st)
  | Raise _ => ("Could not process this query", st)
  end.

(** *** Routing, sales_analysis_crew.py 58-70 *)

Definition _process_query (fmt : PyFormat) (st : State) (query : string)
  : string * State :=
  match classify query with
  | Projection => _handle_projection_query fmt st
  | Comparison => (_handle_comparison_query fmt (data st) query, st)
  | Ranking =>
      let (s, data) := _handle_ranking_query fmt (data st) query in
      (s, mkState data (query_handler st) (random st))
  | General => _handle_general_query fmt st query
  end.

(** *** The operations of one run, sales_analysis_crew.py 31-47 *)

Inductive Operation : Type :=
| OpSummary
| OpTrends
| OpQuery (query : string).

(** The state an operation leaves behind. *)
Definition step (fmt : PyFormat) (st : State) (op : Operation) : State :=
  match op with
  | OpSummary => st
  | OpTrends =>
      mkState (snd (Analyzer.get_yearly_trends (data st))) (query_handler st) (random st)
  | OpQuery query => snd (_process_query fmt st query)
  end.

Definition steps (fmt : PyFormat) (st : State) (ops : list Operation) : State :=
  fold_left (step fmt) ops st.

End Crew.

(** ** What the claims speak of *)

(** [kw] occurs in [s]. *)
Definition Substring (kw s : string) : Prop :=
  exists pre post, s = pre ++ kw ++ post.

(** [kw] occurs in [q] when case is ignored: some stretch of [q] is [kw]
    once lowercased. *)
Definition OccursNoCase (kw q : string) : Prop :=
  exists w, Substring w q /\ PyStr.lower w = kw.

(** The growth formula in the words of the specification: for totals
    t_1..t_n, the mean over i = 2..n of (t_i - t_(i-1)) / t_(i-1). *)
Fixpoint yoy_changes (prev : Z) (ts : list Z) : list Q :=
  match ts with
  | [] => []
  | t :: ts' => ((inject_Z t - inject_Z prev) / inject_Z prev) :: yoy_changes t ts'
  end.

Definition Qsum (qs : list Q) : Q := fold_right Qplus 0 qs.

Definition growth_formula (ts : list Z) : Q :=
  match ts with
  | [] => 0
  | t1 :: rest => Qsum (yoy_changes t1 rest) / inject_Z (Z.of_nat (List.length rest))
  end.

(** A float that is greater than zero. *)
Definition fpositive (x : pyfloat) : Prop :=
  match x with
  | Fin q => 0 < q
  | PInf => True
  | _ => False
  end.

(** A float that is zero. *)
Definition fzero (x : pyfloat) : Prop :=
  match x with
  | Fin q => q == 0
  | _ => False
  end.

(** Series sorted by key, and the value filed under a key. *)
Section Series.
Variables K V : Type.
Variable cmp : K -> K -> comparison.
Variable add : V -> V -> V.

Definition key_lt (x y : K * V) : Prop := cmp (fst x) (fst y) = Lt.

Definition is_key (k : K) (kv : K * V) : bool :=
  match cmp k (fst kv) with Eq => true | _ => false end.

Definition lookup (k : K) (s : list (K * V)) : option V :=
  option_map snd (find (is_key k) s).

(** What one more row does to the value under a key. *)
Definition update (k : K) (acc : option V) (kv : K * V) : option V :=
  if is_key k kv
  then Some (match acc with Some a => add a (snd kv) | None => snd kv end)
  else acc.

End Series.
Arguments key_lt {K V} cmp x y.
Arguments is_key {K V} cmp k kv.
Arguments lookup {K V} cmp k s.
Arguments update {K V} cmp add k acc kv.

(** The changes as the code computes them, [t / prev - 1]. *)
Fixpoint ratio_changes (prev : Z) (ts : list Z) : list Q :=
  match ts with
  | [] => []
  | t :: ts' => (inject_Z t / inject_Z prev - 1) :: ratio_changes t ts'
  end.

(** The totals that are divided by, all but the last, are not zero. *)
Fixpoint divisors_nonzero (prev : Z) (ts : list Z) : Prop :=
  match ts with
  | [] => True
  | t :: ts' => prev <> 0%Z /\ divisors_nonzero t ts'
  end.

(** The quantity values of a list of records, and their sum for the
    records of one year. *)
Definition quantity_values (rs : list Row) : list Z :=
  flat_map (fun r => match Quantity r with Some q => [q] | None => [] end) rs.

Definition Zsum (zs : list Z) : Z := fold_right Z.add 0%Z zs.

Definition has_year (y : Z) (r : Row) : bool :=
  match Year r with Some y' => Z.eqb y' y | None => false end.

Definition year_total (y : Z) (rs : list Row) : Z :=
  Zsum (quantity_values (filter (has_year y) rs)).

(** A sum [z] of quantity values as the Quantity column of [rs] holds it:
    exactly when the column is float64, wrapped around when it is int64;
    and the sums that an int64 holds as they are. *)
Definition as_Quantity (rs : list Row) (z : Z) : Z :=
  Pandas.as_dtype (Pandas.quantity_is_float rs) z.

Definition fits_int64 (z : Z) : Prop := (- 2 ^ 63 <= z < 2 ^ 63)%Z.

Definition exact_Quantity (rs : list Row) (z : Z) : Prop :=
  Pandas.quantity_is_float rs = true \/ fits_int64 z.

(** Equality of floats: of the rationals, or the same special. *)
Definition feq (x y : pyfloat) : Prop :=
  match x, y with
  | Fin a, Fin b => a == b
  | PInf, PInf | NInf, NInf | NaN, NaN => True
  | _, _ => False
  end.

(** The mean of a list of numbers; of no number, NaN. *)
Definition mean_of (qs : list Q) : pyfloat :=
  match qs with
  | [] => NaN
  | _ => Fin (Qsum qs / inject_Z (Z.of_nat (List.length qs)))
  end.

(** The present cells of a column of makes. *)
Definition present (cells : list (option string)) : list string :=
  flat_map (fun c => match c with Some m => [m] | None => [] end) cells.

(** The sum of the quantity values of the records of one (make, model)
    pair. *)
Definition has_pair (make model : string) (r : Row) : bool :=
  match Make r, Model r with
  | Some a, Some b => String.eqb a make && String.eqb b model
  | _, _ => false
  end.

Definition pair_total (make model : string) (rs : list Row) : Z :=
  Zsum (quantity_values (filter (has_pair make model) rs)).

(** The two writes to the frame: the Year column re-assigned as
    timestamps, and the column [Revenue] assigned. *)
Definition year_converted (d : DataFrame) : DataFrame :=
  mkFrame (rows d) year_datetime64 (Region_column d) (Revenue d).

Definition with_Revenue (d : DataFrame) : DataFrame :=
  mkFrame (rows d) (Year_dtype d) (Region_column d) (Some (Crew.revenue_column (rows d))).

Definition is_Ok {A : Type} (r : Result A) : bool :=
  match r with Ok _ => true | Raise _ => false end.

Definition is_Ranking (c : Category) : bool :=
  match c with Ranking => true | _ => false end.

Definition is_General (c : Category) : bool :=
  match c with General => true | _ => false end.

(** The queries that make the ranking handler assign the column
    [Revenue]: ranking queries whose number of results is found and whose
    metric is the revenue. *)
Definition writes_Revenue (op : Crew.Operation) : bool :=
  match op with
  | Crew.OpQuery query =>
      is_Ranking (classify query) && is_Ok (Crew.parse_n query) &&
      negb (PyStr.contains "expensive" (PyStr.lower query)) &&
      PyStr.contains "revenue" (PyStr.lower query)
  | _ => false
  end.

(** The state with another frame. *)
Definition with_data (st : Crew.State) (d : DataFrame) : Crew.State :=
  Crew.mkState d (Crew.query_handler st) (Crew.random st).

(** The operations that re-assign the Year column: the trends, and a
    general query that is not answered from the summary. *)
Definition converts_Year (fmt : PyFormat) (d : DataFrame) (op : Crew.Operation) : bool :=
  match op with
  | Crew.OpSummary => false
  | Crew.OpTrends => true
  | Crew.OpQuery query =>
      is_General (classify query) &&
      negb (is_Ok (Analyzer.get_sales_summary fmt d) &&
            PyStr.contains "growth" (PyStr.lower query))
  end.

(** ** Sample data *)

(** The data set of the specification's ranking example: the quantity
    sums are (A, X): 100, (B, Y): 50, (C, Z): 200. *)
Definition sample_row (y : Z) (make model : string) (q : Z) : Row :=
  mkRow (Some y) (Some make) (Some model) (Some q) (Some "North") (Some 100).

Definition sample_frame : DataFrame :=
  mkFrame [sample_row 2020 "A" "X" 60; sample_row 2021 "B" "Y" 50;
           sample_row 2021 "C" "Z" 200; sample_row 2021 "A" "X" 40]
          year_datetime64 true None.

(** A record set with the make values "Toyota" and "TOYOTA". *)
Definition make_row (make : string) (q : Z) (p : Q) : Row :=
  mkRow (Some 2023%Z) (Some make) (Some "Sedan") (Some q) (Some "North") (Some p).

Definition spelling_frame : DataFrame :=
  mkFrame [make_row "Toyota" 10 20000; make_row "TOYOTA" 5 30000;
           make_row "Honda" 7 25000] year_datetime64 true None.

(** Records whose quantities are more than an int64 holds once added:
    two of 5 * 10^18 for (Toyota, Camry) in 2023 in the North, and one of
    1 for (B, Y) in 2024 in the South. *)
Definition big_row (y : Z) (make model : string) (q : Z) (region : string) : Row :=
  mkRow (Some y) (Some make) (Some model) (Some q) (Some region) (Some 25000).

Definition overflow_frame : DataFrame :=
  mkFrame [big_row 2023 "Toyota" "Camry" 5000000000000000000 "North";
           big_row 2023 "Toyota" "Camry" 5000000000000000000 "North";
           big_row 2024 "B" "Y" 1 "South"]
          year_datetime64 true None.

(** A rendering that prints a mark for whatever it does not model. *)
Definition sample_format : PyFormat :=
  mkFormat (fun _ => "#.##") (fun _ => "#.#") (fun _ => "#.#%")
           (fun _ => "{...}") (fun _ _ _ => "{...}").

(** A backend that repeats the prompt (and so the identifier in it), and
    one that answers without it. *)
Definition echo_backend (prompt : string) : Result string := Ok ("Echo: " ++ prompt).
Definition deaf_backend (prompt : string) : Result string := Ok "42".

Definition sample_rng : Gateway.Rng := Gateway.mkRng (fun n => Z.of_nat n * 7919 + 4242)%Z 0.

Definition sample_state : Crew.State :=
  Crew.mkState sample_frame (Gateway.mkAgent (Some echo_backend) None) sample_rng.

(** ** More of what the properties speak of *)

(** The sum of the quantity values of the records of one region. *)
Definition has_region (g : string) (r : Row) : bool :=
  match Region r with Some g' => String.eqb g' g | None => false end.

Definition region_total (g : string) (rs : list Row) : Z :=
  Zsum (quantity_values (filter (has_region g) rs)).

(** The sum of the quantity values of the records of one year and one
    region. *)
Definition has_year_region (y : Z) (g : string) (r : Row) : bool :=
  match Year r, Region r with
  | Some y', Some g' => Z.eqb y' y && String.eqb g' g
  | _, _ => false
  end.

Definition year_region_total (y : Z) (g : string) (rs : list Row) : Z :=
  Zsum (quantity_values (filter (has_year_region y g) rs)).

(** The products quantity times price of the records that have both. *)
Definition revenue_values (rs : list Row) : list Q :=
  flat_map (fun r => match Quantity r, Price r with
                     | Some q, Some p => [inject_Z q * p]
                     | _, _ => []
                     end) rs.

(** [series.get(y, 0)]: the value under a year, 0 when the year is not a
    key. *)
Definition value_at (y : Z) (series : list (Z * Z)) : Z :=
  match lookup Z.compare y series with Some v => v | None => 0%Z end.

(** The rank of a category in the chain of [_process_query]: the lower,
    the earlier it is tested. *)
Definition priority (c : Category) : nat :=
  match c with
  | Projection => 0
  | Comparison => 1
  | Ranking => 2
  | General => 3
  end.

(** The frames that operations can leave behind, starting from [d]. *)
Definition reachable_from (d d' : DataFrame) : Prop :=
  d' = d \/ d' = year_converted d \/ d' = with_Revenue d \/
  d' = with_Revenue (year_converted d).

(** ** The construction of the Gateway: agents/query_finder.py 20-57 *)

Module Construction.
Import Gateway.

(** The prompt of [_verify_connection], query_finder.py 48-52. *)
Definition test_prompt (test_id : Z) : string :=
  PyStr.nl ++
  "        [VERIFICATION]" ++ PyStr.nl ++
  "        This is a connection test. " ++ PyStr.nl ++
  "        Respond ONLY with: TEST_OK_" ++ PyStr.str test_id ++ PyStr.nl ++
  "        ".

(** query_finder.py 45-57: one call with a fresh token, which the response
    has to repeat; what the call raises is not caught here. *)
Definition _verify_connection (self : QueryHandlerAgent) (g : Rng)
  : Result unit * QueryHandlerAgent * Rng :=
  let (test_id, g) := randint 100000 999999 g in
  let '(response, self, g) := _call_llm self g (test_prompt test_id) true in
  match response with
  | Raise e => (Raise e, self, g)
  | Ok r =>
      if negb (PyStr.contains ("TEST_OK_" ++ PyStr.str test_id) r)
      then (Raise ("Verification failed. Got: " ++ r), self, g)
      else (Ok tt, self, g)
  end.

(** query_finder.py 31-43: [api_key] is what [os.getenv("GROQ_API_KEY")]
    gives (an empty text counts as absent), [backend] the client that
    [ChatGroq(...)] builds. *)
Definition _initialize_llm (api_key : option string)
  (backend : string -> Result string) (self : QueryHandlerAgent)
  : Result QueryHandlerAgent :=
  match api_key with
  | None | Some EmptyString => Raise "GROQ_API_KEY missing in .env"
  | Some _ => Ok (mkAgent (Some backend) (last_call_metadata self))
  end.

(** query_finder.py 21-29. *)
Definition __init__ (use_llm : bool) (api_key : option string)
  (backend : string -> Result string) (g : Rng)
  : Result QueryHandlerAgent * Rng :=
  let self := mkAgent None None in
  if use_llm then
    match _initialize_llm api_key backend self with
    | Raise e => (Raise e, g)
    | Ok self =>
        let '(verified, self, g) := _verify_connection self g in
        match verified with
        | Raise e => (Raise e, g)
        | Ok _ => (Ok self, g)
        end
    end
  else (Ok self, g).

(** query_finder.py 126-128. *)
Definition get_last_call_info (self : QueryHandlerAgent) : option CallMeta :=
  last_call_metadata self.

(** query_finder.py 130-131. *)
Definition __repr__ (self : QueryHandlerAgent) : string :=
  "<QueryHandlerAgent: " ++
  (match llm self with Some _ => "ready" | None => "disabled" end) ++ ">".

End Construction.

(* ================================================================== *)
(** * Part II. Theorems *)
(* ================================================================== *)

(** ** Text *)

Lemma append_nil_r (s : string) : s ++ "" = s.
Proof. induction s as [|c s IH]; simpl; [reflexivity | now rewrite IH]. Qed.

Lemma append_assoc (a b c : string) : (a ++ b) ++ c = a ++ (b ++ c).
Proof. induction a as [|x a IH]; simpl; [reflexivity | now rewrite IH]. Qed.

Lemma startswith_spec (p s : string) :
  PyStr.startswith p s = true <-> exists t, s = p ++ t.
Proof.
  revert s; induction p as [|a p IH]; intros s; simpl.
  - split; [intros _; now exists s | reflexivity].
  - destruct s as [|b s].
    + split; [discriminate | intros [t Ht]; discriminate].
    + rewrite andb_true_iff, Ascii.eqb_eq, IH. split.
      * intros [-> [t ->]]. now exists t.
      * intros [t Ht]. injection Ht as -> ->. split; [reflexivity | now exists t].
Qed.

Lemma contains_spec (kw s : string) :
  PyStr.contains kw s = true <-> Substring kw s.
Proof.
  unfold Substring. induction s as [|c s IH].
  - cbn [PyStr.contains]. rewrite startswith_spec. split.
    + intros [t Ht]. exists "", t. exact Ht.
    + intros [pre [post H]]. destruct pre; [now exists post | discriminate].
  - cbn [PyStr.contains]. rewrite orb_true_iff, startswith_spec, IH. split.
    + intros [[t Ht] | [pre [post H]]].
      * exists "", t. exact Ht.
      * exists (String c pre), post. simpl. now rewrite H.
    + intros [pre [post H]]. destruct pre as [|c' pre].
      * left. now exists post.
      * right. injection H as _ H. now exists pre, post.
Qed.

Lemma lower_char_idem (c : ascii) :
  PyStr.lower_char (PyStr.lower_char c) = PyStr.lower_char c.
Proof.
  destruct c as [[] [] [] [] [] [] [] []]; reflexivity.
Qed.

Lemma lower_idem (s : string) : PyStr.lower (PyStr.lower s) = PyStr.lower s.
Proof.
  induction s as [|c s IH]; simpl; [reflexivity|].
  now rewrite lower_char_idem, IH.
Qed.

Lemma lower_app (a b : string) :
  PyStr.lower (a ++ b) = PyStr.lower a ++ PyStr.lower b.
Proof. induction a as [|c a IH]; simpl; [reflexivity | now rewrite IH]. Qed.

(** A split of the lowercased text comes from a split of the text. *)
Lemma lower_split (q a b : string) :
  PyStr.lower q = a ++ b ->
  exists x y, q = x ++ y /\ PyStr.lower x = a /\ PyStr.lower y = b.
Proof.
  revert q; induction a as [|c a IH]; intros q H.
  - exists "", q. auto.
  - destruct q as [|d q]; [discriminate|].
    simpl in H. injection H as Hc H.
    destruct (IH q H) as [x [y [-> [Hx Hy]]]].
    exists (String d x), y. simpl. now rewrite Hc, Hx.
Qed.

(** Looking for a keyword in the lowercased query is looking for it in the
    query with case ignored. *)
Lemma contains_lower_spec (kw q : string) :
  PyStr.contains kw (PyStr.lower q) = true <-> OccursNoCase kw q.
Proof.
  rewrite contains_spec. unfold OccursNoCase, Substring. split.
  - intros [pre [post H]].
    destruct (lower_split _ _ _ H) as [x [y [-> [Hx Hy]]]].
    destruct (lower_split _ _ _ Hy) as [w [z [-> [Hw Hz]]]].
    exists w. split; [now exists x, z | exact Hw].
  - intros [w [[pre [post ->]] <-]].
    exists (PyStr.lower pre), (PyStr.lower post).
    now rewrite !lower_app.
Qed.

Lemma any_in_spec (kws : list string) (q : string) :
  PyStr.any_in kws (PyStr.lower q) = true <-> Exists (fun kw => OccursNoCase kw q) kws.
Proof.
  unfold PyStr.any_in. rewrite existsb_exists, Exists_exists.
  split; intros [kw [Hin H]]; exists kw; (split; [exact Hin|]);
    now apply contains_lower_spec.
Qed.

Lemma any_in_false (kws : list string) (q : string) :
  PyStr.any_in kws (PyStr.lower q) = false <-> ~ Exists (fun kw => OccursNoCase kw q) kws.
Proof.
  rewrite <- any_in_spec. destruct (PyStr.any_in kws (PyStr.lower q)); split; intros H;
    try reflexivity; try discriminate; try (intros H'; discriminate).
  exfalso. now apply H.
Qed.

(** ** C1: the router *)

(** C1.  Classification is case-insensitive substring matching with the
    first match winning: projection if one of "projection", "forecast",
    "predict" occurs; else comparison if one of "compare", "vs", "versus"
    occurs; else ranking if one of "top", "best", "worst", "ranking"
    occurs; else general.  So a query with both "top" and "forecast" is a
    projection query, and a query and its lowercased form are classified
    alike. *)
Theorem classify_first_match_wins (q : string) :
  let any kws := Exists (fun kw => OccursNoCase kw q) kws in
  (classify q = Projection <-> any projection_keywords) /\
  (classify q = Comparison <->
     ~ any projection_keywords /\ any comparison_keywords) /\
  (classify q = Ranking <->
     ~ any projection_keywords /\ ~ any comparison_keywords /\ any ranking_keywords) /\
  (classify q = General <->
     ~ any projection_keywords /\ ~ any comparison_keywords /\ ~ any ranking_keywords) /\
  (OccursNoCase "top" q -> OccursNoCase "forecast" q -> classify q = Projection) /\
  classify (PyStr.lower q) = classify q.
Proof.
  cbv zeta.
  assert (Hcl : forall kws b, PyStr.any_in kws (PyStr.lower q) = b ->
            if b then Exists (fun kw => OccursNoCase kw q) kws
            else ~ Exists (fun kw => OccursNoCase kw q) kws).
  { intros kws [] H; [now apply any_in_spec | now apply any_in_false]. }
  pose proof (Hcl projection_keywords _ eq_refl) as Hp.
  pose proof (Hcl comparison_keywords _ eq_refl) as Hc.
  pose proof (Hcl ranking_keywords _ eq_refl) as Hr.
  unfold classify. rewrite lower_idem.
  destruct (PyStr.any_in projection_keywords (PyStr.lower q));
    [|destruct (PyStr.any_in comparison_keywords (PyStr.lower q));
      [|destruct (PyStr.any_in ranking_keywords (PyStr.lower q))]].
  all: repeat split; intros; try discriminate; try tauto.
  all: exfalso; apply Hp; unfold projection_keywords;
       apply Exists_cons_tl, Exists_cons_hd; assumption.
Qed.

(** The examples of the specification. *)
Example classify_examples :
  classify "What is the forecast for 2025 top sellers?" = Projection /\
  classify "Compare Toyota vs Honda" = Comparison /\
  classify "Top 5 best models" = Ranking /\
  classify "How many units total?" = General.
Proof. repeat split; reflexivity. Qed.

(** ** C2: the growth rate *)

Section Growth.
Import Analyzer.

Lemma fsum_from_Fin (qs : list Q) (a : Q) :
  fold_left fadd (map Fin qs) (Fin a) = Fin (fold_left Qplus qs a).
Proof.
  revert a; induction qs as [|q qs IH]; intros a; simpl; [reflexivity | apply IH].
Qed.

Lemma fold_left_Qplus (qs : list Q) (a : Q) :
  fold_left Qplus qs a == a + Qsum qs.
Proof.
  revert a; induction qs as [|q qs IH]; intros a; simpl.
  - ring.
  - rewrite IH. ring.
Qed.

Lemma filter_not_nan_Fin (qs : list Q) :
  filter (fun x => negb (is_nan x)) (map Fin qs) = map Fin qs.
Proof. induction qs as [|q qs IH]; simpl; [reflexivity | now rewrite IH]. Qed.

(** The mean of a series whose first entry is NaN and whose other entries
    are finite. *)
Lemma mean_NaN_Fin (q : Q) (qs : list Q) :
  mean (NaN :: map Fin (q :: qs)) =
  Fin (fold_left Qplus (q :: qs) 0 / inject_Z (Z.of_nat (List.length (q :: qs)))).
Proof.
  unfold mean. cbn [filter is_nan negb].
  rewrite filter_not_nan_Fin. cbn [map]. unfold fsum.
  change (Fin q :: map Fin qs) with (map Fin (q :: qs)).
  rewrite fsum_from_Fin, length_map. reflexivity.
Qed.

Lemma inject_Z_nonzero (z : Z) : z <> 0%Z -> Qeq_bool (inject_Z z) 0 = false.
Proof.
  intros Hz. destruct (Qeq_bool (inject_Z z) 0) eqn:E; [|reflexivity].
  apply Qeq_bool_eq in E. unfold Qeq in E. simpl in E. lia.
Qed.

Lemma pct_change_from_Fin (prev : Z) (ts : list Z) :
  divisors_nonzero prev ts ->
  pct_change_from prev ts = map Fin (ratio_changes prev ts).
Proof.
  revert prev; induction ts as [|t ts IH]; intros prev H; simpl; [reflexivity|].
  destruct H as [Hp H]. unfold fdiv. rewrite (inject_Z_nonzero _ Hp).
  simpl. now rewrite IH.
Qed.

Lemma Qsum_ratio_changes (prev : Z) (ts : list Z) :
  divisors_nonzero prev ts ->
  Qsum (ratio_changes prev ts) == Qsum (yoy_changes prev ts).
Proof.
  revert prev; induction ts as [|t ts IH]; intros prev H; simpl; [reflexivity|].
  destruct H as [Hp H]. rewrite (IH _ H).
  assert (Hq : ~ inject_Z prev == 0).
  { unfold Qeq. simpl. lia. }
  apply Qplus_comp; [|reflexivity]. field. exact Hq.
Qed.

Lemma ratio_changes_length (prev : Z) (ts : list Z) :
  List.length (ratio_changes prev ts) = List.length ts.
Proof. revert prev; induction ts; intros; simpl; auto. Qed.

(** With at least two totals and no zero divisor the growth rate is finite
    and is the formula of the specification. *)
Lemma growth_rate_is_formula (t1 t2 : Z) (ts : list Z) :
  divisors_nonzero t1 (t2 :: ts) ->
  exists g, mean (pct_change (t1 :: t2 :: ts)) = Fin g /\
            g == growth_formula (t1 :: t2 :: ts).
Proof.
  intros H. unfold pct_change. rewrite (pct_change_from_Fin _ _ H).
  cbn [ratio_changes]. rewrite mean_NaN_Fin.
  eexists; split; [reflexivity|].
  unfold growth_formula.
  rewrite fold_left_Qplus.
  change (inject_Z t2 / inject_Z t1 - 1 :: ratio_changes t2 ts)
    with (ratio_changes t1 (t2 :: ts)).
  rewrite (Qsum_ratio_changes _ _ H).
  cbn [List.length]. rewrite ratio_changes_length.
  apply Qdiv_comp; [ring | reflexivity].
Qed.

Lemma divisors_nonzero_removelast (t1 : Z) (ts : list Z) :
  Forall (fun t => t <> 0%Z) (removelast (t1 :: ts)) -> divisors_nonzero t1 ts.
Proof.
  revert t1; induction ts as [|t ts IH]; intros t1 H; [exact I|].
  change (removelast (t1 :: t :: ts)) with (t1 :: removelast (t :: ts)) in H.
  inversion H; subst. split; [assumption | now apply IH].
Qed.

(** *** Strictly increasing totals *)

Lemma fadd_positive (x y : pyfloat) : fpositive x -> fpositive y -> fpositive (fadd x y).
Proof.
  destruct x as [a| | |], y as [b| | |]; simpl; try tauto.
  intros Ha Hb. apply Qlt_trans with (0 + b); [now rewrite Qplus_0_l|].
  apply Qplus_lt_le_compat; [assumption | apply Qle_refl].
Qed.

Lemma fadd_zero_positive (y : pyfloat) : fpositive y -> fpositive (fadd (Fin 0) y).
Proof.
  destruct y as [b| | |]; simpl; try tauto. intros Hb. now rewrite Qplus_0_l.
Qed.

Lemma fold_fadd_positive (xs : list pyfloat) (acc : pyfloat) :
  fpositive acc -> Forall fpositive xs -> fpositive (fold_left fadd xs acc).
Proof.
  revert acc; induction xs as [|x xs IH]; intros acc Ha H; simpl; [assumption|].
  inversion H; subst. apply IH; [now apply fadd_positive | assumption].
Qed.

Lemma filter_not_nan_positive (xs : list pyfloat) :
  Forall fpositive xs -> filter (fun x => negb (is_nan x)) xs = xs.
Proof.
  induction 1 as [|x xs Hx _ IH]; simpl; [reflexivity|].
  destruct x; simpl in *; try tauto; now rewrite IH.
Qed.

Lemma fdiv_count_positive (x : pyfloat) (n : nat) :
  (0 < n)%nat -> fpositive x -> fpositive (fdiv_count x n).
Proof.
  intros Hn. destruct x as [q| | |]; simpl; try tauto. intros Hq.
  apply Qlt_shift_div_l.
  - unfold Qlt. simpl. lia.
  - now rewrite Qmult_0_l.
Qed.

Lemma mean_positive (x : pyfloat) (xs : list pyfloat) :
  Forall fpositive (x :: xs) -> fpositive (mean (NaN :: x :: xs)).
Proof.
  intros H. unfold mean.
  change (filter (fun y => negb (is_nan y)) (NaN :: x :: xs))
    with (filter (fun y => negb (is_nan y)) (x :: xs)).
  rewrite (filter_not_nan_positive _ H).
  apply fdiv_count_positive; [simpl; lia|].
  unfold fsum. cbn [fold_left]. inversion H; subst.
  apply fold_fadd_positive; [now apply fadd_zero_positive | assumption].
Qed.

Lemma pct_change_from_positive (prev : Z) (ts : list Z) :
  (0 <= prev)%Z -> Sorted Z.lt (prev :: ts) ->
  Forall fpositive (pct_change_from prev ts).
Proof.
  revert prev; induction ts as [|t ts IH]; intros prev Hp Hs; simpl; [constructor|].
  inversion Hs as [|? ? Hs' Hrel]; subst. inversion Hrel as [|? ? Hlt]; subst.
  constructor.
  - unfold fdiv. destruct (Qeq_bool (inject_Z prev) 0) eqn:E.
    + apply Qeq_bool_eq in E.
      replace (Qcompare (inject_Z t) 0) with Gt; [exact I|].
      symmetry. apply Qgt_alt. unfold Qeq in E. unfold Qlt. simpl in *. lia.
    + apply Qeq_bool_neq in E. simpl.
      assert (Hpos : 0 < inject_Z prev).
      { unfold Qeq in E. unfold Qlt. simpl in *. lia. }
      unfold Qminus. rewrite <- (Qplus_opp_r 1).
      apply Qplus_lt_le_compat; [|apply Qle_refl].
      apply Qlt_shift_div_l; [exact Hpos|].
      rewrite Qmult_1_l. unfold Qlt. simpl. lia.
  - apply IH; [lia | assumption].
Qed.

(** *** Constant totals *)

Lemma Qsum_yoy_constant (c : Z) (ts : list Z) :
  c <> 0%Z -> Forall (fun t => t = c) ts -> Qsum (yoy_changes c ts) == 0.
Proof.
  intros Hc. induction 1 as [|t ts -> _ IH]; simpl; [reflexivity|].
  rewrite IH. assert (Hq : ~ inject_Z c == 0) by (unfold Qeq; simpl; lia).
  field. exact Hq.
Qed.

Lemma divisors_nonzero_constant (c : Z) (ts : list Z) :
  c <> 0%Z -> Forall (fun t => t = c) ts -> divisors_nonzero c ts.
Proof.
  intros Hc. induction 1 as [|t ts -> _ IH]; simpl; auto.
Qed.

(** *** The claim *)

Lemma calculate_yearly_growth_eq (data : DataFrame) :
  _calculate_yearly_growth data
  = _calculate_growth_rate (yearly_sales (Pandas.quantity_is_float (rows data)) (rows data)).
Proof. reflexivity. Qed.




(** Constant totals of zero: every change is 0/0, and the growth rate is
    NaN as well. *)
Example growth_rate_constant_zero :
  _calculate_growth_rate [(2020, 0); (2021, 0); (2022, 0)]%Z = NaN.
Proof. reflexivity. Qed.

End Growth.

(** ** Grouping *)

Section GroupByFacts.
Import Pandas.
Variables K V : Type.
Variable cmp : K -> K -> comparison.
Variable add : V -> V -> V.

Lemma insert_add_not_nil (k : K) (v : V) (s : list (K * V)) :
  insert_add cmp add k v s <> [].
Proof.
  destruct s as [|[k' v'] s]; simpl; [discriminate|].
  destruct (cmp k k'); discriminate.
Qed.

Lemma fold_insert_not_nil (cells s : list (K * V)) :
  s <> [] -> fold_left (insert_cell cmp add) cells s <> [].
Proof.
  revert s; induction cells as [|c cells IH]; intros s Hs; simpl; [assumption|].
  apply IH, insert_add_not_nil.
Qed.

Lemma groupby_sum_not_nil (cells : list (K * V)) :
  cells <> [] -> groupby_sum cmp add cells <> [].
Proof.
  destruct cells as [|c cells]; [congruence|]. intros _.
  unfold groupby_sum. cbn [fold_left]. apply fold_insert_not_nil, insert_add_not_nil.
Qed.

(** A group's key is the key of some row. *)
Lemma insert_add_keys_incl (k k0 : K) (v0 : V) (s : list (K * V)) :
  In k (map fst (insert_add cmp add k0 v0 s)) -> k = k0 \/ In k (map fst s).
Proof.
  induction s as [|[k' v'] s IH]; simpl.
  - intros [H|[]]; auto.
  - destruct (cmp k0 k'); simpl; intros H.
    + destruct H; auto.
    + destruct H as [H|[H|H]]; auto.
    + destruct H as [H|H]; auto. destruct (IH H); auto.
Qed.

Lemma fold_insert_keys_incl (k : K) (cells s : list (K * V)) :
  In k (map fst (fold_left (insert_cell cmp add) cells s)) ->
  In k (map fst cells) \/ In k (map fst s).
Proof.
  revert s; induction cells as [|[k0 v0] cells IH]; intros s H; simpl in *; auto.
  destruct (IH _ H) as [H'|H']; auto.
  destruct (insert_add_keys_incl _ _ _ _ H'); auto.
Qed.

Lemma groupby_sum_keys_incl (k : K) (cells : list (K * V)) :
  In k (map fst (groupby_sum cmp add cells)) -> In k (map fst cells).
Proof.
  intros H. destruct (fold_insert_keys_incl _ _ _ H) as [H'|[]]; exact H'.
Qed.

(** From here on the comparison is that of a strict total order. *)
Hypothesis cmp_eq : forall a b, cmp a b = Eq <-> a = b.
Hypothesis cmp_antisym : forall a b, cmp b a = CompOpp (cmp a b).
Hypothesis cmp_trans : forall a b c, cmp a b = Lt -> cmp b c = Lt -> cmp a c = Lt.

Lemma is_key_true (k : K) (kv : K * V) : is_key cmp k kv = true <-> k = fst kv.
Proof.
  unfold is_key. rewrite <- cmp_eq. destruct (cmp k (fst kv)); split; congruence.
Qed.

Lemma cmp_refl (k : K) : cmp k k = Eq.
Proof. now apply cmp_eq. Qed.

Lemma cmp_gt_lt (a b : K) : cmp a b = Gt -> cmp b a = Lt.
Proof. intros H. rewrite cmp_antisym, H. reflexivity. Qed.

Lemma insert_add_keys (k k0 : K) (v0 : V) (s : list (K * V)) :
  In k (map fst (insert_add cmp add k0 v0 s)) <-> k = k0 \/ In k (map fst s).
Proof.
  split; [apply insert_add_keys_incl|].
  induction s as [|[k' v'] s IH]; simpl.
  - intros [H|[]]; auto.
  - destruct (cmp k0 k') eqn:E; simpl.
    + apply cmp_eq in E. subst k'. intros [H|[H|H]]; auto.
    + intros [H|[H|H]]; auto.
    + intros [H|[H|H]]; auto.
Qed.

Lemma fold_insert_keys (k : K) (cells s : list (K * V)) :
  In k (map fst (fold_left (insert_cell cmp add) cells s)) <->
  In k (map fst cells) \/ In k (map fst s).
Proof.
  revert s; induction cells as [|[k0 v0] cells IH]; intros s; simpl.
  - tauto.
  - rewrite IH. unfold insert_cell. rewrite insert_add_keys. simpl.
    split; intros H; intuition auto.
Qed.

(** The groups are the keys of the rows. *)
Lemma groupby_sum_keys (k : K) (cells : list (K * V)) :
  In k (map fst (groupby_sum cmp add cells)) <-> In k (map fst cells).
Proof.
  unfold groupby_sum. rewrite fold_insert_keys. simpl. tauto.
Qed.

Lemma insert_add_Forall_lt (x : K * V) (k0 : K) (v0 : V) (s : list (K * V)) :
  cmp (fst x) k0 = Lt -> Forall (key_lt cmp x) s ->
  Forall (key_lt cmp x) (insert_add cmp add k0 v0 s).
Proof.
  intros Hx. induction 1 as [|[k' v'] s Hk Hs IH]; simpl.
  - repeat constructor. exact Hx.
  - destruct (cmp k0 k').
    + constructor; [exact Hk | assumption].
    + constructor; [exact Hx | constructor; assumption].
    + constructor; [exact Hk | exact IH].
Qed.

Lemma insert_add_sorted (k0 : K) (v0 : V) (s : list (K * V)) :
  StronglySorted (key_lt cmp) s -> StronglySorted (key_lt cmp) (insert_add cmp add k0 v0 s).
Proof.
  induction 1 as [|[k' v'] s Hs IH Hall]; simpl.
  - repeat constructor.
  - destruct (cmp k0 k') eqn:E.
    + constructor; [assumption|]. exact Hall.
    + constructor; [now constructor|].
      constructor; [exact E|].
      eapply Forall_impl; [|exact Hall].
      intros y Hy. unfold key_lt in *. simpl in *. eapply cmp_trans; eassumption.
    + constructor; [assumption|].
      apply insert_add_Forall_lt; [|assumption].
      simpl. now apply cmp_gt_lt.
Qed.

Lemma fold_insert_sorted (cells s : list (K * V)) :
  StronglySorted (key_lt cmp) s -> StronglySorted (key_lt cmp) (fold_left (insert_cell cmp add) cells s).
Proof.
  revert s; induction cells as [|c cells IH]; intros s Hs; simpl; [assumption|].
  apply IH, insert_add_sorted, Hs.
Qed.

(** The series is sorted by key, strictly. *)
Lemma groupby_sum_sorted (cells : list (K * V)) :
  StronglySorted (key_lt cmp) (groupby_sum cmp add cells).
Proof. apply fold_insert_sorted. constructor. Qed.

Lemma sorted_keys_NoDup (s : list (K * V)) :
  StronglySorted (key_lt cmp) s -> NoDup (map fst s).
Proof.
  induction 1 as [|x s Hs IH Hall]; simpl; constructor; [|assumption].
  intros Hin. apply in_map_iff in Hin. destruct Hin as [y [Hy Hin]].
  rewrite Forall_forall in Hall. specialize (Hall y Hin).
  unfold key_lt in Hall. rewrite Hy, cmp_refl in Hall. discriminate.
Qed.

Lemma lookup_sorted_head_lt (k : K) (s : list (K * V)) :
  Forall (fun y => cmp k (fst y) = Lt) s -> lookup cmp k s = None.
Proof.
  unfold lookup. induction 1 as [|y s Hy _ IH]; simpl; [reflexivity|].
  unfold is_key at 1. rewrite Hy. exact IH.
Qed.

Lemma In_lookup (k : K) (v : V) (s : list (K * V)) :
  StronglySorted (key_lt cmp) s -> In (k, v) s -> lookup cmp k s = Some v.
Proof.
  unfold lookup. induction 1 as [|x s Hs IH Hall]; simpl; [tauto|].
  intros [->|Hin].
  - unfold is_key. simpl. now rewrite cmp_refl.
  - rewrite Forall_forall in Hall. specialize (Hall _ Hin).
    unfold key_lt in Hall. simpl in Hall.
    unfold is_key at 1. rewrite (cmp_antisym (fst x) k), Hall. simpl. now apply IH.
Qed.

Lemma lookup_insert_add (k k0 : K) (v0 : V) (s : list (K * V)) :
  StronglySorted (key_lt cmp) s ->
  lookup cmp k (insert_add cmp add k0 v0 s) = update cmp add k (lookup cmp k s) (k0, v0).
Proof.
  unfold update, lookup.
  induction 1 as [|[k' v'] s Hs IH Hall]; cbn [insert_add find option_map].
  - unfold is_key; simpl. destruct (cmp k k0); reflexivity.
  - destruct (cmp k0 k') eqn:E; cbn [find].
    + apply cmp_eq in E. subst k'.
      unfold is_key; simpl. destruct (cmp k k0); reflexivity.
    + destruct (is_key cmp k (k0, v0)) eqn:Ek.
      * apply is_key_true in Ek. simpl in Ek. subst k0.
        replace (is_key cmp k (k', v')) with false
          by (unfold is_key; simpl; now rewrite E).
        simpl.
        assert (Hnone : lookup cmp k s = None).
        { apply lookup_sorted_head_lt. eapply Forall_impl; [|exact Hall].
          intros y Hy. unfold key_lt in Hy. simpl in Hy. eapply cmp_trans; eassumption. }
        unfold lookup in Hnone. now rewrite Hnone.
      * reflexivity.
    + destruct (is_key cmp k (k', v')) eqn:Ek'.
      * apply is_key_true in Ek'. simpl in Ek'. subst k'.
        replace (is_key cmp k (k0, v0)) with false; [reflexivity|].
        unfold is_key; simpl. rewrite (cmp_antisym k0 k), E. reflexivity.
      * exact IH.
Qed.

Lemma lookup_fold_insert (k : K) (cells s : list (K * V)) :
  StronglySorted (key_lt cmp) s ->
  lookup cmp k (fold_left (insert_cell cmp add) cells s) = fold_left (update cmp add k) cells (lookup cmp k s).
Proof.
  revert s; induction cells as [|[k0 v0] cells IH]; intros s Hs; simpl; [reflexivity|].
  rewrite IH by (apply insert_add_sorted, Hs).
  unfold insert_cell. cbn [fst snd]. now rewrite lookup_insert_add.
Qed.

(** The value of a group is the running sum of the values of its rows. *)
Lemma lookup_groupby_sum (k : K) (cells : list (K * V)) :
  lookup cmp k (groupby_sum cmp add cells) = fold_left (update cmp add k) cells None.
Proof.
  unfold groupby_sum. rewrite lookup_fold_insert by constructor. reflexivity.
Qed.

End GroupByFacts.

(** ** Sums in a column of a dtype *)

Section GroupByMap.
Import Pandas.
Variables K V W : Type.
Variable cmp : K -> K -> comparison.
Variable add : V -> V -> V.
Variable add' : W -> W -> W.
Variable h : V -> W.
Hypothesis h_add : forall a b, add' (h a) (h b) = h (add a b).

Let hv (kv : K * V) : K * W := (fst kv, h (snd kv)).

Lemma insert_add_map (k : K) (v : V) (s : list (K * V)) :
  insert_add cmp add' k (h v) (map hv s) = map hv (insert_add cmp add k v s).
Proof.
  induction s as [|[k' v'] s IH]; cbn [insert_add map]; [reflexivity|].
  unfold hv at 1. cbn [fst snd].
  destruct (cmp k k'); cbn [map].
  - unfold hv at 2. cbn [fst snd]. now rewrite h_add.
  - reflexivity.
  - now rewrite IH.
Qed.

Lemma fold_insert_map (cells s : list (K * V)) :
  fold_left (insert_cell cmp add') (map hv cells) (map hv s)
  = map hv (fold_left (insert_cell cmp add) cells s).
Proof.
  revert s; induction cells as [|[k v] cells IH]; intros s; cbn [map fold_left];
    [reflexivity|].
  change (insert_cell cmp add' (map hv s) (hv (k, v)))
    with (insert_add cmp add' k (h v) (map hv s)).
  rewrite insert_add_map. exact (IH (insert_add cmp add k v s)).
Qed.

(** Summing the images of the values gives the images of the sums, when
    the image of a sum is the sum of the images. *)
Lemma groupby_sum_map (cells : list (K * V)) :
  groupby_sum cmp add' (map hv cells) = map hv (groupby_sum cmp add cells).
Proof. unfold groupby_sum. apply (fold_insert_map cells []). Qed.

Lemma keyed_map {R : Type} (key : R -> option K) (val : R -> V) (rs : list R) :
  keyed key (fun r => h (val r)) rs = map hv (keyed key val rs).
Proof.
  unfold keyed. induction rs as [|r rs IH]; cbn [flat_map map]; [reflexivity|].
  rewrite map_app, IH. destruct (key r); reflexivity.
Qed.

Lemma lookup_map (k : K) (s : list (K * V)) :
  lookup cmp k (map hv s) = option_map h (lookup cmp k s).
Proof.
  unfold lookup. induction s as [|[k' v'] s IH]; cbn [map find]; [reflexivity|].
  unfold is_key at 1 3, hv at 1. cbn [fst].
  destruct (cmp k k'); [reflexivity | exact IH | exact IH].
Qed.

End GroupByMap.

Section Int64Facts.
Import Pandas.

Lemma wrap64_congr (a k : Z) : wrap64 (a + k * 2 ^ 64) = wrap64 a.
Proof.
  unfold wrap64.
  replace (a + k * 2 ^ 64 + 2 ^ 63)%Z with (a + 2 ^ 63 + k * 2 ^ 64)%Z by ring.
  now rewrite Z_mod_plus_full.
Qed.

Lemma wrap64_decomp (a : Z) : exists k, wrap64 a = (a + k * 2 ^ 64)%Z.
Proof.
  exists (- ((a + 2 ^ 63) / 2 ^ 64))%Z. unfold wrap64.
  rewrite Z.mod_eq by (intros H; discriminate H). ring.
Qed.

Lemma wrap64_add_l (a b : Z) : wrap64 (wrap64 a + b) = wrap64 (a + b).
Proof.
  destruct (wrap64_decomp a) as [k ->].
  replace (a + k * 2 ^ 64 + b)%Z with (a + b + k * 2 ^ 64)%Z by ring.
  apply wrap64_congr.
Qed.

Lemma wrap64_add (a b : Z) : wrap64 (wrap64 a + wrap64 b) = wrap64 (a + b).
Proof. now rewrite wrap64_add_l, Z.add_comm, wrap64_add_l, Z.add_comm. Qed.

(** A value that fits int64 is held as it is, and every held value fits. *)
Lemma wrap64_fits (z : Z) : fits_int64 z -> wrap64 z = z.
Proof.
  unfold fits_int64, wrap64. change (2 ^ 64)%Z with (2 * 2 ^ 63)%Z.
  generalize (2 ^ 63)%Z. intros h H. rewrite Z.mod_small by lia. lia.
Qed.

Lemma wrap64_range (z : Z) : fits_int64 (wrap64 z).
Proof.
  unfold fits_int64, wrap64.
  pose proof (Z.mod_pos_bound (z + 2 ^ 63) (2 ^ 64) eq_refl) as H.
  revert H. change (2 ^ 64)%Z with (2 * 2 ^ 63)%Z.
  generalize ((z + 2 ^ 63) mod (2 * 2 ^ 63))%Z (2 ^ 63)%Z. intros m h H. lia.
Qed.

Lemma as_dtype_add_l (float64 : bool) (a b : Z) :
  as_dtype float64 (as_dtype float64 a + b) = as_dtype float64 (a + b).
Proof. destruct float64; [reflexivity | apply wrap64_add_l]. Qed.

Lemma as_dtype_add_r (float64 : bool) (a b : Z) :
  as_dtype float64 (a + as_dtype float64 b) = as_dtype float64 (a + b).
Proof. now rewrite Z.add_comm, as_dtype_add_l, Z.add_comm. Qed.

Lemma add_dtype_as_dtype (float64 : bool) (a b : Z) :
  add_dtype float64 (as_dtype float64 a) (as_dtype float64 b) = as_dtype float64 (a + b).
Proof. unfold add_dtype. now rewrite as_dtype_add_l, as_dtype_add_r. Qed.

Lemma as_Quantity_exact (rs : list Row) (z : Z) :
  exact_Quantity rs z -> as_Quantity rs z = z.
Proof.
  unfold exact_Quantity, as_Quantity, as_dtype. intros [->|H]; [reflexivity|].
  destruct (quantity_is_float rs); [reflexivity | now apply wrap64_fits].
Qed.

(** The sums by a key in the Quantity column are the exact sums, each as
    the column holds it. *)
Lemma groupby_quantity_dtype {K : Type} (cmp : K -> K -> comparison)
  (key : Row -> option K) (float64 : bool) (rs : list Row) :
  groupby_sum cmp (add_dtype float64) (keyed key (quantity_cell float64) rs)
  = map (fun kv => (fst kv, as_dtype float64 (snd kv)))
      (groupby_sum cmp Z.add (keyed key quantity_or_0 rs)).
Proof.
  unfold quantity_cell.
  rewrite (keyed_map _ _ _ (as_dtype float64) key quantity_or_0 rs).
  apply groupby_sum_map. apply add_dtype_as_dtype.
Qed.

Lemma fold_add_dtype (float64 : bool) (zs : list Z) (a : Z) :
  fold_left (add_dtype float64) zs (as_dtype float64 a)
  = as_dtype float64 (a + fold_right Z.add 0%Z zs).
Proof.
  revert a; induction zs as [|z zs IH]; intros a; cbn [fold_left fold_right].
  - now rewrite Z.add_0_r.
  - unfold add_dtype at 2. rewrite as_dtype_add_l, IH. f_equal. ring.
Qed.

End Int64Facts.

(** ** C6: the totals by year *)

Section Trends.
Import Pandas Analyzer.

Lemma Zcmp_trans (a b c : Z) :
  Z.compare a b = Lt -> Z.compare b c = Lt -> Z.compare a c = Lt.
Proof. rewrite !Z.compare_lt_iff. lia. Qed.

Lemma Zcmp_antisym (a b : Z) : Z.compare b a = CompOpp (Z.compare a b).
Proof. apply Z.compare_antisym. Qed.

Ltac order_Z :=
  first [ exact Z.compare_eq_iff | exact Zcmp_antisym | exact Zcmp_trans | exact Z.add ].

Lemma keyed_In {R K V : Type} (key : R -> option K) (val : R -> V)
  (rs : list R) (k : K) (v : V) :
  In (k, v) (keyed key val rs) <-> exists r, In r rs /\ key r = Some k /\ val r = v.
Proof.
  unfold keyed. rewrite in_flat_map. split.
  - intros [r [Hr H]]. exists r. destruct (key r) as [k'|]; [|destruct H].
    destruct H as [H|[]]. injection H as -> ->. auto.
  - intros [r [Hr [Hk Hv]]]. exists r. rewrite Hk, Hv. split; [assumption | now left].
Qed.

Lemma keyed_keys {R K V : Type} (key : R -> option K) (val : R -> V)
  (rs : list R) (k : K) :
  In k (map fst (keyed key val rs)) <-> exists r, In r rs /\ key r = Some k.
Proof.
  rewrite in_map_iff. split.
  - intros [[k' v] [Hk H]]. simpl in Hk. subst k'.
    apply keyed_In in H. destruct H as [r [Hr [Hkey _]]]. eauto.
  - intros [r [Hr Hkey]]. exists (k, val r). split; [reflexivity|].
    apply keyed_In. eauto.
Qed.

(** Writing the converted Year column back leaves every row as it was;
    the column is a datetime column from then on. *)
Lemma set_Year_same (data : DataFrame) :
  set_Year data (map to_datetime_astype_str (map Year (rows data))) = year_converted data.
Proof.
  destruct data as [rs dt reg rev]. unfold set_Year, year_converted. simpl. f_equal.
  induction rs as [|r rs IH]; simpl; [reflexivity|].
  rewrite IH. destruct r; reflexivity.
Qed.

Lemma get_yearly_trends_frame (data : DataFrame) :
  snd (get_yearly_trends data) = year_converted data.
Proof. unfold get_yearly_trends. simpl. apply set_Year_same. Qed.

Lemma year_converted_datetime (data : DataFrame) :
  Year_dtype data = year_datetime64 -> year_converted data = data.
Proof. destruct data as [rs dt reg rev]. simpl. intros ->. reflexivity. Qed.

Lemma is_key_Z (y : Z) (kv : Z * Z) : is_key Z.compare y kv = Z.eqb (fst kv) y.
Proof.
  unfold is_key. destruct (Z.compare_spec y (fst kv)); symmetry;
    [apply Z.eqb_eq | apply Z.eqb_neq | apply Z.eqb_neq]; lia.
Qed.

(** The running sum of a year's rows is the sum of their quantity values. *)
Lemma fold_update_year (y : Z) (rs : list Row) (acc : option Z) :
  fold_left (update Z.compare Z.add y) (keyed key_Year quantity_or_0 rs) acc =
  match acc with
  | Some a => Some (a + year_total y rs)%Z
  | None => if existsb (has_year y) rs then Some (year_total y rs) else None
  end.
Proof.
  revert acc; induction rs as [|r rs IH]; intros acc.
  - destruct acc; simpl; [f_equal; unfold year_total; simpl; lia | reflexivity].
  - unfold keyed in *. cbn [flat_map]. rewrite fold_left_app, IH.
    unfold year_total, has_year, key_Year, quantity_or_0. cbn [filter existsb].
    destruct (Year r) as [y'|]; cbn [fold_left].
    + unfold update at 1. rewrite is_key_Z. cbn [fst snd].
      destruct (Z.eqb y' y); cbn [orb].
      * unfold quantity_values. cbn [flat_map]. unfold Zsum. rewrite fold_right_app.
        fold (quantity_values (filter (has_year y) rs)).
        assert (Hs : forall l a, fold_right Z.add a l = (fold_right Z.add 0 l + a)%Z).
        { induction l; intros; simpl; [lia | rewrite IHl; lia]. }
        destruct acc as [a|], (Quantity r) as [q|]; f_equal; cbn [fold_right];
          try rewrite (Hs _ (q + _)%Z); unfold has_year; lia.
      * destruct acc as [a|]; reflexivity.
    + destruct acc as [a|]; reflexivity.
Qed.

(** The dictionary of the trends: all of it on a frame with the column
    Region, the error of the lookup of 'Region' on a frame without. *)
Lemma get_yearly_trends_result (data : DataFrame) :
  let rs := rows data in
  let float64 := quantity_is_float rs in
  fst (get_yearly_trends data) =
  if Region_column data
  then Ok (mkTrends
             (yearly_sales float64 rs)
             (map (fun make => (make, yearly_sales float64 (rows_of_make make rs)))
                  (unique (map Make rs)))
             (by_region_of float64 rs)
             (_calculate_growth_rate (yearly_sales float64 rs)))
  else Raise "'Region'".
Proof.
  cbv zeta. unfold get_yearly_trends. rewrite set_Year_same.
  cbn [fst year_converted rows Region_column].
  destruct (Region_column data); reflexivity.
Qed.

(** The totals by year of some rows of a frame: one per year of the rows,
    each the sum of the quantity values of the rows of the year as the
    column holds it. *)
Lemma yearly_sales_spec (float64 : bool) (rs : list Row) :
  NoDup (map fst (yearly_sales float64 rs)) /\
  (forall y, In y (map fst (yearly_sales float64 rs)) <->
             exists r, In r rs /\ Year r = Some y) /\
  (forall y v, In (y, v) (yearly_sales float64 rs) ->
               v = as_dtype float64 (year_total y rs)).
Proof.
  unfold yearly_sales. split; [|split].
  - eapply sorted_keys_NoDup; [order_Z|].
    apply groupby_sum_sorted; order_Z.
  - intros y. rewrite groupby_sum_keys by order_Z. apply keyed_keys.
  - intros y v Hin. rewrite groupby_quantity_dtype in Hin.
    apply in_map_iff in Hin. destruct Hin as [[y' z] [Heq Hin]].
    cbn [fst snd] in Heq. injection Heq as -> <-. f_equal.
    eapply In_lookup in Hin; try order_Z; [|apply groupby_sum_sorted; order_Z].
    rewrite lookup_groupby_sum in Hin by order_Z.
    rewrite fold_update_year in Hin.
    destruct (existsb (has_year y) rs); congruence.
Qed.



Example trends_total_by_year_example :
  let r y q := mkRow (Some y) (Some "A") (Some "X") q (Some "North") (Some 1) in
  option_map total_by_year
    (match fst (get_yearly_trends
                  (mkFrame [r 2021 (Some 5); r 2020 (Some 7); r 2021 None; r 2021 (Some 1)]%Z
                           year_int64 true None)) with
     | Ok t => Some t
     | Raise _ => None
     end)
  = Some [(2020, 7); (2021, 6)]%Z.
Proof. reflexivity. Qed.

End Trends.

(** ** C7: the top (make, model) pair *)

Section TopMakeModel.
Import Pandas Analyzer.

Lemma idxmax_from_In {K : Type} (best : K * Z) (s : list (K * Z)) :
  In (idxmax_from best s) (map fst (best :: s)).
Proof.
  revert best; induction s as [|kv s IH]; intros best; cbn [idxmax_from].
  - now left.
  - destruct (snd best <? snd kv)%Z.
    + right. apply IH.
    + destruct (IH best) as [H|H]; [now left | right; now right].
Qed.

Lemma idxmax_In {K : Type} (s : list (K * Z)) (k : K) :
  idxmax s = Ok k -> In k (map fst s).
Proof.
  destruct s as [|kv s]; [discriminate|]. cbn [idxmax].
  intros H. injection H as <-. apply idxmax_from_In.
Qed.

Lemma key_Make_Model_Some (r : Row) (k : string * string) :
  key_Make_Model r = Some k <-> Make r = Some (fst k) /\ Model r = Some (snd k).
Proof.
  unfold key_Make_Model. destruct (Make r), (Model r), k; simpl; split;
    try discriminate; try (intros [H1 H2]; discriminate).
  - intros H. injection H as -> ->. auto.
  - intros [H1 H2]. injection H1 as ->. injection H2 as ->. reflexivity.
Qed.

Lemma is_valid_row_key (r : Row) :
  is_valid_row r = true -> exists k, key_Make_Model r = Some k.
Proof.
  unfold is_valid_row, key_Make_Model.
  destruct (Make r) as [a|], (Model r) as [b|], (Quantity r); try discriminate.
  intros _. now exists (a, b).
Qed.

(** With a valid row in the frame the body reaches [idxmax], which names a
    pair of a valid row. *)
Lemma top_make_model_body_valid (data : DataFrame) (r0 : Row) :
  In r0 (rows data) -> is_valid_row r0 = true ->
  exists k r,
    top_make_model_body data = Ok (fst k ++ " " ++ snd k) /\
    In r (rows data) /\ is_valid_row r = true /\
    Make r = Some (fst k) /\ Model r = Some (snd k).
Proof.
  intros Hin Hvalid. unfold top_make_model_body. cbv zeta.
  destruct (rows data) as [|r1 rs] eqn:Hrows; [destruct Hin|].
  rewrite <- Hrows in *. clear Hrows r1 rs.
  assert (Hclean : In r0 (dropna_Make_Model_Quantity (rows data))).
  { apply filter_In. auto. }
  destruct (dropna_Make_Model_Quantity (rows data)) as [|c1 cs] eqn:Hc;
    [destruct Hclean|].
  rewrite <- Hc in *. clear Hc c1 cs.
  set (float64 := quantity_is_float (rows data)).
  set (cells := keyed key_Make_Model (quantity_cell float64)
                  (dropna_Make_Model_Quantity (rows data))).
  assert (Hcells : cells <> []).
  { destruct (is_valid_row_key r0 Hvalid) as [k0 Hk0].
    assert (H : In k0 (map fst cells)) by (apply keyed_keys; eauto).
    destruct cells; [destruct H | discriminate]. }
  pose proof (groupby_sum_not_nil _ _ cmp_Make_Model (add_dtype float64) cells Hcells)
    as Hg.
  destruct (groupby_sum cmp_Make_Model (add_dtype float64) cells) as [|g1 gs] eqn:Hgrouped;
    [congruence|].
  rewrite <- Hgrouped in *. clear Hg.
  assert (Hidx : exists k,
            idxmax (groupby_sum cmp_Make_Model (add_dtype float64) cells) = Ok k).
  { rewrite Hgrouped. cbn [idxmax]. eauto. }
  destruct Hidx as [k Hk]. rewrite Hk. cbn [bind].
  apply idxmax_In, groupby_sum_keys_incl, keyed_keys in Hk.
  destruct Hk as [r [Hr Hkey]].
  apply filter_In in Hr. destruct Hr as [Hr Hv].
  apply key_Make_Model_Some in Hkey. destruct Hkey as [Hmake Hmodel].
  exists k, r. auto.
Qed.

(** C7.  With a row whose make, model and quantity are all present,
    [_get_top_make_model] returns "make model" for a pair of the record
    set (that of a row without a missing value); on an empty
    record set, and on one whose rows all miss one of the three, it
    returns a "no data" string. *)
Theorem top_make_model_present (data : DataFrame) :
  ((exists r, In r (rows data) /\ is_valid_row r = true) ->
   exists make model r,
     _get_top_make_model data = make ++ " " ++ model /\
     In r (rows data) /\ is_valid_row r = true /\
     Make r = Some make /\ Model r = Some model) /\
  (rows data = [] -> _get_top_make_model data = "No data available") /\
  (rows data <> [] -> (forall r, In r (rows data) -> is_valid_row r = false) ->
   _get_top_make_model data = "No valid data available").
Proof.
  split; [|split].
  - intros [r0 [Hin Hvalid]].
    destruct (top_make_model_body_valid data r0 Hin Hvalid)
      as [k [r [Hbody [Hr [Hv [Hmake Hmodel]]]]]].
    exists (fst k), (snd k), r. unfold _get_top_make_model. rewrite Hbody. auto.
  - intros Hrows. unfold _get_top_make_model, top_make_model_body.
    now rewrite Hrows.
  - intros Hne Hall. unfold _get_top_make_model, top_make_model_body.
    destruct (rows data) as [|r1 rs] eqn:Hrows; [congruence|].
    rewrite <- Hrows in *.
    replace (dropna_Make_Model_Quantity (rows data)) with (@nil Row); [reflexivity|].
    symmetry. unfold dropna_Make_Model_Quantity.
    clear Hrows Hne. induction (rows data) as [|r rs' IH]; [reflexivity|].
    simpl. rewrite (Hall r (or_introl eq_refl)). apply IH.
    intros r' Hr'. apply Hall. now right.
Qed.

Lemma top_make_model_present_witness :
  exists make model r,
    _get_top_make_model sample_frame = make ++ " " ++ model /\
    In r (rows sample_frame) /\ is_valid_row r = true /\
    Make r = Some make /\ Model r = Some model.
Proof.
  apply (proj1 (top_make_model_present sample_frame)).
  exists (sample_row 2020 "A" "X" 60). split; [simpl; auto | reflexivity].
Defined.

Example top_make_model_examples :
  _get_top_make_model sample_frame = "C Z" /\
  _get_top_make_model (mkFrame [] year_datetime64 true None) = "No data available" /\
  _get_top_make_model
    (mkFrame [mkRow (Some 2020%Z) None (Some "X") (Some 5%Z) None None]
             year_datetime64 true None)
  = "No valid data available".
Proof. repeat split; reflexivity. Qed.

End TopMakeModel.

(** ** C9: the verified call *)

Section GatewayFacts.
Import Gateway.

Lemma randint_range (a b : Z) (g : Rng) :
  (a <= b)%Z -> (a <= fst (randint a b g) <= b)%Z.
Proof.
  intros H. unfold randint. cbn [fst].
  pose proof (Z.mod_pos_bound (raw g (pos g)) (b - a + 1) ltac:(lia)). lia.
Qed.

Lemma Substring_middle (pre kw post : string) : Substring kw (pre ++ kw ++ post).
Proof. now exists pre, post. Qed.

Lemma Substring_app_r (kw a b : string) : Substring kw b -> Substring kw (a ++ b).
Proof.
  intros [pre [post ->]]. exists (a ++ pre), post. now rewrite append_assoc.
Qed.

Lemma contains_false (kw s : string) :
  PyStr.contains kw s = false <-> ~ Substring kw s.
Proof.
  rewrite <- contains_spec. destruct (PyStr.contains kw s); split; intros H;
    try reflexivity; try discriminate; try (intros H'; discriminate).
  exfalso. now apply H.
Qed.

(** C9.  With a backend in place, [execute_task] draws the call identifier
    from the random generator, sends a prompt that contains the
    identifier and the instruction, and: a response that contains the
    identifier is returned as it is; a response that does not is turned
    into a text starting with "LLM_ERROR:"; so is an exception of the
    backend.  In every case a text is returned. *)
Theorem execute_task_verifies (invoke : string -> Result string)
  (meta : option CallMeta) (g : Rng) (task : string) :
  let self := mkAgent (Some invoke) meta in
  let call_id := fst (randint 100000 999999 g) in
  let prompt := verified_prompt call_id task in
  let out := fst (fst (execute_task self g task)) in
  (100000 <= call_id <= 999999)%Z /\
  pos (snd (execute_task self g task)) = S (S (pos g)) /\
  Substring (PyStr.str call_id) prompt /\
  Substring task prompt /\
  (forall response, invoke prompt = Ok response ->
     (Substring (PyStr.str call_id) response -> out = response) /\
     (~ Substring (PyStr.str call_id) response ->
      out = "LLM_ERROR: " ++ "Call ID missing in response: " ++ response)) /\
  (forall e, invoke prompt = Raise e -> out = "LLM_ERROR: " ++ e).
Proof.
  cbv zeta. split; [apply randint_range; lia|].
  unfold execute_task, _call_llm, verify_response. cbn [llm randint fst snd].
  set (call_id := (100000 + raw g (pos g) mod (999999 - 100000 + 1))%Z).
  split; [|split; [|split; [|split]]].
  - destruct (invoke (verified_prompt call_id task)) as [r|e]; cbn [bind];
      [destruct (negb (PyStr.contains (PyStr.str call_id) r))|]; reflexivity.
  - unfold verified_prompt. apply Substring_app_r, Substring_middle.
  - unfold verified_prompt.
    do 7 apply Substring_app_r. apply Substring_middle.
  - intros response ->. cbn [bind]. split; intros H.
    + apply contains_spec in H. now rewrite H.
    + apply contains_false in H. now rewrite H.
  - intros e ->. reflexivity.
Qed.

Example execute_task_examples :
  fst (fst (execute_task (mkAgent (Some deaf_backend) None) sample_rng "What?"))
  = "LLM_ERROR: Call ID missing in response: 42" /\
  fst (fst (execute_task (mkAgent (Some echo_backend) None) sample_rng "What?"))
  = "Echo: " ++ verified_prompt 104242 "What?" /\
  fst (fst (execute_task (mkAgent None None) sample_rng "What?"))
  = "LLM_NOT_INITIALIZED".
Proof. repeat split; reflexivity. Qed.

End GatewayFacts.

(** ** C3, C10: the ranking handler *)

Section RankingFacts.
Import Pandas Crew.

Lemma index_from_None (x : string) (words : list string) (i : nat) :
  ~ In x words -> PyStr.index_from x words i = None.
Proof.
  revert i; induction words as [|w ws IH]; intros i H; simpl; [reflexivity|].
  destruct (String.eqb_spec w x) as [->|Hne].
  - exfalso. apply H. now left.
  - apply IH. intros Hin. apply H. now right.
Qed.

Lemma index_from_Some (x : string) (words : list string) (i : nat) :
  In x words -> exists j, PyStr.index_from x words i = Some j.
Proof.
  revert i; induction words as [|w ws IH]; intros i H; simpl; [destruct H|].
  destruct (String.eqb_spec w x) as [->|Hne]; [eauto|].
  destruct H as [H|H]; [congruence | now apply IH].
Qed.

(** [words.index("top")] raises exactly when no word is "top". *)
Lemma index_raises (x : string) (words : list string) :
  ~ In x words -> PyStr.index x words = Raise ("'" ++ x ++ "' is not in list").
Proof. intros H. unfold PyStr.index. now rewrite index_from_None. Qed.

Lemma state_eta (st : State) :
  mkState (data st) (query_handler st) (random st) = st.
Proof. destruct st; reflexivity. Qed.

Lemma contains_lower_spec_false (kw q : string) :
  PyStr.contains kw (PyStr.lower q) = false <-> ~ OccursNoCase kw q.
Proof.
  rewrite <- contains_lower_spec.
  destruct (PyStr.contains kw (PyStr.lower q)); split; intros H;
    try reflexivity; try discriminate; try (intros H'; discriminate).
  exfalso. now apply H.
Qed.

Lemma index_from_In (x : string) (words : list string) (i j : nat) :
  PyStr.index_from x words i = Some j -> In x words.
Proof.
  revert i; induction words as [|w ws IH]; intros i; simpl; [discriminate|].
  destruct (String.eqb_spec w x) as [->|Hne]; [now left|].
  intros H. right. eapply IH, H.
Qed.

(** A word of [s.split()] is a stretch of [s]. *)
Lemma split_go_Substring (s acc w : string) :
  In w (PyStr.split_go s acc) -> Substring w (acc ++ s).
Proof.
  revert acc; induction s as [|c s IH]; intros acc; cbn [PyStr.split_go].
  - destruct (String.eqb acc ""); [intros []|].
    intros [<-|[]]. exists "", "". now rewrite append_nil_r.
  - destruct (PyStr.isspace c).
    + assert (Hrest : In w (PyStr.split_go s "") -> Substring w (acc ++ String c s)).
      { intros H. apply IH in H. destruct H as [pre [post H]]. simpl in H.
        exists (acc ++ String c pre), post. rewrite append_assoc. simpl. now rewrite H. }
      destruct (String.eqb acc ""); [exact Hrest|].
      intros [<-|H]; [|now apply Hrest].
      exists "", (String c s). reflexivity.
    + intros H. apply IH in H. rewrite append_assoc in H. exact H.
Qed.

Lemma split_word_Substring (s w : string) : In w (PyStr.split s) -> Substring w s.
Proof. intros H. apply split_go_Substring in H. exact H. Qed.

Lemma nth_error_Some_lt {A : Type} (l : list A) (n : nat) (x : A) :
  nth_error l n = Some x -> (n < List.length l)%nat.
Proof. intros H. apply nth_error_Some. congruence. Qed.

(** The number of results, case by case. *)
Lemma parse_n_cases (query : string) :
  let words := PyStr.split (PyStr.lower query) in
  (~ OccursNoCase "top" query -> parse_n query = Ok 3%nat) /\
  (OccursNoCase "top" query -> ~ In "top" words ->
   parse_n query = Raise "'top' is not in list") /\
  (forall i, PyStr.index "top" words = Ok i ->
     (forall w, nth_error words (i + 1) = Some w -> PyStr.isdigit w = true ->
        parse_n query = Ok (PyStr.int w)) /\
     (forall w, nth_error words (i + 1) = Some w -> PyStr.isdigit w = false ->
        parse_n query = Ok 3%nat) /\
     (nth_error words (i + 1) = None -> parse_n query = Ok 3%nat)).
Proof.
  cbv zeta. unfold parse_n. split; [|split].
  - intros H. apply contains_lower_spec_false in H. now rewrite H.
  - intros H Hnot. apply contains_lower_spec in H. rewrite H.
    now rewrite (index_raises _ _ Hnot).
  - intros i Hi.
    assert (Hc : PyStr.contains "top" (PyStr.lower query) = true).
    { destruct (PyStr.contains "top" (PyStr.lower query)) eqn:E; [reflexivity|].
      exfalso. apply contains_false in E. apply E.
      apply split_word_Substring.
      unfold PyStr.index in Hi.
      destruct (PyStr.index_from "top" (PyStr.split (PyStr.lower query)) 0) eqn:Ei;
        [|discriminate].
      eapply index_from_In. exact Ei. }
    rewrite Hc, Hi. cbn [bind].
    repeat split.
    + intros w Hw Hd. pose proof (nth_error_Some_lt _ _ _ Hw) as Hlt.
      apply Nat.ltb_lt in Hlt. rewrite Hlt.
      rewrite (nth_error_nth _ _ "" Hw), Hd. reflexivity.
    + intros w Hw Hd. rewrite (nth_error_nth _ _ "" Hw), Hd.
      now rewrite andb_false_r.
    + intros Hn. apply nth_error_None in Hn.
      replace (i + 1 <? List.length (PyStr.split (PyStr.lower query)))%nat with false;
        [reflexivity|].
      symmetry. apply Nat.ltb_ge. exact Hn.
Qed.

(** The metric, case by case: price when "expensive" occurs, else the
    revenue when "revenue" occurs, else the quantity. *)
Lemma choose_metric_cases (data : DataFrame) (query : string) :
  (OccursNoCase "expensive" query -> fst (choose_metric data query) = ByPrice) /\
  (~ OccursNoCase "expensive" query -> OccursNoCase "revenue" query ->
   fst (choose_metric data query) = ByRevenue) /\
  (~ OccursNoCase "expensive" query -> ~ OccursNoCase "revenue" query ->
   fst (choose_metric data query) = ByQuantity).
Proof.
  unfold choose_metric. repeat split.
  - intros H. apply contains_lower_spec in H. now rewrite H.
  - intros H1 H2. apply contains_lower_spec_false in H1.
    apply contains_lower_spec in H2. now rewrite H1, H2.
  - intros H1 H2. apply contains_lower_spec_false in H1, H2. now rewrite H1, H2.
Qed.

(** When the number of results is found, the ranking is the first [n]
    groups of the sums of the metric, sorted by value, ascending exactly
    when "worst" occurs. *)
Lemma ranking_body_shape (data : DataFrame) (query : string) (n : nat) :
  parse_n query = Ok n ->
  let by_ := fst (choose_metric data query) in
  let data' := snd (choose_metric data query) in
  let ascending := PyStr.contains "worst" (PyStr.lower query) in
  ranking_body data query =
  (sums <- group_metric by_ data' ;;
   Ok (mkRanking n by_ ascending (firstn n (sort_values ascending sums))),
   data').
Proof.
  intros H. cbv zeta. unfold ranking_body. rewrite H.
  destruct (choose_metric data query). reflexivity.
Qed.

(** The example of the specification: "top 2" on the sample data. *)
Example ranking_top_2 (fmt : PyFormat) :
  option_map rank_results
    (match fst (ranking_body sample_frame "top 2") with
     | Ok r => Some r
     | Raise _ => None
     end)
  = Some [(("C", "Z"), NInt 200); (("A", "X"), NInt 100)] /\
  _handle_ranking_query fmt sample_frame "top 2" =
  ("🏆 Top 2 by Quantity:" ++ PyStr.nl ++
   "- C Z: 200 units" ++ PyStr.nl ++
   "- A X: 100 units", sample_frame).
Proof. split; reflexivity. Qed.

Example ranking_top_5_best :
  parse_n "Top 5 best models" = Ok 5%nat /\
  parse_n "best models" = Ok 3%nat /\
  parse_n "top models top 5" = Ok 3%nat.
Proof. repeat split; reflexivity. Qed.

(** C3, where the code leaves it.  "best desktop models" is a ranking
    query with no number after a word "top", so the ranking of the three
    best is due; but "top" occurs inside "desktop", the list of words is
    searched for "top", and the handler answers with the error text. *)
Theorem ranking_default_lost_inside_word (fmt : PyFormat) :
  classify "best desktop models" = Ranking /\
  parse_n "best desktop models" = Raise "'top' is not in list" /\
  _handle_ranking_query fmt sample_frame "best desktop models" =
  ("Could not generate rankings: 'top' is not in list", sample_frame) /\
  _handle_ranking_query fmt sample_frame "best models" =
  ("🏆 Top 3 by Quantity:" ++ PyStr.nl ++
   "- C Z: 200 units" ++ PyStr.nl ++
   "- A X: 100 units" ++ PyStr.nl ++
   "- B Y: 50 units", sample_frame).
Proof. repeat split; reflexivity. Qed.

(** C10, as the code has it.  A query in which "top" occurs, but not as a
    word of its own, and in which no projection or comparison keyword
    occurs, goes to the ranking handler; looking up the word "top"
    raises; the handler returns the error text and leaves the state as it
    was. *)
Theorem top_inside_word_error (fmt : PyFormat) (st : State) (query : string) :
  OccursNoCase "top" query ->
  ~ In "top" (PyStr.split (PyStr.lower query)) ->
  ~ Exists (fun kw => OccursNoCase kw query) projection_keywords ->
  ~ Exists (fun kw => OccursNoCase kw query) comparison_keywords ->
  classify query = Ranking /\
  PyStr.index "top" (PyStr.split (PyStr.lower query)) = Raise "'top' is not in list" /\
  _process_query fmt st query =
  ("Could not generate rankings: 'top' is not in list", st).
Proof.
  intros Htop Hword Hproj Hcomp.
  assert (Hclass : classify query = Ranking).
  { unfold classify. apply any_in_false in Hproj, Hcomp. rewrite Hproj, Hcomp.
    replace (PyStr.any_in ranking_keywords (PyStr.lower query)) with true; [reflexivity|].
    symmetry. apply any_in_spec. now apply Exists_cons_hd. }
  split; [exact Hclass|]. split; [now apply index_raises|].
  unfold _process_query. rewrite Hclass.
  unfold _handle_ranking_query, ranking_body.
  rewrite (proj1 (proj2 (parse_n_cases query)) Htop Hword).
  now rewrite state_eta.
Qed.

Lemma top_inside_word_error_witness :
  classify "stop selling models" = Ranking /\
  PyStr.index "top" (PyStr.split (PyStr.lower "stop selling models"))
  = Raise "'top' is not in list" /\
  _process_query sample_format sample_state "stop selling models" =
  ("Could not generate rankings: 'top' is not in list", sample_state).
Proof.
  apply (top_inside_word_error sample_format sample_state "stop selling models").
  - apply contains_lower_spec. reflexivity.
  - simpl. intros [H|[H|[H|[]]]]; discriminate.
  - apply any_in_false. reflexivity.
  - apply any_in_false. reflexivity.
Defined.

(** "stop the forecast" has "top" inside a word and is a projection query:
    not every such query reaches the ranking handler. *)
Lemma top_inside_word_not_ranking :
  classify "stop the forecast" = Projection /\
  ~ (forall query : string,
       OccursNoCase "top" query ->
       ~ In "top" (PyStr.split (PyStr.lower query)) ->
       classify query = Ranking).
Proof.
  split; [reflexivity|]. intros H.
  assert (Hr : classify "stop the forecast" = Ranking).
  { apply H.
    - apply contains_lower_spec. reflexivity.
    - simpl. intros [E|[E|[E|[]]]]; discriminate. }
  discriminate.
Qed.

End RankingFacts.

(** ** C5: the general handler *)

Section GeneralFacts.
Import Pandas Analyzer Crew.

(** The fallback stops at [self.query_handler.agent]: it raises, whatever
    the backend is, and nothing is sent.  The trends have been computed
    for the context by then, so the Year column has been re-assigned. *)
Lemma general_fallback_raises (fmt : PyFormat) (st : State) (query : string)
  (summary : Result Summary) :
  general_fallback fmt st query summary =
  (Raise "'QueryHandlerAgent' object has no attribute 'agent'",
   with_data st (year_converted (data st))).
Proof.
  unfold general_fallback.
  pose proof (get_yearly_trends_frame (data st)) as Hframe.
  destruct (get_yearly_trends (data st)) as [trends data']. simpl in Hframe. subst data'.
  reflexivity.
Qed.

Lemma summary_yearly_growth (fmt : PyFormat) (data : DataFrame) (s : Summary) :
  get_sales_summary fmt data = Ok s -> yearly_growth s = _calculate_yearly_growth data.
Proof.
  unfold get_sales_summary.
  destruct (groupby_Region data) as [by_region|e]; cbn [bind]; [|discriminate].
  destruct (idxmax by_region) as [g|e]; cbn [bind]; [|discriminate].
  intros H. injection H as <-. reflexivity.
Qed.

(** C5, where the code leaves it.  The general handler answers a "growth"
    query from the summary when the summary has come out; for every other
    query the response of the Gateway is due, but the handler asks the
    crew's query handler for an attribute [agent] that it does not have,
    and the answer is "Could not process this query" whatever the backend
    would have said.  So it is on "How many units total?", which the
    Gateway itself would have answered. *)
Theorem general_fallback_never_calls_gateway (fmt : PyFormat) (st : State)
  (query : string) :
  _handle_general_query fmt st query =
  match get_sales_summary fmt (data st) with
  | Ok s =>
      if PyStr.contains "growth" (PyStr.lower query)
      then ("Average yearly growth: " ++ fmt_pct1 fmt (_calculate_yearly_growth (data st)),
            st)
      else ("Could not process this query", with_data st (year_converted (data st)))
  | Raise _ => ("Could not process this query", with_data st (year_converted (data st)))
  end /\
  classify "How many units total?" = General /\
  _process_query fmt sample_state "How many units total?" =
  ("Could not process this query", sample_state) /\
  fst (fst (Gateway.execute_task (query_handler sample_state) (random sample_state)
              "How many units total?")) <> "Could not process this query".
Proof.
  split; [|split; [reflexivity|split; [reflexivity|vm_compute; discriminate]]].
  unfold _handle_general_query, general_body.
  destruct (get_sales_summary fmt (data st)) as [s|e] eqn:Hs.
  - destruct (PyStr.contains "growth" (PyStr.lower query)).
    + now rewrite (summary_yearly_growth _ _ _ Hs).
    + now rewrite general_fallback_raises.
  - now rewrite general_fallback_raises.
Qed.

Example general_growth_answer :
  fst (_handle_general_query sample_format sample_state "What is the growth?")
  = "Average yearly growth: #.#%".
Proof. reflexivity. Qed.

End GeneralFacts.

(** ** C8: what the operations write *)

Section FrameFacts.
Import Pandas Analyzer Crew.

Lemma projection_data (fmt : PyFormat) (st : State) :
  data (snd (_handle_projection_query fmt st)) = data st.
Proof.
  unfold _handle_projection_query.
  destruct (Gateway.execute_task _ _ _) as [[r qh] g]. reflexivity.
Qed.

(** The frame the general handler leaves behind. *)
Lemma general_data (fmt : PyFormat) (st : State) (query : string) :
  data (snd (_handle_general_query fmt st query)) =
  if negb (is_Ok (get_sales_summary fmt (data st)) &&
           PyStr.contains "growth" (PyStr.lower query))
  then year_converted (data st)
  else data st.
Proof.
  unfold _handle_general_query, general_body.
  destruct (get_sales_summary fmt (data st)) as [s|e]; cbn [is_Ok andb negb];
    [destruct (PyStr.contains "growth" (PyStr.lower query)); cbn [negb]|];
    try rewrite general_fallback_raises; reflexivity.
Qed.

(** The frame the ranking handler leaves behind. *)
Lemma ranking_data (fmt : PyFormat) (d : DataFrame) (query : string) :
  snd (_handle_ranking_query fmt d query) =
  if is_Ok (parse_n query) &&
     negb (PyStr.contains "expensive" (PyStr.lower query)) &&
     PyStr.contains "revenue" (PyStr.lower query)
  then with_Revenue d
  else d.
Proof.
  unfold _handle_ranking_query, ranking_body.
  destruct (parse_n query) as [n|e]; cbn [is_Ok andb]; [|reflexivity].
  unfold choose_metric.
  destruct (PyStr.contains "expensive" (PyStr.lower query)); cbn [negb andb].
  - destruct (group_metric ByPrice d); reflexivity.
  - destruct (PyStr.contains "revenue" (PyStr.lower query)).
    + destruct (group_metric ByRevenue _); reflexivity.
    + destruct (group_metric ByQuantity d); reflexivity.
Qed.

Lemma step_data (fmt : PyFormat) (st : State) (op : Operation) :
  data (step fmt st op) =
  if writes_Revenue op then with_Revenue (data st)
  else if converts_Year fmt (data st) op then year_converted (data st)
  else data st.
Proof.
  destruct op as [| |query]; cbn [step writes_Revenue converts_Year].
  - reflexivity.
  - cbn [data]. apply get_yearly_trends_frame.
  - unfold _process_query.
    destruct (classify query); cbn [is_Ranking is_General andb].
    + apply projection_data.
    + reflexivity.
    + pose proof (ranking_data fmt (data st) query) as H.
      destruct (_handle_ranking_query fmt (data st) query) as [s d].
      cbn [snd data] in *. rewrite H.
      destruct (is_Ok (parse_n query) &&
                negb (PyStr.contains "expensive" (PyStr.lower query)) &&
                PyStr.contains "revenue" (PyStr.lower query)); reflexivity.
    + apply general_data.
Qed.

(** C8, as the code has it.  No operation deletes, adds or changes a
    record: after any sequence of operations the rows are those of the
    load.  The frame is written to in two places: the trends (and the
    general handler's fallback, which computes them) re-assign the Year
    column as timestamps of the same years, and a ranking by revenue
    assigns the column [Revenue] with quantity times price.  Every other
    operation leaves the frame as it was. *)
Theorem operations_keep_rows (fmt : PyFormat) (st : State) :
  (forall ops, rows (data (steps fmt st ops)) = rows (data st)) /\
  (forall op,
     data (step fmt st op) =
     if writes_Revenue op then with_Revenue (data st)
     else if converts_Year fmt (data st) op then year_converted (data st)
     else data st).
Proof.
  split; [|apply step_data].
  intros ops. revert st. induction ops as [|op ops IH]; intros st; [reflexivity|].
  unfold steps in *. cbn [fold_left]. rewrite IH, step_data.
  destruct (writes_Revenue op); [reflexivity|].
  destruct (converts_Year fmt (data st) op); reflexivity.
Qed.

(** A ranking by revenue leaves a frame with one more column than the
    load produced: the frame is not the same after every operation. *)
Lemma revenue_ranking_writes_frame :
  Revenue (data sample_state) = None /\
  Revenue (data (step sample_format sample_state (OpQuery "top 2 by revenue")))
  = Some [Some 6000; Some 5000; Some 20000; Some 4000] /\
  ~ (forall (fmt : PyFormat) (st : State) (op : Operation),
       data (step fmt st op) = data st).
Proof.
  split; [reflexivity|]. split; [reflexivity|].
  intros H.
  specialize (H sample_format sample_state (OpQuery "top 2 by revenue")).
  apply (f_equal Revenue) in H. vm_compute in H. discriminate.
Qed.

(** The trends on a frame whose years are integers: the Year column is a
    datetime column afterwards. *)
Example trends_convert_Year :
  let d := mkFrame (rows sample_frame) year_int64 true None in
  snd (get_yearly_trends d) = mkFrame (rows sample_frame) year_datetime64 true None /\
  snd (get_yearly_trends sample_frame) = sample_frame.
Proof. split; reflexivity. Qed.

End FrameFacts.

(** ** C4: the comparison handler *)

Section ComparisonFacts.
Import Pandas Analyzer Crew.

Lemma cell_eqb_spec (x y : option string) : cell_eqb x y = true <-> x = y.
Proof.
  destruct x as [a|], y as [b|]; simpl; try (split; [discriminate | congruence]).
  - rewrite String.eqb_eq. split; congruence.
  - split; reflexivity.
Qed.

Lemma unique_In (x : option string) (xs : list (option string)) :
  In x (unique xs) <-> In x xs.
Proof.
  induction xs as [|y xs IH]; simpl; [tauto|].
  rewrite filter_In, IH. split.
  - intros [H|[H _]]; auto.
  - intros [H|H]; [now left|].
    destruct (cell_eqb y x) eqn:E.
    + left. now apply cell_eqb_spec.
    + right. split; [assumption|]. reflexivity.
Qed.

Lemma unique_NoDup (xs : list (option string)) : NoDup (unique xs).
Proof.
  induction xs as [|y xs IH]; simpl; constructor.
  - rewrite filter_In. intros [_ H].
    assert (E : cell_eqb y y = true) by now apply cell_eqb_spec.
    rewrite E in H. discriminate.
  - now apply NoDup_filter.
Qed.

Lemma present_In (m : string) (cells : list (option string)) :
  In m (present cells) <-> In (Some m) cells.
Proof.
  unfold present. rewrite in_flat_map. split.
  - intros [[c|] [Hc H]]; [|destruct H]. destruct H as [->|[]]. exact Hc.
  - intros H. exists (Some m). split; [assumption | now left].
Qed.

Lemma present_NoDup (cells : list (option string)) :
  NoDup cells -> NoDup (present cells).
Proof.
  induction 1 as [|[m|] cells Hnot _ IH]; simpl; [constructor| |assumption].
  constructor; [|assumption]. now rewrite present_In.
Qed.

(** Without a missing make the loop keeps, in order, the makes whose
    lowercased name is in the lowercased query. *)
Lemma collect_targets_present (makes : list (option string)) (query : string) :
  ~ In None makes ->
  collect_targets makes query =
  Ok (filter (fun m => PyStr.contains (PyStr.lower m) (PyStr.lower query))
        (present makes)).
Proof.
  induction makes as [|[m|] makes IH]; intros H; simpl.
  - reflexivity.
  - rewrite IH by (intros Hin; apply H; now right). cbn [bind].
    destruct (PyStr.contains (PyStr.lower m) (PyStr.lower query)); reflexivity.
  - exfalso. apply H. now left.
Qed.

(** With a missing make the loop raises. *)
Lemma collect_targets_missing (makes : list (option string)) (query : string) :
  In None makes ->
  collect_targets makes query = Raise "'float' object has no attribute 'lower'".
Proof.
  induction makes as [|[m|] makes IH]; intros H; simpl.
  - destruct H.
  - destruct H as [H|H]; [discriminate|]. now rewrite IH.
  - reflexivity.
Qed.

Lemma Zsum_quantity_or_0 (rs : list Row) :
  Zsum (map quantity_or_0 rs) = Zsum (quantity_values rs).
Proof.
  induction rs as [|r rs IH]; [reflexivity|].
  unfold quantity_values in *. cbn [map flat_map]. unfold quantity_or_0 at 1.
  unfold Zsum in *. rewrite fold_right_app.
  destruct (Quantity r); cbn [fold_right]; rewrite IH; reflexivity.
Qed.

(** The sum of a part of the Quantity column: the sum of the present
    values as the column holds it. *)
Lemma sum_Quantity_values (float64 : bool) (rs : list Row) :
  sum_Quantity float64 rs = as_dtype float64 (Zsum (quantity_values rs)).
Proof.
  pose proof (fold_add_dtype float64 (map quantity_or_0 rs) 0) as H.
  fold (Zsum (map quantity_or_0 rs)) in H. rewrite Zsum_quantity_or_0 in H.
  unfold sum_Quantity. destruct float64; exact H.
Qed.

Lemma mean_Price_spec (rs : list Row) : feq (mean_Price rs) (mean_of (prices rs)).
Proof.
  unfold mean_Price, mean.
  assert (H : filter (fun x => negb (is_nan x)) (map (fun r => cell_float (Price r)) rs)
              = map Fin (prices rs)).
  { unfold prices. induction rs as [|r rs IH]; [reflexivity|].
    cbn [map flat_map filter]. destruct (Price r); cbn [cell_float is_nan negb app map];
      now rewrite IH. }
  rewrite H. unfold mean_of.
  destruct (prices rs) as [|p ps]; [exact I|].
  cbn [map]. unfold fsum.
  change (Fin p :: map Fin ps) with (map Fin (p :: ps)).
  rewrite fsum_from_Fin, length_map. cbn [fdiv_count feq].
  rewrite fold_left_Qplus. apply Qdiv_comp; [ring | reflexivity].
Qed.

Lemma target_data_In (t : string) (rs : list Row) (r : Row) :
  In r (target_data t rs) <->
  In r rs /\ exists m, Make r = Some m /\ PyStr.lower m = PyStr.lower t.
Proof.
  unfold target_data. rewrite filter_In. split; intros [Hin H]; (split; [assumption|]).
  - destruct (Make r) as [m|]; [|discriminate]. exists m.
    split; [reflexivity | now apply String.eqb_eq].
  - destruct H as [m [-> Hm]]. now apply String.eqb_eq.
Qed.



Example comparison_examples :
  _handle_comparison_query sample_format sample_frame "a vs b" =
  "🔍 Comparison: A vs B" ++ PyStr.nl ++
  "- A: 100 units sold, $#.## avg price" ++ PyStr.nl ++
  "- B: 50 units sold, $#.## avg price" /\
  _handle_comparison_query sample_format sample_frame "b vs ?" =
  "Could not identify two models/makes to compare" /\
  feq (stat_avg_price (stats_of (rows spelling_frame) "Honda")) (Fin 25000).
Proof. split; [reflexivity|split; [reflexivity|vm_compute; reflexivity]]. Qed.


(** Two records of 5 * 10^18: the line of the make holds the wrapped sum. *)
Example comparison_total_wraps :
  stat_total_sales (stats_of (rows overflow_frame) "Toyota")
  = NInt (-8446744073709551616) /\
  Zsum (quantity_values (target_data "Toyota" (rows overflow_frame)))
  = 10000000000000000000%Z.
Proof. split; vm_compute; reflexivity. Qed.

(** A record without a make: the handler answers with its error text. *)
Example comparison_missing_make :
  _handle_comparison_query sample_format
    (mkFrame [make_row "Toyota" 10 20000;
              mkRow (Some 2023%Z) None (Some "Sedan") (Some 1%Z) None None;
              make_row "Honda" 7 25000] year_datetime64 true None)
    "Toyota vs Honda"
  = "Could not complete comparison: 'float' object has no attribute 'lower'".
Proof. reflexivity. Qed.

End ComparisonFacts.

(** ** Orders on the keys, and the sort *)

Section OrderFacts.
Import Pandas.

Lemma Scmp_eq (a b : string) : String.compare a b = Eq <-> a = b.
Proof. apply String_as_OT.cmp_eq. Qed.

Lemma Scmp_antisym (a b : string) :
  String.compare b a = CompOpp (String.compare a b).
Proof. apply String_as_OT.cmp_antisym. Qed.

Lemma Scmp_trans (a b c : string) :
  String.compare a b = Lt -> String.compare b c = Lt -> String.compare a c = Lt.
Proof.
  intros H1 H2. apply String_as_OT.cmp_lt.
  apply String_as_OT.cmp_lt in H1, H2.
  eapply String_as_OT.lt_trans; eassumption.
Qed.

Section Pair.
Variables A B : Type.
Variable ca : A -> A -> comparison.
Variable cb : B -> B -> comparison.
Hypothesis ca_eq : forall a b, ca a b = Eq <-> a = b.
Hypothesis ca_antisym : forall a b, ca b a = CompOpp (ca a b).
Hypothesis ca_trans : forall a b c, ca a b = Lt -> ca b c = Lt -> ca a c = Lt.
Hypothesis cb_eq : forall a b, cb a b = Eq <-> a = b.
Hypothesis cb_antisym : forall a b, cb b a = CompOpp (cb a b).
Hypothesis cb_trans : forall a b c, cb a b = Lt -> cb b c = Lt -> cb a c = Lt.

Lemma cmp_pair_eq (x y : A * B) : cmp_pair ca cb x y = Eq <-> x = y.
Proof.
  destruct x as [a1 b1], y as [a2 b2]. unfold cmp_pair. cbn [fst snd].
  destruct (ca a1 a2) eqn:E.
  - apply ca_eq in E. subst a2. rewrite cb_eq. split; congruence.
  - split; [discriminate|]. intros H. injection H as -> _.
    assert (E' : ca a2 a2 = Eq) by now apply ca_eq. congruence.
  - split; [discriminate|]. intros H. injection H as -> _.
    assert (E' : ca a2 a2 = Eq) by now apply ca_eq. congruence.
Qed.

Lemma cmp_pair_antisym (x y : A * B) :
  cmp_pair ca cb y x = CompOpp (cmp_pair ca cb x y).
Proof.
  destruct x as [a1 b1], y as [a2 b2]. unfold cmp_pair. cbn [fst snd].
  rewrite (ca_antisym a1 a2). destruct (ca a1 a2); cbn [CompOpp]; auto.
Qed.

Lemma cmp_pair_trans (x y z : A * B) :
  cmp_pair ca cb x y = Lt -> cmp_pair ca cb y z = Lt -> cmp_pair ca cb x z = Lt.
Proof.
  destruct x as [a1 b1], y as [a2 b2], z as [a3 b3]. unfold cmp_pair. cbn [fst snd].
  destruct (ca a1 a2) eqn:E12; try discriminate;
    destruct (ca a2 a3) eqn:E23; try discriminate; intros H1 H2.
  - apply ca_eq in E12, E23. subst a2 a3.
    replace (ca a1 a1) with Eq by (symmetry; now apply ca_eq).
    eapply cb_trans; eassumption.
  - apply ca_eq in E12. subst a2. now rewrite E23.
  - apply ca_eq in E23. subst a3. now rewrite E12.
  - now rewrite (ca_trans _ _ _ E12 E23).
Qed.

End Pair.

Lemma MMcmp_eq (x y : string * string) : cmp_Make_Model x y = Eq <-> x = y.
Proof. apply cmp_pair_eq; apply Scmp_eq. Qed.

Lemma MMcmp_antisym (x y : string * string) :
  cmp_Make_Model y x = CompOpp (cmp_Make_Model x y).
Proof. apply cmp_pair_antisym; apply Scmp_antisym. Qed.

Lemma MMcmp_trans (x y z : string * string) :
  cmp_Make_Model x y = Lt -> cmp_Make_Model y z = Lt -> cmp_Make_Model x z = Lt.
Proof. apply cmp_pair_trans; first [apply Scmp_eq | apply Scmp_trans]. Qed.

(** *** The insertion sort *)

Section Sort.
Variable A : Type.
Variable leb : A -> A -> bool.
Hypothesis leb_total : forall a b, leb a b = true \/ leb b a = true.
Hypothesis leb_trans : forall a b c, leb a b = true -> leb b c = true -> leb a c = true.

Lemma insert_sorted_perm (x : A) (l : list A) :
  Permutation (insert_sorted leb x l) (x :: l).
Proof.
  induction l as [|y l IH]; simpl; [reflexivity|].
  destruct (leb x y); [reflexivity|].
  rewrite IH. apply perm_swap.
Qed.

Lemma isort_perm (l : list A) : Permutation (isort leb l) l.
Proof.
  induction l as [|x l IH]; simpl; [reflexivity|].
  rewrite insert_sorted_perm. now constructor.
Qed.

Lemma insert_sorted_sorted (x : A) (l : list A) :
  StronglySorted (fun a b => leb a b = true) l ->
  StronglySorted (fun a b => leb a b = true) (insert_sorted leb x l).
Proof.
  induction 1 as [|y l Hs IH Hall]; simpl; [repeat constructor|].
  destruct (leb x y) eqn:E.
  - constructor; [now constructor|].
    constructor; [exact E|].
    eapply Forall_impl; [|exact Hall]. intros z Hz. eapply leb_trans; eassumption.
  - constructor; [exact IH|].
    assert (Hyx : leb y x = true) by (destruct (leb_total x y); congruence).
    eapply Permutation_Forall; [symmetry; apply insert_sorted_perm|].
    now constructor.
Qed.

Lemma isort_sorted (l : list A) :
  StronglySorted (fun a b => leb a b = true) (isort leb l).
Proof.
  induction l as [|x l IH]; simpl; [constructor | now apply insert_sorted_sorted].
Qed.

Lemma StronglySorted_snoc (R : A -> A -> Prop) (l : list A) (x : A) :
  StronglySorted R l -> Forall (fun y => R y x) l -> StronglySorted R (l ++ [x]).
Proof.
  induction 1 as [|y l Hs IH Hall]; intros Hx; simpl; [repeat constructor|].
  inversion Hx; subst. constructor; [now apply IH|].
  apply Forall_app. split; [assumption | now repeat constructor].
Qed.

Lemma StronglySorted_weaken (R R' : A -> A -> Prop) (l : list A) :
  (forall a b, R a b -> R' a b) -> StronglySorted R l -> StronglySorted R' l.
Proof.
  intros HR. induction 1 as [|x l Hs IH Hall]; constructor; [assumption|].
  eapply Forall_impl; [|exact Hall]. intros y. apply HR.
Qed.

Lemma StronglySorted_rev (R : A -> A -> Prop) (l : list A) :
  StronglySorted R l -> StronglySorted (fun a b => R b a) (rev l).
Proof.
  induction 1 as [|x l Hs IH Hall]; simpl; [constructor|].
  apply StronglySorted_snoc; [exact IH|].
  apply Forall_rev. exact Hall.
Qed.

End Sort.

Lemma value_leb_total {K : Type} (a b : K * Num) :
  value_leb a b = true \/ value_leb b a = true.
Proof.
  unfold value_leb. rewrite !Qle_bool_iff.
  destruct (Qlt_le_dec (num_Q (snd a)) (num_Q (snd b))); [left|right]; auto.
  now apply Qlt_le_weak.
Qed.

Lemma value_leb_trans {K : Type} (a b c : K * Num) :
  value_leb a b = true -> value_leb b c = true -> value_leb a c = true.
Proof. unfold value_leb. rewrite !Qle_bool_iff. apply Qle_trans. Qed.

(** [sort_values] rearranges the series, in ascending order of the values
    or in descending order. *)
Lemma sort_values_spec {K : Type} (ascending : bool) (s : list (K * Num)) :
  Permutation (sort_values ascending s) s /\
  StronglySorted
    (fun a b => if ascending then num_Q (snd a) <= num_Q (snd b)
                else num_Q (snd b) <= num_Q (snd a))
    (sort_values ascending s).
Proof.
  unfold sort_values. destruct ascending.
  - split; [apply isort_perm|].
    eapply StronglySorted_weaken;
      [|apply isort_sorted; [apply value_leb_total | apply value_leb_trans]].
    intros a b H. now apply Qle_bool_iff.
  - split.
    + rewrite <- Permutation_rev, isort_perm. symmetry. apply Permutation_rev.
    + apply StronglySorted_rev.
      eapply StronglySorted_weaken;
        [|apply isort_sorted; [apply value_leb_total | apply value_leb_trans]].
      intros a b H. now apply Qle_bool_iff.
Qed.

End OrderFacts.

(** ** The ranking by quantity *)

Section RankingByQuantity.
Import Pandas Crew.

(** The running sum under a key is the sum of the quantity values of the
    rows that [sel] selects, when [sel] selects the rows of that key. *)
Lemma fold_update_quantity {K : Type} (cmp : K -> K -> comparison)
  (key : Row -> option K) (k : K) (sel : Row -> bool) :
  (forall r, sel r = match key r with
                     | Some k' => is_key cmp k (k', 0%Z)
                     | None => false
                     end) ->
  forall (rs : list Row) (acc : option Z),
  fold_left (update cmp Z.add k) (keyed key quantity_or_0 rs) acc =
  match acc with
  | Some a => Some (a + Zsum (quantity_values (filter sel rs)))%Z
  | None => if existsb sel rs then Some (Zsum (quantity_values (filter sel rs))) else None
  end.
Proof.
  intros Hsel. induction rs as [|r rs IH]; intros acc.
  - destruct acc; simpl; [f_equal; lia | reflexivity].
  - unfold keyed in *. cbn [flat_map]. rewrite fold_left_app, IH.
    cbn [filter existsb]. rewrite (Hsel r).
    destruct (key r) as [k'|]; cbn [fold_left].
    + unfold update at 1. unfold is_key. cbn [fst snd].
      destruct (cmp k k'); cbn [orb].
      * unfold quantity_values. cbn [flat_map]. unfold Zsum. rewrite fold_right_app.
        fold (quantity_values (filter sel rs)).
        assert (Hs : forall l a, fold_right Z.add a l = (fold_right Z.add 0 l + a)%Z).
        { induction l; intros; simpl; [lia | rewrite IHl; lia]. }
        unfold quantity_or_0.
        destruct acc as [a|], (Quantity r) as [q|]; f_equal; cbn [fold_right];
          try rewrite (Hs _ (q + _)%Z); lia.
      * destruct acc as [a|]; reflexivity.
      * destruct acc as [a|]; reflexivity.
    + destruct acc as [a|]; reflexivity.
Qed.

Lemma has_pair_key (make model : string) (r : Row) :
  has_pair make model r =
  match key_Make_Model r with
  | Some k' => is_key cmp_Make_Model (make, model) (k', 0%Z)
  | None => false
  end.
Proof.
  unfold has_pair, key_Make_Model.
  destruct (Make r) as [a|], (Model r) as [b|]; try reflexivity.
  unfold is_key. cbn [fst].
  destruct (cmp_Make_Model (make, model) (a, b)) eqn:E.
  - apply MMcmp_eq in E. injection E as <- <-. now rewrite !String.eqb_refl.
  - destruct (String.eqb_spec a make) as [->|]; [|reflexivity].
    destruct (String.eqb_spec b model) as [->|]; [|reflexivity].
    assert (E' : cmp_Make_Model (make, model) (make, model) = Eq) by now apply MMcmp_eq.
    congruence.
  - destruct (String.eqb_spec a make) as [->|]; [|reflexivity].
    destruct (String.eqb_spec b model) as [->|]; [|reflexivity].
    assert (E' : cmp_Make_Model (make, model) (make, model) = Eq) by now apply MMcmp_eq.
    congruence.
Qed.

Ltac order_MM := first [ exact MMcmp_eq | exact MMcmp_antisym | exact MMcmp_trans | exact Z.add ].

(** The sums of the quantity by a key: sorted by key, one group per key
    of the rows, each holding the sum of the quantity values of the rows
    that [sel] selects for the key, as the column holds it. *)
Lemma groupby_quantity_spec {K : Type} (cmp : K -> K -> comparison)
  (key : Row -> option K) (sel : K -> Row -> bool) (float64 : bool) (rs : list Row) :
  (forall a b, cmp a b = Eq <-> a = b) ->
  (forall a b, cmp b a = CompOpp (cmp a b)) ->
  (forall a b c, cmp a b = Lt -> cmp b c = Lt -> cmp a c = Lt) ->
  (forall k r, sel k r = match key r with
                         | Some k' => is_key cmp k (k', 0%Z)
                         | None => false
                         end) ->
  let g := groupby_sum cmp (add_dtype float64) (keyed key (quantity_cell float64) rs) in
  StronglySorted (key_lt cmp) g /\
  (forall k, In k (map fst g) <-> exists r, In r rs /\ key r = Some k) /\
  (forall k, lookup cmp k g =
             if existsb (sel k) rs
             then Some (as_dtype float64 (Zsum (quantity_values (filter (sel k) rs))))
             else None) /\
  (forall k v, In (k, v) g ->
               v = as_dtype float64 (Zsum (quantity_values (filter (sel k) rs)))).
Proof.
  intros Heq Hanti Htrans Hsel g.
  assert (Hsorted : StronglySorted (key_lt cmp) g)
    by (apply groupby_sum_sorted; assumption).
  assert (Hlookup : forall k, lookup cmp k g =
             if existsb (sel k) rs
             then Some (as_dtype float64 (Zsum (quantity_values (filter (sel k) rs))))
             else None).
  { intros k. unfold g. rewrite groupby_quantity_dtype, lookup_map.
    rewrite lookup_groupby_sum by assumption.
    rewrite (fold_update_quantity cmp key k (sel k) (Hsel k)).
    destruct (existsb (sel k) rs); reflexivity. }
  split; [exact Hsorted|]. split; [|split; [exact Hlookup|]].
  - intros k. unfold g. rewrite groupby_sum_keys by assumption. apply keyed_keys.
  - intros k v Hin.
    eapply In_lookup in Hin; try eassumption; [|exact (add_dtype float64)].
    rewrite Hlookup in Hin. destruct (existsb (sel k) rs); congruence.
Qed.

(** The sums by (make, model): one group per pair of the rows, holding
    the sum of the quantity values of the rows of the pair as the column
    holds it. *)
Lemma group_quantity_spec (data : DataFrame) :
  exists sums,
    group_metric ByQuantity data = Ok sums /\
    NoDup (map fst sums) /\
    (forall make model,
       In (make, model) (map fst sums) <->
       exists r, In r (rows data) /\ Make r = Some make /\ Model r = Some model) /\
    (forall make model v,
       In ((make, model), v) sums ->
       v = quantity_num (rows data)
             (as_Quantity (rows data) (pair_total make model (rows data)))).
Proof.
  pose proof (groupby_quantity_spec cmp_Make_Model key_Make_Model
                (fun k => has_pair (fst k) (snd k))
                (quantity_is_float (rows data)) (rows data)
                MMcmp_eq MMcmp_antisym MMcmp_trans
                (fun k r => has_pair_key (fst k) (snd k) r)) as Hg.
  cbv zeta in Hg. destruct Hg as [Hsorted [Hkeys [_ Hvals]]].
  cbn [group_metric]. cbv zeta. eexists. split; [reflexivity|].
  rewrite map_map. cbn [fst].
  split; [|split].
  - eapply sorted_keys_NoDup; [order_MM | exact Hsorted].
  - intros make model. rewrite Hkeys.
    split; intros [r [Hr Hk]]; exists r; (split; [assumption|]).
    + apply key_Make_Model_Some in Hk. exact Hk.
    + apply key_Make_Model_Some. exact Hk.
  - intros make model v Hin. apply in_map_iff in Hin.
    destruct Hin as [[k z] [Heq Hin]]. cbn [fst snd] in Heq. injection Heq as -> <-.
    f_equal. exact (Hvals _ _ Hin).
Qed.

(** What the ranking handler computes for a query that names neither
    price nor revenue and whose number of results is found: the first [n]
    of the groups by (make, model), sorted by summed quantity, ascending
    exactly when "worst" occurs. *)
Lemma ranking_by_quantity (data : DataFrame) (query : string) (n : nat) :
  parse_n query = Ok n ->
  ~ OccursNoCase "expensive" query ->
  ~ OccursNoCase "revenue" query ->
  exists sums sorted,
    group_metric ByQuantity data = Ok sums /\
    Permutation sorted sums /\
    StronglySorted
      (fun a b => if PyStr.contains "worst" (PyStr.lower query)
                  then num_Q (snd a) <= num_Q (snd b)
                  else num_Q (snd b) <= num_Q (snd a)) sorted /\
    ranking_body data query =
    (Ok (mkRanking n ByQuantity (PyStr.contains "worst" (PyStr.lower query))
           (firstn n sorted)), data).
Proof.
  intros Hn He Hr.
  destruct (group_quantity_spec data) as [sums [Hsums _]].
  exists sums, (sort_values (PyStr.contains "worst" (PyStr.lower query)) sums).
  destruct (sort_values_spec (PyStr.contains "worst" (PyStr.lower query)) sums)
    as [Hperm Hsorted].
  repeat split; try assumption.
  rewrite (ranking_body_shape data query n Hn). unfold choose_metric.
  apply contains_lower_spec_false in He, Hr. rewrite He, Hr. cbn [fst snd].
  rewrite Hsums. reflexivity.
Qed.

End RankingByQuantity.

(* ================================================================== *)
(** * Part III. Further properties of the code *)
(* ================================================================== *)

(** ** The Gateway: what a call leaves behind, and the construction *)

Section GatewayMore.
Import Gateway Construction.

(** The two identifiers of one [execute_task]: the one put in the prompt
    and the one [_call_llm] draws for its log. *)
Lemma execute_task_outcome (invoke : string -> Result string)
  (meta : option CallMeta) (g : Rng) (task : string) :
  let call_id := (100000 + raw g (pos g) mod 900000)%Z in
  let log_id := (100000 + raw g (S (pos g)) mod 900000)%Z in
  let prompt := verified_prompt call_id task in
  execute_task (mkAgent (Some invoke) meta) g task =
  (match invoke prompt with
   | Ok r =>
       if PyStr.contains (PyStr.str call_id) r then r
       else "LLM_ERROR: " ++ "Call ID missing in response: " ++ r
   | Raise e => "LLM_ERROR: " ++ e
   end,
   mkAgent (Some invoke) (Some (mkMeta log_id prompt false)),
   mkRng (raw g) (S (S (pos g)))).
Proof.
  cbv zeta. unfold execute_task, _call_llm, verify_response, randint.
  cbn [llm raw pos].
  change (999999 - 100000 + 1)%Z with 900000%Z.
  destruct (invoke _) as [r|e]; cbn [bind]; [|reflexivity].
  destruct (PyStr.contains _ r); reflexivity.
Qed.

(** X1.  After [execute_task] on an initialised agent,
    [get_last_call_info] holds the prompt that was sent, marked as not a
    verification, under an identifier drawn after the one in the prompt:
    the logged identifier is the prompt's CALL_ID only when the two draws
    agree.  The backend is kept, and two draws are consumed. *)
Theorem execute_task_records_call (invoke : string -> Result string)
  (meta : option CallMeta) (g : Rng) (task : string) :
  let after := snd (fst (execute_task (mkAgent (Some invoke) meta) g task)) in
  let call_id := fst (randint 100000 999999 g) in
  let log_id := fst (randint 100000 999999 (snd (randint 100000 999999 g))) in
  get_last_call_info after =
    Some (mkMeta log_id (verified_prompt call_id task) false) /\
  llm after = Some invoke /\
  snd (execute_task (mkAgent (Some invoke) meta) g task)
    = snd (randint 100000 999999 (snd (randint 100000 999999 g))) /\
  (log_id = call_id <->
   (raw g (S (pos g)) mod 900000 = raw g (pos g) mod 900000)%Z).
Proof.
  cbv zeta. rewrite execute_task_outcome. unfold randint, get_last_call_info.
  cbn [fst snd raw pos last_call_metadata llm].
  change (999999 - 100000 + 1)%Z with 900000%Z.
  repeat split; intros H; lia.
Qed.

Example execute_task_ids_differ :
  option_map meta_call_id
    (get_last_call_info
       (snd (fst (execute_task (mkAgent (Some echo_backend) None) sample_rng "What?"))))
  = Some 112161%Z /\
  fst (randint 100000 999999 sample_rng) = 104242%Z.
Proof. split; reflexivity. Qed.

Lemma verify_connection_outcome (invoke : string -> Result string)
  (meta : option CallMeta) (g : Rng) :
  let test_id := (100000 + raw g (pos g) mod 900000)%Z in
  let log_id := (100000 + raw g (S (pos g)) mod 900000)%Z in
  let prompt := test_prompt test_id in
  _verify_connection (mkAgent (Some invoke) meta) g =
  (match invoke prompt with
   | Ok r =>
       if PyStr.contains ("TEST_OK_" ++ PyStr.str test_id) r then Ok tt
       else Raise ("Verification failed. Got: " ++ r)
   | Raise e => Raise e
   end,
   mkAgent (Some invoke) (Some (mkMeta log_id prompt true)),
   mkRng (raw g) (S (S (pos g)))).
Proof.
  cbv zeta. unfold _verify_connection, _call_llm, randint. cbn [llm raw pos].
  change (999999 - 100000 + 1)%Z with 900000%Z.
  destruct (invoke _) as [r|e]; [|reflexivity].
  destruct (PyStr.contains _ r); reflexivity.
Qed.

(** X2.  The construction of the agent.  Without [use_llm] it yields an
    agent without backend, whose [execute_task] answers
    "LLM_NOT_INITIALIZED" and draws nothing.  With [use_llm] it fails with
    "GROQ_API_KEY missing in .env" when the key is absent or empty, before
    any call; otherwise it sends the test prompt, and it yields an agent
    exactly when the response holds "TEST_OK_" followed by the token of
    the prompt: a response without it fails with "Verification failed.
    Got: ...", an exception of the backend is passed on.  The agent it
    yields holds the backend, and its last call is the verification. *)
Theorem construction_verifies_connection (api_key : option string)
  (backend : string -> Result string) (g : Rng) :
  let test_id := fst (randint 100000 999999 g) in
  let token := "TEST_OK_" ++ PyStr.str test_id in
  (__init__ false api_key backend g = (Ok (mkAgent None None), g) /\
   forall g' task,
     execute_task (mkAgent None None) g' task
     = ("LLM_NOT_INITIALIZED", mkAgent None None, g')) /\
  (api_key = None \/ api_key = Some "" ->
   __init__ true api_key backend g = (Raise "GROQ_API_KEY missing in .env", g)) /\
  (forall key, api_key = Some key -> key <> "" ->
     Substring token (test_prompt test_id) /\
     (forall r, backend (test_prompt test_id) = Ok r ->
        (Substring token r ->
         exists agent,
           fst (__init__ true api_key backend g) = Ok agent /\
           llm agent = Some backend /\
           option_map meta_is_verification (get_last_call_info agent) = Some true /\
           option_map meta_prompt (get_last_call_info agent)
           = Some (test_prompt test_id)) /\
        (~ Substring token r ->
         fst (__init__ true api_key backend g)
         = Raise ("Verification failed. Got: " ++ r))) /\
     (forall e, backend (test_prompt test_id) = Raise e ->
        fst (__init__ true api_key backend g) = Raise e)).
Proof.
  cbv zeta. split; [split; reflexivity|]. split.
  - intros [->| ->]; reflexivity.
  - intros key -> Hkey.
    assert (Hinit : _initialize_llm (Some key) backend (mkAgent None None)
                    = Ok (mkAgent (Some backend) None)).
    { destruct key; [congruence | reflexivity]. }
    unfold __init__. rewrite Hinit, verify_connection_outcome.
    unfold randint. cbn [fst]. change (999999 - 100000 + 1)%Z with 900000%Z.
    set (test_id := (100000 + raw g (pos g) mod 900000)%Z).
    split; [|split].
    + unfold test_prompt. do 5 apply Substring_app_r.
      exists "        Respond ONLY with: ", (PyStr.nl ++ "        ").
      now rewrite !append_assoc.
    + intros r ->. split; intros H.
      * apply contains_spec in H. rewrite H. cbn [fst].
        eexists. split; [reflexivity|]. repeat split.
      * apply contains_false in H. now rewrite H.
    + intros e ->. reflexivity.
Qed.

End GatewayMore.

(** ** The Aggregator: the summary *)

Section SummaryFacts.
Import Pandas Analyzer.

(** [idxmax] finds the first of the largest values. *)
Lemma idxmax_from_split {K : Type} (s pre mid : list (K * Z)) (best : K * Z) :
  Forall (fun x => (snd x < snd best)%Z) pre ->
  Forall (fun x => (snd x <= snd best)%Z) mid ->
  exists l1 v l2,
    (pre ++ best :: mid ++ s = l1 ++ (idxmax_from best s, v) :: l2)%list /\
    Forall (fun x => (snd x < v)%Z) l1 /\
    Forall (fun x => (snd x <= v)%Z) l2.
Proof.
  revert pre mid best. induction s as [|kv s IH]; intros pre mid best Hpre Hmid.
  - exists pre, (snd best), mid. rewrite app_nil_r. cbn [idxmax_from].
    rewrite <- surjective_pairing. auto.
  - cbn [idxmax_from]. destruct (snd best <? snd kv)%Z eqn:E.
    + apply Z.ltb_lt in E.
      destruct (IH (pre ++ best :: mid)%list [] kv) as [l1 [v [l2 [Heq H]]]].
      * apply Forall_app. split.
        -- eapply Forall_impl; [|exact Hpre]. intros x Hx. simpl in Hx. lia.
        -- constructor; [exact E|].
           eapply Forall_impl; [|exact Hmid]. intros x Hx. simpl in Hx. lia.
      * constructor.
      * exists l1, v, l2. split; [|exact H].
        rewrite <- Heq. cbn [app]. rewrite <- app_assoc. reflexivity.
    + apply Z.ltb_ge in E.
      destruct (IH pre (mid ++ [kv])%list best Hpre) as [l1 [v [l2 [Heq H]]]].
      * apply Forall_app. split; [exact Hmid | now repeat constructor].
      * exists l1, v, l2. split; [|exact H].
        rewrite <- Heq, <- app_assoc. reflexivity.
Qed.

Lemma idxmax_first_largest {K : Type} (s : list (K * Z)) (k : K) :
  idxmax s = Ok k ->
  exists l1 v l2,
    (s = l1 ++ (k, v) :: l2)%list /\
    Forall (fun x => (snd x < v)%Z) l1 /\
    Forall (fun x => (snd x <= v)%Z) l2.
Proof.
  destruct s as [|kv s]; [discriminate|]. cbn [idxmax]. intros H. injection H as <-.
  destruct (idxmax_from_split s [] [] kv) as [l1 [v [l2 [Heq H]]]]; try constructor.
  exists l1, v, l2. split; [exact Heq | exact H].
Qed.

(** In a series sorted by key: the key that [idxmax] names has a value no
    other key exceeds, and among the keys of that value it is the first
    in the order of the keys. *)
Lemma idxmax_sorted_spec {K : Type} (cmp : K -> K -> comparison)
  (s : list (K * Z)) (k : K) :
  StronglySorted (key_lt cmp) s ->
  idxmax s = Ok k ->
  exists v, In (k, v) s /\
    forall k' v', In (k', v') s ->
      (v' <= v)%Z /\ (v' = v -> k' = k \/ cmp k k' = Lt).
Proof.
  intros Hs Hk. destruct (idxmax_first_largest s k Hk) as [l1 [v [l2 [-> [H1 H2]]]]].
  exists v. split; [apply in_elt|].
  intros k' v' Hin. apply in_app_or in Hin.
  rewrite Forall_forall in H1, H2.
  destruct Hin as [Hin|[Heq|Hin]].
  - specialize (H1 _ Hin). simpl in H1. split; lia.
  - injection Heq as <- <-. split; [lia | auto].
  - specialize (H2 _ Hin). simpl in H2. split; [exact H2|]. intros _. right.
    clear H1 H2 Hk. induction l1 as [|x l1 IH].
    + simpl in Hs. inversion Hs as [|? ? _ Hall]; subst.
      rewrite Forall_forall in Hall. exact (Hall _ Hin).
    + apply IH. simpl in Hs. inversion Hs; subst; assumption.
Qed.

Lemma has_region_key (g : string) (r : Row) :
  has_region g r =
  match key_Region r with
  | Some g' => is_key String.compare g (g', 0%Z)
  | None => false
  end.
Proof.
  unfold has_region, key_Region. destruct (Region r) as [g'|]; [|reflexivity].
  unfold is_key. cbn [fst].
  destruct (String.compare g g') eqn:E.
  - apply Scmp_eq in E. subst. apply String.eqb_refl.
  - apply String.eqb_neq. intros ->.
    assert (E' : String.compare g g = Eq) by now apply Scmp_eq. congruence.
  - apply String.eqb_neq. intros ->.
    assert (E' : String.compare g g = Eq) by now apply Scmp_eq. congruence.
Qed.


(** Two records of 5 * 10^18 in the North and one of 1 in the South: the
    sum of the North is held as a negative number, and the top region is
    the South. *)
Example summary_top_region_wraps :
  option_map top_region
    (match get_sales_summary sample_format overflow_frame with
     | Ok s => Some s
     | Raise _ => None
     end) = Some "South" /\
  region_total "North" (rows overflow_frame) = 10000000000000000000%Z /\
  region_total "South" (rows overflow_frame) = 1%Z.
Proof. repeat split; vm_compute; reflexivity. Qed.

End SummaryFacts.

(** ** The Aggregator: the largest pair, and the order of the records *)

Section AggregatorMore.
Import Pandas Analyzer.

(** Dropping the rows with a missing make, model or quantity takes no
    quantity value away from a pair. *)
Lemma pair_total_dropna (make model : string) (rs : list Row) :
  pair_total make model (dropna_Make_Model_Quantity rs) = pair_total make model rs.
Proof.
  unfold pair_total, dropna_Make_Model_Quantity. f_equal.
  induction rs as [|r rs IH]; [reflexivity|].
  cbn [filter].
  destruct (is_valid_row r) eqn:Ev, (has_pair make model r) eqn:Eh;
    cbn [filter]; rewrite ?Eh; unfold quantity_values in *; cbn [flat_map];
    rewrite ?IH; try reflexivity.
  assert (Hq : Quantity r = None).
  { unfold is_valid_row in Ev. unfold has_pair in Eh.
    destruct (Make r), (Model r), (Quantity r); try discriminate; reflexivity. }
  now rewrite Hq.
Qed.

Lemma nonempty_cases {A B C T : Type} (l1 : list A) (l2 : list B) (l3 : list C)
  (a b c d : T) :
  l1 <> [] -> l2 <> [] -> l3 <> [] ->
  match l1 with
  | [] => a
  | _ :: _ =>
      match l2 with
      | [] => b
      | _ :: _ => match l3 with [] => c | _ :: _ => d end
      end
  end = d.
Proof. destruct l1, l2, l3; congruence. Qed.

(** With a valid row the body of [_get_top_make_model] is the [idxmax] of
    the sums by (make, model) of the valid rows. *)
Lemma top_make_model_body_idxmax (data : DataFrame) (r0 : Row) :
  In r0 (rows data) -> is_valid_row r0 = true ->
  top_make_model_body data =
  (top_combo <-
     idxmax (groupby_sum cmp_Make_Model (add_dtype (quantity_is_float (rows data)))
               (keyed key_Make_Model (quantity_cell (quantity_is_float (rows data)))
                  (dropna_Make_Model_Quantity (rows data)))) ;;
   Ok (fst top_combo ++ " " ++ snd top_combo)).
Proof.
  intros Hr0 Hv0. unfold top_make_model_body. cbv zeta. apply nonempty_cases.
  - intros E. rewrite E in Hr0. destruct Hr0.
  - intros E.
    assert (Hc : In r0 (dropna_Make_Model_Quantity (rows data)))
      by (apply filter_In; auto).
    rewrite E in Hc. destruct Hc.
  - apply groupby_sum_not_nil. intros E.
    destruct (is_valid_row_key r0 Hv0) as [k0 Hk0].
    assert (H : In k0 (map fst (keyed key_Make_Model
                                  (quantity_cell (quantity_is_float (rows data)))
                                  (dropna_Make_Model_Quantity (rows data))))).
    { apply keyed_keys. exists r0. split; [apply filter_In; auto | exact Hk0]. }
    rewrite E in H. destruct H.
Qed.



(** Two records of 5 * 10^18 for (Toyota, Camry) and one of 1 for (B, Y):
    the sum of the first pair is held as a negative number, and the pair
    named is the second. *)
Example top_make_model_wraps :
  _get_top_make_model overflow_frame = "B Y" /\
  pair_total "Toyota" "Camry" (rows overflow_frame) = 10000000000000000000%Z /\
  as_Quantity (rows overflow_frame) (pair_total "Toyota" "Camry" (rows overflow_frame))
  = (-8446744073709551616)%Z /\
  pair_total "B" "Y" (rows overflow_frame) = 1%Z.
Proof. repeat split; vm_compute; reflexivity. Qed.

(** A tie goes to the first pair in the order of the names, whatever the
    order of the rows. *)
Example top_make_model_tie :
  _get_top_make_model
    (mkFrame [sample_row 2020 "B" "Y" 5; sample_row 2020 "A" "Z" 5;
              sample_row 2020 "A" "X" 5] year_datetime64 true None)
  = "A X".
Proof. reflexivity. Qed.

(** *** The order of the records *)

Lemma update_swap {K : Type} (cmp : K -> K -> comparison) (k : K)
  (acc : option Z) (x y : K * Z) :
  update cmp Z.add k (update cmp Z.add k acc x) y =
  update cmp Z.add k (update cmp Z.add k acc y) x.
Proof.
  unfold update. destruct (is_key cmp k x), (is_key cmp k y), acc;
    try reflexivity; f_equal; lia.
Qed.

Lemma fold_update_perm {K : Type} (cmp : K -> K -> comparison) (k : K)
  (cells cells' : list (K * Z)) :
  Permutation cells cells' ->
  forall acc, fold_left (update cmp Z.add k) cells acc =
              fold_left (update cmp Z.add k) cells' acc.
Proof.
  induction 1 as [|x l l' _ IH|x y l|l l' l'' _ IH1 _ IH2]; intros acc; cbn [fold_left].
  - reflexivity.
  - apply IH.
  - now rewrite update_swap.
  - now rewrite IH1, IH2.
Qed.

Section SortedSeries.
Variables K V : Type.
Variable cmp : K -> K -> comparison.
Hypothesis cmp_eq : forall a b, cmp a b = Eq <-> a = b.
Hypothesis cmp_antisym : forall a b, cmp b a = CompOpp (cmp a b).

Lemma lookup_head (k : K) (v : V) (s : list (K * V)) :
  lookup cmp k ((k, v) :: s) = Some v.
Proof.
  unfold lookup, is_key. cbn [find fst].
  replace (cmp k k) with Eq by (symmetry; now apply cmp_eq). reflexivity.
Qed.

Lemma lookup_In (k : K) (v : V) (s : list (K * V)) :
  lookup cmp k s = Some v -> In (k, v) s.
Proof.
  unfold lookup. induction s as [|[k' v'] s IH]; cbn [find]; [discriminate|].
  unfold is_key at 1. cbn [fst]. destruct (cmp k k') eqn:E.
  - apply cmp_eq in E. subst k'. cbn [option_map snd]. intros H. injection H as ->.
    now left.
  - intros H. right. now apply IH.
  - intros H. right. now apply IH.
Qed.

(** Two series sorted by key that hold the same value under every key
    are the same series. *)
Lemma sorted_series_ext (s1 s2 : list (K * V)) :
  StronglySorted (key_lt cmp) s1 -> StronglySorted (key_lt cmp) s2 ->
  (forall k, lookup cmp k s1 = lookup cmp k s2) -> s1 = s2.
Proof.
  intros H1. revert s2. induction H1 as [|[k1 v1] s1 Hs1 IH Hall1]; intros s2 H2 Hext.
  - destruct s2 as [|[k2 v2] s2]; [reflexivity|].
    specialize (Hext k2). rewrite lookup_head in Hext. discriminate.
  - destruct H2 as [|[k2 v2] s2 Hs2 Hall2].
    + specialize (Hext k1). rewrite lookup_head in Hext. discriminate.
    + rewrite Forall_forall in Hall1, Hall2.
      assert (Hk : k1 = k2).
      { pose proof (Hext k1) as E1. rewrite lookup_head in E1.
        symmetry in E1. apply lookup_In in E1.
        pose proof (Hext k2) as E2. rewrite lookup_head in E2.
        apply lookup_In in E2.
        destruct E1 as [E1|E1]; [congruence|].
        destruct E2 as [E2|E2]; [congruence|].
        specialize (Hall1 _ E2). specialize (Hall2 _ E1).
        unfold key_lt in Hall1, Hall2. cbn [fst] in Hall1, Hall2.
        rewrite (cmp_antisym k1 k2), Hall1 in Hall2. discriminate. }
      subst k2.
      assert (Hv : v1 = v2).
      { pose proof (Hext k1) as E. rewrite !lookup_head in E. congruence. }
      subst v2. f_equal. apply IH; [exact Hs2|].
      intros k. pose proof (Hext k) as E. unfold lookup in *. cbn [find] in E.
      unfold is_key at 1 3 in E. cbn [fst] in E.
      destruct (cmp k k1) eqn:Ek; try exact E.
      apply cmp_eq in Ek. subst k.
      assert (Hn : forall s, (forall x, In x s -> key_lt cmp (k1, v1) x) ->
                             option_map snd (find (is_key cmp k1) s) = None).
      { intros s Hs. apply (lookup_sorted_head_lt _ _ cmp k1 s).
        apply Forall_forall. intros x Hx. exact (Hs x Hx). }
      now rewrite (Hn s1 Hall1), (Hn s2 Hall2).
Qed.

End SortedSeries.

(** The sums by a key do not depend on the order of the rows. *)
Lemma groupby_sum_perm {K : Type} (cmp : K -> K -> comparison)
  (cells cells' : list (K * Z)) :
  (forall a b, cmp a b = Eq <-> a = b) ->
  (forall a b, cmp b a = CompOpp (cmp a b)) ->
  (forall a b c, cmp a b = Lt -> cmp b c = Lt -> cmp a c = Lt) ->
  Permutation cells cells' ->
  groupby_sum cmp Z.add cells = groupby_sum cmp Z.add cells'.
Proof.
  intros Heq Hanti Htrans Hperm.
  apply (sorted_series_ext _ _ cmp Heq Hanti);
    try (apply groupby_sum_sorted; assumption).
  intros k. rewrite !lookup_groupby_sum by assumption.
  now apply fold_update_perm.
Qed.

Lemma Permutation_filter' {A : Type} (f : A -> bool) (l l' : list A) :
  Permutation l l' -> Permutation (filter f l) (filter f l').
Proof.
  induction 1 as [|x l l' _ IH|x y l|l l' l'' _ IH1 _ IH2]; cbn [filter].
  - constructor.
  - destruct (f x); [now constructor | exact IH].
  - destruct (f x), (f y); try reflexivity. apply perm_swap.
  - now rewrite IH1.
Qed.

Lemma Permutation_keyed {R K V : Type} (key : R -> option K) (val : R -> V)
  (l l' : list R) :
  Permutation l l' -> Permutation (keyed key val l) (keyed key val l').
Proof.
  unfold keyed.
  induction 1 as [|x l l' _ IH|x y l|l l' l'' _ IH1 _ IH2]; cbn [flat_map].
  - constructor.
  - now apply Permutation_app_head.
  - rewrite !app_assoc. apply Permutation_app_tail, Permutation_app_comm.
  - now rewrite IH1.
Qed.

Lemma Permutation_existsb {A : Type} (f : A -> bool) (l l' : list A) :
  Permutation l l' -> existsb f l = existsb f l'.
Proof.
  induction 1 as [|x l l' _ IH|x y l|l l' l'' _ IH1 _ IH2]; cbn [existsb].
  - reflexivity.
  - now rewrite IH.
  - destruct (f x), (f y); reflexivity.
  - now rewrite IH1.
Qed.

Lemma Permutation_Zsum (l l' : list Z) : Permutation l l' -> Zsum l = Zsum l'.
Proof.
  unfold Zsum.
  induction 1 as [|x l l' _ IH|x y l|l l' l'' _ IH1 _ IH2]; cbn [fold_right]; lia.
Qed.

Lemma Permutation_nil_iff {A : Type} (l l' : list A) :
  Permutation l l' -> (l = [] <-> l' = []).
Proof.
  intros H. split; intros ->.
  - now apply Permutation_nil.
  - apply Permutation_nil. now symmetry.
Qed.

Lemma match_nil_perm {A T : Type} (l l' : list A) (a b : T) :
  Permutation l l' ->
  match l with [] => a | _ :: _ => b end = match l' with [] => a | _ :: _ => b end.
Proof.
  intros H. destruct l, l'; try reflexivity.
  - apply Permutation_nil in H. discriminate.
  - symmetry in H. apply Permutation_nil in H. discriminate.
Qed.

Lemma match_nil_ext {A T : Type} (l : list A) (a b b' : T) :
  b = b' ->
  match l with [] => a | _ :: _ => b end = match l with [] => a | _ :: _ => b' end.
Proof. intros ->. reflexivity. Qed.

(** The sums by a key in the Quantity column do not depend on the order
    of the rows either. *)
Lemma groupby_quantity_perm {K : Type} (cmp : K -> K -> comparison)
  (key : Row -> option K) (float64 : bool) (rs rs' : list Row) :
  (forall a b, cmp a b = Eq <-> a = b) ->
  (forall a b, cmp b a = CompOpp (cmp a b)) ->
  (forall a b c, cmp a b = Lt -> cmp b c = Lt -> cmp a c = Lt) ->
  Permutation rs rs' ->
  groupby_sum cmp (add_dtype float64) (keyed key (quantity_cell float64) rs)
  = groupby_sum cmp (add_dtype float64) (keyed key (quantity_cell float64) rs').
Proof.
  intros Heq Hanti Htrans Hperm. rewrite !groupby_quantity_dtype. f_equal.
  apply groupby_sum_perm; try assumption. now apply Permutation_keyed.
Qed.

Lemma Permutation_quantity_values (rs rs' : list Row) :
  Permutation rs rs' -> Permutation (quantity_values rs) (quantity_values rs').
Proof.
  unfold quantity_values.
  induction 1 as [|x l l' _ IH|x y l|l l' l'' _ IH1 _ IH2]; cbn [flat_map].
  - constructor.
  - now apply Permutation_app_head.
  - rewrite !app_assoc. apply Permutation_app_tail, Permutation_app_comm.
  - now rewrite IH1.
Qed.



(** *** The breakdown by make *)

Lemma year_total_app (y : Z) (rs rs' : list Row) :
  year_total y (rs ++ rs') = (year_total y rs + year_total y rs')%Z.
Proof.
  unfold year_total, quantity_values, Zsum.
  rewrite filter_app, flat_map_app, fold_right_app.
  generalize (flat_map (fun r => match Quantity r with Some q => [q] | None => [] end)
                (filter (has_year y) rs)).
  intros l. induction l as [|z l IH]; cbn [fold_right]; lia.
Qed.

Lemma year_total_no_row (y : Z) (rs : list Row) :
  existsb (has_year y) rs = false -> year_total y rs = 0%Z.
Proof.
  intros H. unfold year_total.
  replace (filter (has_year y) rs) with (@nil Row); [reflexivity|].
  symmetry. induction rs as [|r rs IH]; [reflexivity|].
  cbn [existsb filter] in *. apply orb_false_iff in H. destruct H as [-> H]. now apply IH.
Qed.

(** The value under a year in the totals of some rows, 0 for a year
    without row, is the sum of the quantity values of the rows of the
    year as the column holds it. *)
Lemma value_at_yearly_sales (float64 : bool) (y : Z) (rs : list Row) :
  value_at y (yearly_sales float64 rs) = as_dtype float64 (year_total y rs).
Proof.
  unfold value_at, yearly_sales. rewrite groupby_quantity_dtype, lookup_map.
  rewrite lookup_groupby_sum
    by first [exact Z.compare_eq_iff | exact Zcmp_antisym | exact Zcmp_trans].
  rewrite fold_update_year.
  destruct (existsb (has_year y) rs) eqn:E; cbn [option_map]; [reflexivity|].
  rewrite (year_total_no_row y rs E). destruct float64; reflexivity.
Qed.

Lemma as_dtype_Zsum_map {A : Type} (float64 : bool) (f : A -> Z) (l : list A) :
  as_dtype float64 (Zsum (map (fun x => as_dtype float64 (f x)) l))
  = as_dtype float64 (Zsum (map f l)).
Proof.
  unfold Zsum. induction l as [|x l IH]; cbn [map fold_right]; [reflexivity|].
  rewrite as_dtype_add_l, <- as_dtype_add_r, IH. apply as_dtype_add_r.
Qed.

Lemma rows_of_make_cons (make : option string) (r : Row) (rs : list Row) :
  rows_of_make make (r :: rs) =
  ((if cell_eqb (Make r) make && negb (cell_eqb make None) then [r] else [])
   ++ rows_of_make make rs)%list.
Proof.
  unfold rows_of_make. destruct make as [m|].
  - cbn [filter]. destruct (Make r) as [m'|]; cbn [cell_eqb negb andb].
    + rewrite andb_true_r. destruct (String.eqb m' m); reflexivity.
    + reflexivity.
  - cbn [cell_eqb negb]. rewrite andb_false_r. reflexivity.
Qed.

Lemma Zsum_map_add {A : Type} (f g : A -> Z) (l : list A) :
  Zsum (map (fun x => (f x + g x)%Z) l) = (Zsum (map f l) + Zsum (map g l))%Z.
Proof. unfold Zsum. induction l as [|x l IH]; cbn [map fold_right]; lia. Qed.

Lemma Zsum_map_zero {A : Type} (l : list A) : Zsum (map (fun _ => 0%Z) l) = 0%Z.
Proof. unfold Zsum. induction l as [|x l IH]; cbn [map fold_right]; lia. Qed.

(** Over a list without repetition, a sum that is [c] at one element and
    0 elsewhere is [c]. *)
Lemma Zsum_map_single (x0 : option string) (c : Z) (l : list (option string)) :
  NoDup l -> In x0 l ->
  Zsum (map (fun x => if cell_eqb x0 x then c else 0%Z) l) = c.
Proof.
  induction 1 as [|x l Hnot Hnd IH]; intros Hin; [destruct Hin|].
  unfold Zsum in *. cbn [map fold_right]. destruct Hin as [->|Hin].
  - replace (cell_eqb x0 x0) with true by (symmetry; now apply cell_eqb_spec).
    assert (H0 : fold_right Z.add 0%Z
                   (map (fun x => if cell_eqb x0 x then c else 0%Z) l) = 0%Z).
    { clear IH Hnd. induction l as [|z l IHl]; [reflexivity|].
      cbn [map fold_right].
      destruct (cell_eqb x0 z) eqn:E.
      - apply cell_eqb_spec in E. subst z. exfalso. apply Hnot. now left.
      - rewrite IHl; [lia|]. intros H. apply Hnot. now right. }
    lia.
  - destruct (cell_eqb x0 x) eqn:E.
    + apply cell_eqb_spec in E. subst x. contradiction.
    + rewrite (IH Hin). lia.
Qed.

(** The rows of one year, split by make: when every row has a make, the
    sums of the makes add up to the sum of all. *)
Lemma year_total_by_make (y : Z) (rs : list Row) (makes : list (option string)) :
  NoDup makes ->
  (forall r, In r rs -> Make r <> None /\ In (Make r) makes) ->
  Zsum (map (fun make => year_total y (rows_of_make make rs)) makes) = year_total y rs.
Proof.
  intros Hnd. induction rs as [|r rs IH]; intros Hall.
  - replace (map (fun make => year_total y (rows_of_make make [])) makes)
      with (map (fun _ : option string => 0%Z) makes).
    + now rewrite Zsum_map_zero.
    + apply map_ext. intros [m|]; reflexivity.
  - destruct (Hall r (or_introl eq_refl)) as [Hsome Hin].
    change (r :: rs) with ([r] ++ rs)%list at 2. rewrite year_total_app.
    rewrite <- IH by (intros r' Hr'; apply Hall; now right).
    rewrite <- (Zsum_map_single (Make r) (year_total y [r]) makes Hnd Hin).
    rewrite <- Zsum_map_add. f_equal. apply map_ext. intros make.
    rewrite rows_of_make_cons, year_total_app. f_equal.
    destruct (cell_eqb (Make r) make) eqn:E; cbn [andb].
    + apply cell_eqb_spec in E. subst make.
      destruct (Make r); [reflexivity | congruence].
    + reflexivity.
Qed.


(** A record without a make is in the total of its year and in no entry
    of the breakdown. *)
Example by_make_missing_make :
  let d := mkFrame [sample_row 2020 "A" "X" 60;
                    mkRow (Some 2020%Z) None (Some "X") (Some 5%Z) None None]
                   year_datetime64 true None in
  match fst (get_yearly_trends d) with
  | Ok t => (map (fun entry => value_at 2020 (snd entry)) (by_make t),
             value_at 2020 (total_by_year t))
  | Raise _ => ([], 0%Z)
  end = ([60%Z; 0%Z], 65%Z).
Proof. reflexivity. Qed.

End AggregatorMore.

(** ** The Aggregator: the table of the regions *)

Section RegionTable.
Import Pandas Analyzer.

Lemma YRcmp_eq (x y : Z * string) : cmp_Year_Region x y = Eq <-> x = y.
Proof. apply cmp_pair_eq; [exact Z.compare_eq_iff | exact Scmp_eq]. Qed.

Lemma YRcmp_antisym (x y : Z * string) :
  cmp_Year_Region y x = CompOpp (cmp_Year_Region x y).
Proof. apply cmp_pair_antisym; [exact Zcmp_antisym | exact Scmp_antisym]. Qed.

Lemma YRcmp_trans (x y z : Z * string) :
  cmp_Year_Region x y = Lt -> cmp_Year_Region y z = Lt -> cmp_Year_Region x z = Lt.
Proof.
  apply cmp_pair_trans;
    first [exact Z.compare_eq_iff | exact Zcmp_trans | exact Scmp_eq | exact Scmp_trans].
Qed.

Lemma key_Year_Region_Some (r : Row) (y : Z) (g : string) :
  key_Year_Region r = Some (y, g) <-> Year r = Some y /\ Region r = Some g.
Proof.
  unfold key_Year_Region. destruct (Year r), (Region r); split;
    try (intros [? ?]); try intros ?; try discriminate; try split; congruence.
Qed.

Lemma has_year_region_key (k : Z * string) (r : Row) :
  has_year_region (fst k) (snd k) r =
  match key_Year_Region r with
  | Some k' => is_key cmp_Year_Region k (k', 0%Z)
  | None => false
  end.
Proof.
  destruct k as [y g]. unfold has_year_region, key_Year_Region. cbn [fst snd].
  destruct (Year r) as [y'|]; [|reflexivity].
  destruct (Region r) as [g'|]; [|reflexivity].
  unfold is_key, cmp_Year_Region, cmp_pair. cbn [fst snd].
  destruct (Z.compare_spec y y') as [->|Hlt|Hgt].
  - rewrite Z.eqb_refl. cbn [andb].
    destruct (String.compare g g') eqn:E.
    + apply Scmp_eq in E. subst. apply String.eqb_refl.
    + apply String.eqb_neq. intros ->.
      assert (E' : String.compare g g = Eq) by now apply Scmp_eq. congruence.
    + apply String.eqb_neq. intros ->.
      assert (E' : String.compare g g = Eq) by now apply Scmp_eq. congruence.
  - replace (y' =? y)%Z with false by (symmetry; apply Z.eqb_neq; lia). reflexivity.
  - replace (y' =? y)%Z with false by (symmetry; apply Z.eqb_neq; lia). reflexivity.
Qed.

(** The sorted distinct keys are the keys, each once. *)
Lemma distinct_sorted_In {K : Type} (cmp : K -> K -> comparison) (ks : list K) (k : K) :
  (forall a b, cmp a b = Eq <-> a = b) ->
  (forall a b, cmp b a = CompOpp (cmp a b)) ->
  (forall a b c, cmp a b = Lt -> cmp b c = Lt -> cmp a c = Lt) ->
  In k (distinct_sorted cmp ks) <-> In k ks.
Proof.
  intros Heq Hanti Htrans. unfold distinct_sorted.
  rewrite groupby_sum_keys by assumption.
  rewrite map_map. cbn [fst]. now rewrite map_id.
Qed.

Lemma distinct_sorted_NoDup {K : Type} (cmp : K -> K -> comparison) (ks : list K) :
  (forall a b, cmp a b = Eq <-> a = b) ->
  (forall a b, cmp b a = CompOpp (cmp a b)) ->
  (forall a b c, cmp a b = Lt -> cmp b c = Lt -> cmp a c = Lt) ->
  NoDup (distinct_sorted cmp ks).
Proof.
  intros Heq Hanti Htrans. unfold distinct_sorted.
  eapply sorted_keys_NoDup; [| apply groupby_sum_sorted]; assumption.
Qed.


(** Two regions and two years, one of which only the first region has:
    the second region still has a cell for it, a missing one. *)
Example by_region_missing_cell :
  by_region_of false
    [ mkRow (Some 2020%Z) (Some "A") (Some "X") (Some 10%Z) (Some "North") None;
      mkRow (Some 2021%Z) (Some "A") (Some "X") (Some 20%Z) (Some "North") None;
      mkRow (Some 2021%Z) (Some "B") (Some "Y") (Some 5%Z) (Some "South") None;
      mkRow None (Some "B") (Some "Y") (Some 7%Z) (Some "West") None ]
  = [ ("North", [(2020, Some 10); (2021, Some 20)]%Z);
      ("South", [(2020, None); (2021, Some 5)]%Z) ].
Proof. reflexivity. Qed.

End RegionTable.

(** ** The router and the handlers *)

Section CrewMore.
Import Pandas Analyzer Crew.

Lemma Substring_extend (kw a s b : string) :
  Substring kw s -> Substring kw (a ++ s ++ b).
Proof.
  intros [pre [post ->]]. exists (a ++ pre), (post ++ b).
  now rewrite !append_assoc.
Qed.

Lemma Substring_app_l (kw a b : string) : Substring kw a -> Substring kw (a ++ b).
Proof.
  intros [pre [post ->]]. exists pre, (post ++ b). now rewrite !append_assoc.
Qed.

Lemma any_in_extend (kws : list string) (a q b : string) :
  PyStr.any_in kws (PyStr.lower q) = true ->
  PyStr.any_in kws (PyStr.lower (a ++ q ++ b)) = true.
Proof.
  unfold PyStr.any_in. rewrite !existsb_exists. intros [kw [Hin H]].
  exists kw. split; [exact Hin|].
  apply contains_spec. apply contains_spec in H.
  rewrite !lower_app. now apply Substring_extend.
Qed.

(** X7.  Text around a query never moves it down the chain of the
    router: a projection query stays one whatever is put before and after
    it, a comparison query becomes at most a projection query, and a
    ranking query is never made a general one. *)
Theorem classify_extension (a q b : string) :
  (priority (classify (a ++ q ++ b)) <= priority (classify q))%nat.
Proof.
  unfold classify.
  pose proof (any_in_extend projection_keywords a q b) as Hp.
  pose proof (any_in_extend comparison_keywords a q b) as Hc.
  pose proof (any_in_extend ranking_keywords a q b) as Hr.
  destruct (PyStr.any_in projection_keywords (PyStr.lower q));
    destruct (PyStr.any_in comparison_keywords (PyStr.lower q));
    destruct (PyStr.any_in ranking_keywords (PyStr.lower q));
    try rewrite (Hp eq_refl); try rewrite (Hc eq_refl); try rewrite (Hr eq_refl);
    destruct (PyStr.any_in projection_keywords (PyStr.lower (a ++ q ++ b)));
    destruct (PyStr.any_in comparison_keywords (PyStr.lower (a ++ q ++ b)));
    destruct (PyStr.any_in ranking_keywords (PyStr.lower (a ++ q ++ b)));
    cbn [priority]; lia.
Qed.

Example classify_extension_example :
  classify "top sellers" = Ranking /\
  classify ("top sellers" ++ " versus last year") = Comparison /\
  classify ("Predict: " ++ "top sellers" ++ " versus last year") = Projection.
Proof. repeat split; reflexivity. Qed.

(** *** The number of results *)

Lemma index_from_app (x : string) (pre tail : list string) (i : nat) :
  ~ In x pre ->
  PyStr.index_from x (pre ++ x :: tail) i = Some (i + List.length pre)%nat.
Proof.
  revert i. induction pre as [|w pre IH]; intros i Hnot; cbn [app PyStr.index_from].
  - rewrite String.eqb_refl. f_equal. simpl. lia.
  - destruct (String.eqb_spec w x) as [->|_].
    + exfalso. apply Hnot. now left.
    + rewrite IH by (intros H; apply Hnot; now right). f_equal. simpl. lia.
Qed.



(** *** The ranking by quantity, from the query to the text *)



(** Two records of 5 * 10^18 for (Toyota, Camry) and one of 1 for (B, Y):
    the first pair is printed with its wrapped sum, below the second. *)
Example ranking_quantity_wraps :
  option_map rank_results
    (match fst (ranking_body overflow_frame "best models") with
     | Ok r => Some r
     | Raise _ => None
     end)
  = Some [(("B", "Y"), NInt 1); (("Toyota", "Camry"), NInt (-8446744073709551616))].
Proof. vm_compute. reflexivity. Qed.

(** *** The comparison handler *)

(** X10.  One record without a make is enough for the comparison handler
    to answer every query with its error text: the loop over the distinct
    makes calls [lower] on the missing value. *)
Theorem comparison_missing_make_error (fmt : PyFormat) (data : DataFrame)
  (query : string) :
  (exists r, In r (rows data) /\ Make r = None) ->
  _handle_comparison_query fmt data query =
  "Could not complete comparison: 'float' object has no attribute 'lower'".
Proof.
  intros [r [Hr Hmake]]. unfold _handle_comparison_query, comparison_body.
  rewrite collect_targets_missing; [reflexivity|].
  apply unique_In. rewrite <- Hmake. now apply in_map.
Qed.

Lemma comparison_missing_make_error_witness :
  _handle_comparison_query sample_format
    (mkFrame [make_row "Toyota" 10 20000;
              mkRow (Some 2023%Z) None (Some "Sedan") (Some 1%Z) None None;
              make_row "Honda" 7 25000] year_datetime64 true None)
    "Toyota vs Honda"
  = "Could not complete comparison: 'float' object has no attribute 'lower'".
Proof.
  apply comparison_missing_make_error.
  exists (mkRow (Some 2023%Z) None (Some "Sedan") (Some 1%Z) None None).
  split; [simpl; auto | reflexivity].
Defined.

Lemma collect_targets_ext (makes : list (option string)) (q q' : string) :
  (forall m, In (Some m) makes ->
     PyStr.contains (PyStr.lower m) (PyStr.lower q) =
     PyStr.contains (PyStr.lower m) (PyStr.lower q')) ->
  collect_targets makes q = collect_targets makes q'.
Proof.
  induction makes as [|[m|] makes IH]; intros H; cbn [collect_targets].
  - reflexivity.
  - rewrite IH by (intros m' Hm'; apply H; now right).
    now rewrite (H m (or_introl eq_refl)).
  - reflexivity.
Qed.

(** X11.  The answer of the comparison handler depends on the query only
    through the makes of the data that occur in it: two queries in which
    the same makes occur get the same answer, whatever their wording and
    the order in which they name the makes (the lines follow the order of
    the makes in the data). *)
Theorem comparison_same_makes_same_answer (fmt : PyFormat) (data : DataFrame)
  (q q' : string) :
  (forall r m, In r (rows data) -> Make r = Some m ->
     (OccursNoCase (PyStr.lower m) q <-> OccursNoCase (PyStr.lower m) q')) ->
  _handle_comparison_query fmt data q = _handle_comparison_query fmt data q'.
Proof.
  intros H. unfold _handle_comparison_query, comparison_body.
  rewrite (collect_targets_ext _ q q'); [reflexivity|].
  intros m Hm. apply unique_In, in_map_iff in Hm. destruct Hm as [r [Hmake Hr]].
  specialize (H r m Hr Hmake). rewrite <- !contains_lower_spec in H.
  destruct (PyStr.contains (PyStr.lower m) (PyStr.lower q)),
           (PyStr.contains (PyStr.lower m) (PyStr.lower q')); try reflexivity.
  - symmetry. now apply H.
  - now apply H.
Qed.

Lemma comparison_same_makes_same_answer_witness :
  _handle_comparison_query sample_format spelling_frame "Toyota vs Honda" =
  _handle_comparison_query sample_format spelling_frame "is a honda like a TOYOTA?".
Proof.
  apply comparison_same_makes_same_answer.
  intros r m Hr Hm. rewrite <- !contains_lower_spec.
  simpl in Hr. destruct Hr as [<-|[<-|[<-|[]]]]; injection Hm as <-;
    split; reflexivity.
Defined.

(** *** The projection handler *)

(** X12.  The projection handler sends the Gateway a prompt made from the
    first rows of the data and a fixed form, and from nothing of the
    question: every projection query gets the answer of
    [_handle_projection_query], which is the response of the backend
    when it has the identifier of the call, and an "LLM_ERROR:" text
    otherwise; the prompt is what [get_last_call_info] shows afterwards,
    and the frame is left as it was. *)
Theorem projection_ignores_question (fmt : PyFormat)
  (invoke : string -> Result string) (meta : option Gateway.CallMeta)
  (d : DataFrame) (g : Gateway.Rng) (query : string) :
  classify query = Projection ->
  let st := mkState d (Gateway.mkAgent (Some invoke) meta) g in
  let call_id := fst (Gateway.randint 100000 999999 g) in
  let prompt := Gateway.verified_prompt call_id (projection_task fmt d) in
  let out := _process_query fmt st query in
  data (snd out) = d /\
  option_map Gateway.meta_prompt
    (Construction.get_last_call_info (query_handler (snd out))) = Some prompt /\
  Substring (repr_head fmt d) prompt /\
  (forall r, invoke prompt = Ok r ->
     (Substring (PyStr.str call_id) r -> fst out = r) /\
     (~ Substring (PyStr.str call_id) r ->
      fst out = "LLM_ERROR: " ++ "Call ID missing in response: " ++ r)) /\
  (forall e, invoke prompt = Raise e -> fst out = "LLM_ERROR: " ++ e).
Proof.
  intros Hclass. cbv zeta. unfold _process_query. rewrite Hclass.
  unfold _handle_projection_query. cbn [query_handler random data].
  rewrite execute_task_outcome. unfold Gateway.randint.
  cbn [fst snd data query_handler Construction.get_last_call_info
       Gateway.last_call_metadata option_map Gateway.meta_prompt].
  change (999999 - 100000 + 1)%Z with 900000%Z.
  split; [reflexivity|]. split; [reflexivity|]. split; [|split].
  - unfold Gateway.verified_prompt.
    do 8 apply Substring_app_r. apply Substring_app_l.
    unfold projection_task. apply Substring_middle.
  - intros r ->. split; intros H.
    + apply contains_spec in H. now rewrite H.
    + apply contains_false in H. now rewrite H.
  - intros e ->. reflexivity.
Qed.

Lemma projection_ignores_question_witness :
  let st := mkState sample_frame (Gateway.mkAgent (Some echo_backend) None) sample_rng in
  let call_id := fst (Gateway.randint 100000 999999 sample_rng) in
  let prompt := Gateway.verified_prompt call_id (projection_task sample_format sample_frame) in
  let out := _process_query sample_format st "Forecast for the top sellers" in
  data (snd out) = sample_frame /\
  option_map Gateway.meta_prompt
    (Construction.get_last_call_info (query_handler (snd out))) = Some prompt /\
  Substring (repr_head sample_format sample_frame) prompt /\
  (forall r, echo_backend prompt = Ok r ->
     (Substring (PyStr.str call_id) r -> fst out = r) /\
     (~ Substring (PyStr.str call_id) r ->
      fst out = "LLM_ERROR: " ++ "Call ID missing in response: " ++ r)) /\
  (forall e, echo_backend prompt = Raise e -> fst out = "LLM_ERROR: " ++ e).
Proof.
  apply (projection_ignores_question sample_format echo_backend None sample_frame
           sample_rng "Forecast for the top sellers").
  reflexivity.
Defined.

(** *** The frame over a run *)

Lemma reachable_step (fmt : PyFormat) (d : DataFrame) (st : State) (op : Operation) :
  reachable_from d (data st) -> reachable_from d (data (step fmt st op)).
Proof.
  intros H. rewrite step_data. unfold reachable_from in *.
  destruct d as [rs dt reg rev].
  destruct (writes_Revenue op), (converts_Year fmt (data st) op);
    destruct H as [-> | [-> | [-> | ->]]];
    unfold with_Revenue, year_converted; cbn [rows Year_dtype Revenue]; tauto.
Qed.

(** X13.  Whatever the operations of a run and their order, the frame is
    the loaded one with at most two changes: its Year column re-assigned
    as timestamps, and the column [Revenue] holding quantity times price
    of its rows.  No other frame is ever reached, and a frame that the
    loader read with [parse_dates] (its years are timestamps) is either
    unchanged or has gained the column [Revenue]. *)
Theorem frames_after_operations (fmt : PyFormat) (st : State) (ops : list Operation) :
  reachable_from (data st) (data (steps fmt st ops)) /\
  (Year_dtype (data st) = year_datetime64 ->
   data (steps fmt st ops) = data st \/
   data (steps fmt st ops) = with_Revenue (data st)).
Proof.
  assert (H : forall d st, reachable_from d (data st) ->
                           reachable_from d (data (steps fmt st ops))).
  { intros d. induction ops as [|op ops IH]; intros st0 H0; [exact H0|].
    unfold steps in *. cbn [fold_left]. apply IH. now apply reachable_step. }
  split; [apply H; now left|].
  intros Hdt. specialize (H (data st) st (or_introl eq_refl)).
  unfold reachable_from in H. rewrite (year_converted_datetime _ Hdt) in H. tauto.
Qed.

Example frames_after_operations_example :
  data (steps sample_format
          (mkState (mkFrame (rows sample_frame) year_int64 true None)
                   (query_handler sample_state) (random sample_state))
          [OpSummary; OpQuery "top 2 by revenue"; OpTrends; OpQuery "worst revenue"])
  = mkFrame (rows sample_frame) year_datetime64 true
            (Some [Some 6000; Some 5000; Some 20000; Some 4000]).
Proof. reflexivity. Qed.

(** *** The general handler and the regions *)

Lemma summary_needs_region (fmt : PyFormat) (d : DataFrame) :
  is_Ok (get_sales_summary fmt d) =
  Region_column d &&
  existsb (fun r => match Region r with Some _ => true | None => false end) (rows d).
Proof.
  unfold get_sales_summary, groupby_Region. cbv zeta.
  destruct (Region_column d); cbn [bind is_Ok andb]; [|reflexivity].
  set (float64 := quantity_is_float (rows d)). clearbody float64.
  set (cells := keyed key_Region (quantity_cell float64) (rows d)).
  assert (Hcells : cells = [] <->
            existsb (fun r => match Region r with Some _ => true | None => false end)
                    (rows d) = false).
  { unfold cells, keyed, key_Region. induction (rows d) as [|r rs IH]; [tauto|].
    cbn [flat_map existsb]. destruct (Region r); cbn [orb app].
    - split; discriminate.
    - exact IH. }
  destruct cells as [|c cells'] eqn:Ec.
  - cbn [groupby_sum fold_left idxmax bind is_Ok]. symmetry. now apply Hcells.
  - pose proof (groupby_sum_not_nil _ _ String.compare (add_dtype float64) (c :: cells')
                  ltac:(discriminate)) as Hne.
    destruct (groupby_sum String.compare (add_dtype float64) (c :: cells')) as [|kv s];
      [congruence|].
    cbn [idxmax bind is_Ok].
    destruct (existsb _ (rows d)); [reflexivity|].
    destruct Hcells as [_ Hcells]. discriminate (Hcells eq_refl).
Qed.

(** X14.  A question about "growth" is answered from the data only when
    the frame has the column Region and some record has a region: the
    growth rate itself does not use the regions, but it is taken from the
    summary, and the summary fails as a whole on data without region; the
    handler then goes on to its fallback and answers "Could not process
    this query". *)
Theorem general_growth_needs_region (fmt : PyFormat) (st : State) (query : string) :
  OccursNoCase "growth" query ->
  ((Region_column (data st) = true /\
    exists r, In r (rows (data st)) /\ Region r <> None) ->
   _handle_general_query fmt st query =
   ("Average yearly growth: " ++ fmt_pct1 fmt (_calculate_yearly_growth (data st)), st)) /\
  ((Region_column (data st) = false \/
    forall r, In r (rows (data st)) -> Region r = None) ->
   fst (_handle_general_query fmt st query) = "Could not process this query").
Proof.
  intros Hgrowth. apply contains_lower_spec in Hgrowth.
  pose proof (summary_needs_region fmt (data st)) as Hsum.
  unfold _handle_general_query, general_body. split.
  - intros [Hcol [r [Hr Hreg]]].
    assert (E : existsb (fun r => match Region r with Some _ => true | None => false end)
                  (rows (data st)) = true).
    { apply existsb_exists. exists r. split; [exact Hr|].
      destruct (Region r); [reflexivity | congruence]. }
    rewrite Hcol, E in Hsum.
    destruct (get_sales_summary fmt (data st)) as [s|e] eqn:Hs; [|discriminate].
    rewrite Hgrowth. now rewrite (summary_yearly_growth _ _ _ Hs).
  - intros Hnone.
    assert (E : Region_column (data st) &&
                existsb (fun r => match Region r with Some _ => true | None => false end)
                  (rows (data st)) = false).
    { destruct Hnone as [->|Hnone]; [reflexivity|].
      apply andb_false_iff. right.
      destruct (existsb _ (rows (data st))) eqn:E; [|reflexivity].
      apply existsb_exists in E. destruct E as [r [Hr E]].
      rewrite (Hnone r Hr) in E. discriminate. }
    rewrite E in Hsum.
    destruct (get_sales_summary fmt (data st)) as [s|e]; [discriminate|].
    now rewrite general_fallback_raises.
Qed.

Lemma general_growth_needs_region_witness :
  ((Region_column (data sample_state) = true /\
    exists r, In r (rows (data sample_state)) /\ Region r <> None) ->
   _handle_general_query sample_format sample_state "Sales growth?" =
   ("Average yearly growth: " ++
      fmt_pct1 sample_format (_calculate_yearly_growth (data sample_state)),
    sample_state)) /\
  ((Region_column (data sample_state) = false \/
    forall r, In r (rows (data sample_state)) -> Region r = None) ->
   fst (_handle_general_query sample_format sample_state "Sales growth?")
   = "Could not process this query").
Proof.
  apply (general_growth_needs_region sample_format sample_state "Sales growth?").
  apply contains_lower_spec. reflexivity.
Defined.

(** The same records read from a file without a column Region. *)
Example general_growth_without_Region_column :
  fst (_handle_general_query sample_format
         (mkState (mkFrame (rows sample_frame) year_datetime64 false None)
                  (query_handler sample_state) (random sample_state))
         "Sales growth?")
  = "Could not process this query".
Proof. reflexivity. Qed.

Example general_growth_without_region :
  fst (_handle_general_query sample_format
         (mkState (mkFrame [mkRow (Some 2020%Z) (Some "A") (Some "X") (Some 60%Z) None
                                  (Some 100);
                            mkRow (Some 2021%Z) (Some "A") (Some "X") (Some 90%Z) None
                                  (Some 100)]
                           year_datetime64 true None)
                  (query_handler sample_state) (random sample_state))
         "Sales growth?")
  = "Could not process this query".
Proof. reflexivity. Qed.

(** *** The ranking of the "expensive" *)

Lemma Qsum_app (l l' : list Q) : Qsum (l ++ l') == Qsum l + Qsum l'.
Proof.
  unfold Qsum. induction l as [|q l IH]; cbn [app fold_right]; [ring|].
  rewrite IH. ring.
Qed.

(** The running sum of the prices under a key. *)
Lemma fold_update_price {K : Type} (cmp : K -> K -> comparison)
  (key : Row -> option K) (k : K) (sel : Row -> bool) :
  (forall r, sel r = match key r with
                     | Some k' => match cmp k k' with Eq => true | _ => false end
                     | None => false
                     end) ->
  forall (rs : list Row) (acc : option Q),
  match acc with
  | Some a =>
      exists v, fold_left (update cmp Qplus k) (keyed key price_or_0 rs) acc = Some v /\
                v == a + Qsum (prices (filter sel rs))
  | None =>
      if existsb sel rs
      then exists v, fold_left (update cmp Qplus k) (keyed key price_or_0 rs) acc = Some v /\
                     v == Qsum (prices (filter sel rs))
      else fold_left (update cmp Qplus k) (keyed key price_or_0 rs) acc = None
  end.
Proof.
  intros Hsel. induction rs as [|r rs IH]; intros acc.
  - destruct acc as [a|]; cbn; [|reflexivity]. exists a. split; [reflexivity|]. ring.
  - unfold keyed in *. cbn [flat_map]. rewrite fold_left_app.
    cbn [filter existsb]. rewrite (Hsel r).
    destruct (key r) as [k'|]; cbn [fold_left].
    + assert (Hu : update cmp Qplus k acc (k', price_or_0 r) =
                   match cmp k k' with
                   | Eq => Some (match acc with
                                 | Some a => a + price_or_0 r
                                 | None => price_or_0 r
                                 end)
                   | _ => acc
                   end).
      { unfold update, is_key. cbn [fst snd]. destruct (cmp k k'); reflexivity. }
      rewrite Hu. clear Hu.
      destruct (cmp k k'); cbn [orb]; try exact (IH acc).
      assert (Hp : Qsum (prices (r :: filter sel rs))
                   == price_or_0 r + Qsum (prices (filter sel rs))).
      { unfold prices. cbn [flat_map]. rewrite Qsum_app. unfold price_or_0.
        destruct (Price r); cbn; ring. }
      destruct acc as [a|].
      * destruct (IH (Some (a + price_or_0 r))) as [v [Hv Hq]].
        exists v. split; [exact Hv|]. rewrite Hq, Hp. ring.
      * destruct (IH (Some (price_or_0 r))) as [v [Hv Hq]].
        exists v. split; [exact Hv|]. rewrite Hq, Hp. ring.
    + exact (IH acc).
Qed.



(** Two records at 20000 stand above one record at 30000. *)
Example ranking_expensive_example :
  option_map rank_results
    (match fst (ranking_body
                  (mkFrame [make_row "Kia" 1 20000; make_row "Kia" 1 20000;
                            make_row "BMW" 1 30000] year_datetime64 true None)
                  "most expensive") with
     | Ok r => Some r
     | Raise _ => None
     end)
  = Some [(("Kia", "Sedan"), NFloat 40000); (("BMW", "Sedan"), NFloat 30000)].
Proof. reflexivity. Qed.

(** The running sum of the values under a key, for rows of any kind. *)
Lemma fold_update_Qsum {R K : Type} (cmp : K -> K -> comparison)
  (key : R -> option K) (val : R -> Q) (k : K) (sel : R -> bool) :
  (forall r, sel r = match key r with
                     | Some k' => match cmp k k' with Eq => true | _ => false end
                     | None => false
                     end) ->
  forall (rs : list R) (acc : option Q),
  match acc with
  | Some a =>
      exists v, fold_left (update cmp Qplus k) (keyed key val rs) acc = Some v /\
                v == a + Qsum (map val (filter sel rs))
  | None =>
      if existsb sel rs
      then exists v, fold_left (update cmp Qplus k) (keyed key val rs) acc = Some v /\
                     v == Qsum (map val (filter sel rs))
      else fold_left (update cmp Qplus k) (keyed key val rs) acc = None
  end.
Proof.
  intros Hsel. induction rs as [|r rs IH]; intros acc.
  - destruct acc as [a|]; cbn; [|reflexivity]. exists a. split; [reflexivity|]. ring.
  - unfold keyed in *. cbn [flat_map]. rewrite fold_left_app.
    cbn [filter existsb]. rewrite (Hsel r).
    destruct (key r) as [k'|]; cbn [fold_left].
    + assert (Hu : update cmp Qplus k acc (k', val r) =
                   match cmp k k' with
                   | Eq => Some (match acc with
                                 | Some a => a + val r
                                 | None => val r
                                 end)
                   | _ => acc
                   end).
      { unfold update, is_key. cbn [fst snd]. destruct (cmp k k'); reflexivity. }
      rewrite Hu. clear Hu.
      destruct (cmp k k'); cbn [orb]; try exact (IH acc).
      cbn [map]. change (Qsum (val r :: map val (filter sel rs)))
        with (val r + Qsum (map val (filter sel rs))).
      destruct acc as [a|].
      * destruct (IH (Some (a + val r))) as [v [Hv Hq]].
        exists v. split; [exact Hv|]. rewrite Hq. ring.
      * destruct (IH (Some (val r))) as [v [Hv Hq]].
        exists v. split; [exact Hv|]. rewrite Hq. ring.
    + exact (IH acc).
Qed.

(** The rows beside their cells of the column [Revenue]. *)
Lemma combine_revenue_In (rs : list Row) (r : Row) (c : option Q) :
  In (r, c) (combine rs (revenue_column rs)) -> In r rs.
Proof. intros H. eapply in_combine_l. exact H. Qed.

Lemma In_combine_revenue (rs : list Row) (r : Row) :
  In r rs -> exists c, In (r, c) (combine rs (revenue_column rs)).
Proof.
  unfold revenue_column. induction rs as [|r' rs IH]; [intros []|].
  cbn [map combine]. intros [->|H].
  - eexists. left. reflexivity.
  - destruct (IH H) as [c Hc]. exists c. right. exact Hc.
Qed.

Lemma combine_revenue_sum (sel : Row -> bool) (rs : list Row) :
  existsb (fun rc : Row * option Q => sel (fst rc)) (combine rs (revenue_column rs))
  = existsb sel rs /\
  Qsum (map (fun rc : Row * option Q => cell_or_0 (snd rc))
          (filter (fun rc => sel (fst rc)) (combine rs (revenue_column rs))))
  == Qsum (revenue_values (filter sel rs)).
Proof.
  unfold revenue_column. induction rs as [|r rs [IHe IHs]]; [split; reflexivity|].
  cbn [map combine existsb filter fst]. rewrite IHe. split; [reflexivity|].
  destruct (sel r); [|exact IHs].
  cbn [map snd]. unfold revenue_values in *. cbn [flat_map]. rewrite Qsum_app.
  change (Qsum (?x :: ?l)) with (x + Qsum l). rewrite IHs.
  destruct (Quantity r), (Price r); cbn; ring.
Qed.



(** A record without a price adds nothing to the revenue of its pair. *)
Example ranking_revenue_example :
  option_map rank_results
    (match fst (ranking_body
                  (mkFrame [make_row "Kia" 2 20000;
                            mkRow (Some 2023%Z) (Some "Kia") (Some "Sedan") (Some 9%Z)
                                  (Some "North") None;
                            make_row "BMW" 1 30000] year_datetime64 true None)
                  "revenue") with
     | Ok r => Some r
     | Raise _ => None
     end)
  = Some [(("Kia", "Sedan"), NFloat 40000); (("BMW", "Sedan"), NFloat 30000)].
Proof. reflexivity. Qed.

End CrewMore.
